(** * Karmada multi-cluster scheduling environment

    A shallow embedding of [envs/karmada_scheduling_env.py]: the resource
    ledger of the cluster fleet, the departure timeline, the replica-splitting
    heuristics, the latency model and the naive reward.

    Conventions of the embedding.
    - Python and numpy floats are read as exact rationals ([Q]); Python
      integers are [Z]; cluster indices and actions are [nat].  The source
      rounds every sum, difference, product and quotient to binary64, so
      the properties proved compare and bound the values the code stores
      and name the operations it performs; none rests on an identity that
      rounding breaks, such as [(a + x) - x = a].  The runs use amounts of
      CPU and memory that binary64 represents exactly.
    - numpy arrays of length [num_clusters] are lists; [get] reads an entry and
      [upd] writes one.  The arrays are allocated with [num_clusters] entries
      in [__init__] and [reset], so the source never indexes them out of range.
    - An operation that can raise in Python returns [option]; [None] is the
      raised exception.
    - Every pseudo-random draw is an explicit argument of the operation that
      consumes it. *)

From Stdlib Require Import ZArith QArith Qminmax Qround List Bool String Lia Lqa.
Import ListNotations.

Local Open Scope Q_scope.

(** ** Arrays *)

Definition get (i : nat) (l : list Q) : Q := nth i l 0.

Fixpoint upd {A : Type} (i : nat) (v : A) (l : list A) : list A :=
  match l, i with
  | [], _ => []
  | _ :: t, O => v :: t
  | x :: t, S j => x :: upd j v t
  end.

Definition geti (i : nat) (l : list Z) : Z := nth i l 0%Z.

Definition row (i : nat) (m : list (list Q)) : list Q := nth i m [].

Definition mget (i j : nat) (m : list (list Q)) : Q := get j (row i m).

Definition mset (i j : nat) (v : Q) (m : list (list Q)) : list (list Q) :=
  upd i (upd j v (row i m)) m.

Definition Qlt_bool (a b : Q) : bool := negb (Qle_bool b a).

Definition Qsum (l : list Q) : Q := fold_left Qplus l 0.

Definition Zsum (l : list Z) : Z := fold_left Z.add l 0%Z.

(** Built-in [min] over a sequence: raises [ValueError] when it is empty. *)
Definition min_list (l : list Q) : option Q :=
  match l with
  | [] => None
  | x :: t => Some (fold_left Qmin t x)
  end.

(** Built-in [sorted(range(n), key=...)]: ascending and stable. *)
Fixpoint insert_by (key : nat -> Q) (x : nat) (l : list nat) : list nat :=
  match l with
  | [] => [x]
  | y :: t => if Qle_bool (key x) (key y) then x :: l else y :: insert_by key x t
  end.

Fixpoint sorted_by (key : nat -> Q) (l : list nat) : list nat :=
  match l with
  | [] => []
  | x :: t => insert_by key x (sorted_by key t)
  end.

(** The option monad used for operations that can raise. *)
Definition bind {A B : Type} (m : option A) (f : A -> option B) : option B :=
  match m with
  | Some a => f a
  | None => None
  end.

Notation "x <- m ;; k" := (bind m (fun x => k))
  (at level 61, m at next level, right associativity).

(** ** Module constants *)

Definition MAX_REPLICAS : Z := 8.
Definition MIN_REPLICAS : Z := 1.

Definition NAIVE : string := "naive".
Definition RISK_AWARE : string := "risk".
Definition BINPACK : string := "binpack".
Definition LATENCY : string := "latency".
Definition COST : string := "cost".
Definition MULTI : string := "multi".

Definition MAX_COST : Q := 16.
Definition MIN_COST : Q := 1.

Record ClusterType : Type := mkClusterType { ct_cpu : Q; ct_mem : Q; ct_cost : Q }.

Definition NUM_CLUSTER_TYPES : Z := 5.

Definition DEFAULT_CLUSTER_TYPES : list ClusterType :=
  [ mkClusterType 2 2 1;      (* edge_tier_1 *)
    mkClusterType 2 4 2;      (* edge_tier_2 *)
    mkClusterType 2 8 4;      (* fog_tier_1 *)
    mkClusterType 4 16 8;     (* fog_tier_2 *)
    mkClusterType 8 32 16 ].  (* cloud *)

Definition cluster_type_of (t : nat) : ClusterType :=
  nth t DEFAULT_CLUSTER_TYPES (mkClusterType 0 0 0).

Definition NUM_SPREADING_ACTIONS : nat := 3.
Definition FFD : nat := 0.
Definition FFI : nat := 1.
Definition BF1B1 : nat := 2.

Definition MIN_DELAY : Q := 1.
Definition MAX_DELAY : Q := 1000.

(** The 95% threshold of the two fullness checks. *)
Definition FULL_THRESHOLD : Q := 95 # 100.

(** ** Deployment requests *)

(** Modelled from the spec: the [DeploymentRequest] class is declared in
    [envs/utils.py], which is not part of the sources at hand.  The record
    keeps the fields the environment reads and writes: the immutable shape,
    the departure time used as key of the timeline, and the placement outcome
    ([deployed_cluster] or [split_clusters], discriminated by
    [is_deployment_split]; the fields not yet assigned hold Python's [None]). *)
Record DeploymentRequest : Type := mkRequest {
  num_replicas : Z;
  cpu_request : Q;
  memory_request : Q;
  latency_threshold : Q;
  departure_time : Q;
  deployed_cluster : option nat;
  is_deployment_split : bool;
  split_clusters : option (list Z);
  expected_latency : option Q;
  expected_cost : option Q
}.

(** Assignment to a field of a request. *)
Definition with_num_replicas (v : Z) (r : DeploymentRequest) : DeploymentRequest :=
  mkRequest v (cpu_request r) (memory_request r) (latency_threshold r)
    (departure_time r) (deployed_cluster r) (is_deployment_split r) (split_clusters r)
    (expected_latency r) (expected_cost r).

Definition with_deployed_cluster (v : option nat) (r : DeploymentRequest) : DeploymentRequest :=
  mkRequest (num_replicas r) (cpu_request r) (memory_request r) (latency_threshold r)
    (departure_time r) v (is_deployment_split r) (split_clusters r) (expected_latency r)
    (expected_cost r).

Definition with_is_deployment_split (v : bool) (r : DeploymentRequest) : DeploymentRequest :=
  mkRequest (num_replicas r) (cpu_request r) (memory_request r) (latency_threshold r)
    (departure_time r) (deployed_cluster r) v (split_clusters r) (expected_latency r)
    (expected_cost r).

Definition with_split_clusters (v : option (list Z)) (r : DeploymentRequest) : DeploymentRequest :=
  mkRequest (num_replicas r) (cpu_request r) (memory_request r) (latency_threshold r)
    (departure_time r) (deployed_cluster r) (is_deployment_split r) v
    (expected_latency r) (expected_cost r).

Definition with_expected_latency (v : option Q) (r : DeploymentRequest) : DeploymentRequest :=
  mkRequest (num_replicas r) (cpu_request r) (memory_request r) (latency_threshold r)
    (departure_time r) (deployed_cluster r) (is_deployment_split r) (split_clusters r) v
    (expected_cost r).

Definition with_expected_cost (v : option Q) (r : DeploymentRequest) : DeploymentRequest :=
  mkRequest (num_replicas r) (cpu_request r) (memory_request r) (latency_threshold r)
    (departure_time r) (deployed_cluster r) (is_deployment_split r) (split_clusters r)
    (expected_latency r) v.

(** ** Environment state: the attributes of [KarmadaSchedulingEnv] *)

Record Env : Type := mkEnv {
  num_clusters : nat;
  arrival_rate_r : Q;
  call_duration_r : Q;
  episode_length : Z;
  reward_function : string;
  running_requests : list (Q * DeploymentRequest);
  min_replicas : Z;
  max_replicas : Z;
  latency_matrix : list (list Q);
  latency : list Q;
  deployment_request : DeploymentRequest;
  cpu_capacity : list Q;
  memory_capacity : list Q;
  cluster_type : list nat;
  allocated_cpu : list Q;
  allocated_memory : list Q;
  free_cpu : list Q;
  free_memory : list Q;
  split_number_replicas : list Q;
  latency_weight : Q;
  cost_weight : Q;
  gini_weight : Q;
  current_step : Z;
  current_time : Q;
  dt : Q;
  penalty : bool;
  accepted_requests : Z;
  offered_requests : Z;
  ep_accepted_requests : Z;
  total_reward : Q;
  episode_over : bool;
  block_prob : Q;
  ep_block_prob : Q;
  avg_latency : list Q;
  avg_cost : list Q;
  avg_cpu_usage_percentage_cluster_selected : list Q;
  avg_load_served : list Q;
  deploy_all : Z;
  deploy_ffd : Z;
  deploy_ffi : Z;
  deploy_bf1b1 : Z;
  episode_count : Z
}.

(** Assignment to an attribute, one function for each attribute the
    environment writes after construction. *)
Definition set_running_requests (v : list (Q * DeploymentRequest)) (s : Env) : Env :=
  mkEnv (num_clusters s) (arrival_rate_r s) (call_duration_r s) (episode_length s)
    (reward_function s) v (min_replicas s) (max_replicas s) (latency_matrix s)
    (latency s) (deployment_request s) (cpu_capacity s) (memory_capacity s)
    (cluster_type s) (allocated_cpu s) (allocated_memory s) (free_cpu s) (free_memory s)
    (split_number_replicas s) (latency_weight s) (cost_weight s) (gini_weight s)
    (current_step s) (current_time s) (dt s) (penalty s) (accepted_requests s)
    (offered_requests s) (ep_accepted_requests s) (total_reward s) (episode_over s)
    (block_prob s) (ep_block_prob s) (avg_latency s) (avg_cost s)
    (avg_cpu_usage_percentage_cluster_selected s) (avg_load_served s) (deploy_all s)
    (deploy_ffd s) (deploy_ffi s) (deploy_bf1b1 s) (episode_count s).

Definition set_latency_matrix (v : list (list Q)) (s : Env) : Env :=
  mkEnv (num_clusters s) (arrival_rate_r s) (call_duration_r s) (episode_length s)
    (reward_function s) (running_requests s) (min_replicas s) (max_replicas s) v
    (latency s) (deployment_request s) (cpu_capacity s) (memory_capacity s)
    (cluster_type s) (allocated_cpu s) (allocated_memory s) (free_cpu s) (free_memory s)
    (split_number_replicas s) (latency_weight s) (cost_weight s) (gini_weight s)
    (current_step s) (current_time s) (dt s) (penalty s) (accepted_requests s)
    (offered_requests s) (ep_accepted_requests s) (total_reward s) (episode_over s)
    (block_prob s) (ep_block_prob s) (avg_latency s) (avg_cost s)
    (avg_cpu_usage_percentage_cluster_selected s) (avg_load_served s) (deploy_all s)
    (deploy_ffd s) (deploy_ffi s) (deploy_bf1b1 s) (episode_count s).

Definition set_latency (v : list Q) (s : Env) : Env :=
  mkEnv (num_clusters s) (arrival_rate_r s) (call_duration_r s) (episode_length s)
    (reward_function s) (running_requests s) (min_replicas s) (max_replicas s)
    (latency_matrix s) v (deployment_request s) (cpu_capacity s) (memory_capacity s)
    (cluster_type s) (allocated_cpu s) (allocated_memory s) (free_cpu s) (free_memory s)
    (split_number_replicas s) (latency_weight s) (cost_weight s) (gini_weight s)
    (current_step s) (current_time s) (dt s) (penalty s) (accepted_requests s)
    (offered_requests s) (ep_accepted_requests s) (total_reward s) (episode_over s)
    (block_prob s) (ep_block_prob s) (avg_latency s) (avg_cost s)
    (avg_cpu_usage_percentage_cluster_selected s) (avg_load_served s) (deploy_all s)
    (deploy_ffd s) (deploy_ffi s) (deploy_bf1b1 s) (episode_count s).

Definition set_deployment_request (v : DeploymentRequest) (s : Env) : Env :=
  mkEnv (num_clusters s) (arrival_rate_r s) (call_duration_r s) (episode_length s)
    (reward_function s) (running_requests s) (min_replicas s) (max_replicas s)
    (latency_matrix s) (latency s) v (cpu_capacity s) (memory_capacity s)
    (cluster_type s) (allocated_cpu s) (allocated_memory s) (free_cpu s) (free_memory s)
    (split_number_replicas s) (latency_weight s) (cost_weight s) (gini_weight s)
    (current_step s) (current_time s) (dt s) (penalty s) (accepted_requests s)
    (offered_requests s) (ep_accepted_requests s) (total_reward s) (episode_over s)
    (block_prob s) (ep_block_prob s) (avg_latency s) (avg_cost s)
    (avg_cpu_usage_percentage_cluster_selected s) (avg_load_served s) (deploy_all s)
    (deploy_ffd s) (deploy_ffi s) (deploy_bf1b1 s) (episode_count s).

Definition set_cpu_capacity (v : list Q) (s : Env) : Env :=
  mkEnv (num_clusters s) (arrival_rate_r s) (call_duration_r s) (episode_length s)
    (reward_function s) (running_requests s) (min_replicas s) (max_replicas s)
    (latency_matrix s) (latency s) (deployment_request s) v (memory_capacity s)
    (cluster_type s) (allocated_cpu s) (allocated_memory s) (free_cpu s) (free_memory s)
    (split_number_replicas s) (latency_weight s) (cost_weight s) (gini_weight s)
    (current_step s) (current_time s) (dt s) (penalty s) (accepted_requests s)
    (offered_requests s) (ep_accepted_requests s) (total_reward s) (episode_over s)
    (block_prob s) (ep_block_prob s) (avg_latency s) (avg_cost s)
    (avg_cpu_usage_percentage_cluster_selected s) (avg_load_served s) (deploy_all s)
    (deploy_ffd s) (deploy_ffi s) (deploy_bf1b1 s) (episode_count s).

Definition set_memory_capacity (v : list Q) (s : Env) : Env :=
  mkEnv (num_clusters s) (arrival_rate_r s) (call_duration_r s) (episode_length s)
    (reward_function s) (running_requests s) (min_replicas s) (max_replicas s)
    (latency_matrix s) (latency s) (deployment_request s) (cpu_capacity s) v
    (cluster_type s) (allocated_cpu s) (allocated_memory s) (free_cpu s) (free_memory s)
    (split_number_replicas s) (latency_weight s) (cost_weight s) (gini_weight s)
    (current_step s) (current_time s) (dt s) (penalty s) (accepted_requests s)
    (offered_requests s) (ep_accepted_requests s) (total_reward s) (episode_over s)
    (block_prob s) (ep_block_prob s) (avg_latency s) (avg_cost s)
    (avg_cpu_usage_percentage_cluster_selected s) (avg_load_served s) (deploy_all s)
    (deploy_ffd s) (deploy_ffi s) (deploy_bf1b1 s) (episode_count s).

Definition set_cluster_type (v : list nat) (s : Env) : Env :=
  mkEnv (num_clusters s) (arrival_rate_r s) (call_duration_r s) (episode_length s)
    (reward_function s) (running_requests s) (min_replicas s) (max_replicas s)
    (latency_matrix s) (latency s) (deployment_request s) (cpu_capacity s)
    (memory_capacity s) v (allocated_cpu s) (allocated_memory s) (free_cpu s)
    (free_memory s) (split_number_replicas s) (latency_weight s) (cost_weight s)
    (gini_weight s) (current_step s) (current_time s) (dt s) (penalty s)
    (accepted_requests s) (offered_requests s) (ep_accepted_requests s) (total_reward s)
    (episode_over s) (block_prob s) (ep_block_prob s) (avg_latency s) (avg_cost s)
    (avg_cpu_usage_percentage_cluster_selected s) (avg_load_served s) (deploy_all s)
    (deploy_ffd s) (deploy_ffi s) (deploy_bf1b1 s) (episode_count s).

Definition set_allocated_cpu (v : list Q) (s : Env) : Env :=
  mkEnv (num_clusters s) (arrival_rate_r s) (call_duration_r s) (episode_length s)
    (reward_function s) (running_requests s) (min_replicas s) (max_replicas s)
    (latency_matrix s) (latency s) (deployment_request s) (cpu_capacity s)
    (memory_capacity s) (cluster_type s) v (allocated_memory s) (free_cpu s)
    (free_memory s) (split_number_replicas s) (latency_weight s) (cost_weight s)
    (gini_weight s) (current_step s) (current_time s) (dt s) (penalty s)
    (accepted_requests s) (offered_requests s) (ep_accepted_requests s) (total_reward s)
    (episode_over s) (block_prob s) (ep_block_prob s) (avg_latency s) (avg_cost s)
    (avg_cpu_usage_percentage_cluster_selected s) (avg_load_served s) (deploy_all s)
    (deploy_ffd s) (deploy_ffi s) (deploy_bf1b1 s) (episode_count s).

Definition set_allocated_memory (v : list Q) (s : Env) : Env :=
  mkEnv (num_clusters s) (arrival_rate_r s) (call_duration_r s) (episode_length s)
    (reward_function s) (running_requests s) (min_replicas s) (max_replicas s)
    (latency_matrix s) (latency s) (deployment_request s) (cpu_capacity s)
    (memory_capacity s) (cluster_type s) (allocated_cpu s) v (free_cpu s)
    (free_memory s) (split_number_replicas s) (latency_weight s) (cost_weight s)
    (gini_weight s) (current_step s) (current_time s) (dt s) (penalty s)
    (accepted_requests s) (offered_requests s) (ep_accepted_requests s) (total_reward s)
    (episode_over s) (block_prob s) (ep_block_prob s) (avg_latency s) (avg_cost s)
    (avg_cpu_usage_percentage_cluster_selected s) (avg_load_served s) (deploy_all s)
    (deploy_ffd s) (deploy_ffi s) (deploy_bf1b1 s) (episode_count s).

Definition set_free_cpu (v : list Q) (s : Env) : Env :=
  mkEnv (num_clusters s) (arrival_rate_r s) (call_duration_r s) (episode_length s)
    (reward_function s) (running_requests s) (min_replicas s) (max_replicas s)
    (latency_matrix s) (latency s) (deployment_request s) (cpu_capacity s)
    (memory_capacity s) (cluster_type s) (allocated_cpu s) (allocated_memory s) v
    (free_memory s) (split_number_replicas s) (latency_weight s) (cost_weight s)
    (gini_weight s) (current_step s) (current_time s) (dt s) (penalty s)
    (accepted_requests s) (offered_requests s) (ep_accepted_requests s) (total_reward s)
    (episode_over s) (block_prob s) (ep_block_prob s) (avg_latency s) (avg_cost s)
    (avg_cpu_usage_percentage_cluster_selected s) (avg_load_served s) (deploy_all s)
    (deploy_ffd s) (deploy_ffi s) (deploy_bf1b1 s) (episode_count s).

Definition set_free_memory (v : list Q) (s : Env) : Env :=
  mkEnv (num_clusters s) (arrival_rate_r s) (call_duration_r s) (episode_length s)
    (reward_function s) (running_requests s) (min_replicas s) (max_replicas s)
    (latency_matrix s) (latency s) (deployment_request s) (cpu_capacity s)
    (memory_capacity s) (cluster_type s) (allocated_cpu s) (allocated_memory s)
    (free_cpu s) v (split_number_replicas s) (latency_weight s) (cost_weight s)
    (gini_weight s) (current_step s) (current_time s) (dt s) (penalty s)
    (accepted_requests s) (offered_requests s) (ep_accepted_requests s) (total_reward s)
    (episode_over s) (block_prob s) (ep_block_prob s) (avg_latency s) (avg_cost s)
    (avg_cpu_usage_percentage_cluster_selected s) (avg_load_served s) (deploy_all s)
    (deploy_ffd s) (deploy_ffi s) (deploy_bf1b1 s) (episode_count s).

Definition set_split_number_replicas (v : list Q) (s : Env) : Env :=
  mkEnv (num_clusters s) (arrival_rate_r s) (call_duration_r s) (episode_length s)
    (reward_function s) (running_requests s) (min_replicas s) (max_replicas s)
    (latency_matrix s) (latency s) (deployment_request s) (cpu_capacity s)
    (memory_capacity s) (cluster_type s) (allocated_cpu s) (allocated_memory s)
    (free_cpu s) (free_memory s) v (latency_weight s) (cost_weight s) (gini_weight s)
    (current_step s) (current_time s) (dt s) (penalty s) (accepted_requests s)
    (offered_requests s) (ep_accepted_requests s) (total_reward s) (episode_over s)
    (block_prob s) (ep_block_prob s) (avg_latency s) (avg_cost s)
    (avg_cpu_usage_percentage_cluster_selected s) (avg_load_served s) (deploy_all s)
    (deploy_ffd s) (deploy_ffi s) (deploy_bf1b1 s) (episode_count s).

Definition set_current_step (v : Z) (s : Env) : Env :=
  mkEnv (num_clusters s) (arrival_rate_r s) (call_duration_r s) (episode_length s)
    (reward_function s) (running_requests s) (min_replicas s) (max_replicas s)
    (latency_matrix s) (latency s) (deployment_request s) (cpu_capacity s)
    (memory_capacity s) (cluster_type s) (allocated_cpu s) (allocated_memory s)
    (free_cpu s) (free_memory s) (split_number_replicas s) (latency_weight s)
    (cost_weight s) (gini_weight s) v (current_time s) (dt s) (penalty s)
    (accepted_requests s) (offered_requests s) (ep_accepted_requests s) (total_reward s)
    (episode_over s) (block_prob s) (ep_block_prob s) (avg_latency s) (avg_cost s)
    (avg_cpu_usage_percentage_cluster_selected s) (avg_load_served s) (deploy_all s)
    (deploy_ffd s) (deploy_ffi s) (deploy_bf1b1 s) (episode_count s).

Definition set_current_time (v : Q) (s : Env) : Env :=
  mkEnv (num_clusters s) (arrival_rate_r s) (call_duration_r s) (episode_length s)
    (reward_function s) (running_requests s) (min_replicas s) (max_replicas s)
    (latency_matrix s) (latency s) (deployment_request s) (cpu_capacity s)
    (memory_capacity s) (cluster_type s) (allocated_cpu s) (allocated_memory s)
    (free_cpu s) (free_memory s) (split_number_replicas s) (latency_weight s)
    (cost_weight s) (gini_weight s) (current_step s) v (dt s) (penalty s)
    (accepted_requests s) (offered_requests s) (ep_accepted_requests s) (total_reward s)
    (episode_over s) (block_prob s) (ep_block_prob s) (avg_latency s) (avg_cost s)
    (avg_cpu_usage_percentage_cluster_selected s) (avg_load_served s) (deploy_all s)
    (deploy_ffd s) (deploy_ffi s) (deploy_bf1b1 s) (episode_count s).

Definition set_dt (v : Q) (s : Env) : Env :=
  mkEnv (num_clusters s) (arrival_rate_r s) (call_duration_r s) (episode_length s)
    (reward_function s) (running_requests s) (min_replicas s) (max_replicas s)
    (latency_matrix s) (latency s) (deployment_request s) (cpu_capacity s)
    (memory_capacity s) (cluster_type s) (allocated_cpu s) (allocated_memory s)
    (free_cpu s) (free_memory s) (split_number_replicas s) (latency_weight s)
    (cost_weight s) (gini_weight s) (current_step s) (current_time s) v (penalty s)
    (accepted_requests s) (offered_requests s) (ep_accepted_requests s) (total_reward s)
    (episode_over s) (block_prob s) (ep_block_prob s) (avg_latency s) (avg_cost s)
    (avg_cpu_usage_percentage_cluster_selected s) (avg_load_served s) (deploy_all s)
    (deploy_ffd s) (deploy_ffi s) (deploy_bf1b1 s) (episode_count s).

Definition set_penalty (v : bool) (s : Env) : Env :=
  mkEnv (num_clusters s) (arrival_rate_r s) (call_duration_r s) (episode_length s)
    (reward_function s) (running_requests s) (min_replicas s) (max_replicas s)
    (latency_matrix s) (latency s) (deployment_request s) (cpu_capacity s)
    (memory_capacity s) (cluster_type s) (allocated_cpu s) (allocated_memory s)
    (free_cpu s) (free_memory s) (split_number_replicas s) (latency_weight s)
    (cost_weight s) (gini_weight s) (current_step s) (current_time s) (dt s) v
    (accepted_requests s) (offered_requests s) (ep_accepted_requests s) (total_reward s)
    (episode_over s) (block_prob s) (ep_block_prob s) (avg_latency s) (avg_cost s)
    (avg_cpu_usage_percentage_cluster_selected s) (avg_load_served s) (deploy_all s)
    (deploy_ffd s) (deploy_ffi s) (deploy_bf1b1 s) (episode_count s).

Definition set_accepted_requests (v : Z) (s : Env) : Env :=
  mkEnv (num_clusters s) (arrival_rate_r s) (call_duration_r s) (episode_length s)
    (reward_function s) (running_requests s) (min_replicas s) (max_replicas s)
    (latency_matrix s) (latency s) (deployment_request s) (cpu_capacity s)
    (memory_capacity s) (cluster_type s) (allocated_cpu s) (allocated_memory s)
    (free_cpu s) (free_memory s) (split_number_replicas s) (latency_weight s)
    (cost_weight s) (gini_weight s) (current_step s) (current_time s) (dt s) (penalty s)
    v (offered_requests s) (ep_accepted_requests s) (total_reward s) (episode_over s)
    (block_prob s) (ep_block_prob s) (avg_latency s) (avg_cost s)
    (avg_cpu_usage_percentage_cluster_selected s) (avg_load_served s) (deploy_all s)
    (deploy_ffd s) (deploy_ffi s) (deploy_bf1b1 s) (episode_count s).

Definition set_offered_requests (v : Z) (s : Env) : Env :=
  mkEnv (num_clusters s) (arrival_rate_r s) (call_duration_r s) (episode_length s)
    (reward_function s) (running_requests s) (min_replicas s) (max_replicas s)
    (latency_matrix s) (latency s) (deployment_request s) (cpu_capacity s)
    (memory_capacity s) (cluster_type s) (allocated_cpu s) (allocated_memory s)
    (free_cpu s) (free_memory s) (split_number_replicas s) (latency_weight s)
    (cost_weight s) (gini_weight s) (current_step s) (current_time s) (dt s) (penalty s)
    (accepted_requests s) v (ep_accepted_requests s) (total_reward s) (episode_over s)
    (block_prob s) (ep_block_prob s) (avg_latency s) (avg_cost s)
    (avg_cpu_usage_percentage_cluster_selected s) (avg_load_served s) (deploy_all s)
    (deploy_ffd s) (deploy_ffi s) (deploy_bf1b1 s) (episode_count s).

Definition set_ep_accepted_requests (v : Z) (s : Env) : Env :=
  mkEnv (num_clusters s) (arrival_rate_r s) (call_duration_r s) (episode_length s)
    (reward_function s) (running_requests s) (min_replicas s) (max_replicas s)
    (latency_matrix s) (latency s) (deployment_request s) (cpu_capacity s)
    (memory_capacity s) (cluster_type s) (allocated_cpu s) (allocated_memory s)
    (free_cpu s) (free_memory s) (split_number_replicas s) (latency_weight s)
    (cost_weight s) (gini_weight s) (current_step s) (current_time s) (dt s) (penalty s)
    (accepted_requests s) (offered_requests s) v (total_reward s) (episode_over s)
    (block_prob s) (ep_block_prob s) (avg_latency s) (avg_cost s)
    (avg_cpu_usage_percentage_cluster_selected s) (avg_load_served s) (deploy_all s)
    (deploy_ffd s) (deploy_ffi s) (deploy_bf1b1 s) (episode_count s).

Definition set_total_reward (v : Q) (s : Env) : Env :=
  mkEnv (num_clusters s) (arrival_rate_r s) (call_duration_r s) (episode_length s)
    (reward_function s) (running_requests s) (min_replicas s) (max_replicas s)
    (latency_matrix s) (latency s) (deployment_request s) (cpu_capacity s)
    (memory_capacity s) (cluster_type s) (allocated_cpu s) (allocated_memory s)
    (free_cpu s) (free_memory s) (split_number_replicas s) (latency_weight s)
    (cost_weight s) (gini_weight s) (current_step s) (current_time s) (dt s) (penalty s)
    (accepted_requests s) (offered_requests s) (ep_accepted_requests s) v
    (episode_over s) (block_prob s) (ep_block_prob s) (avg_latency s) (avg_cost s)
    (avg_cpu_usage_percentage_cluster_selected s) (avg_load_served s) (deploy_all s)
    (deploy_ffd s) (deploy_ffi s) (deploy_bf1b1 s) (episode_count s).

Definition set_episode_over (v : bool) (s : Env) : Env :=
  mkEnv (num_clusters s) (arrival_rate_r s) (call_duration_r s) (episode_length s)
    (reward_function s) (running_requests s) (min_replicas s) (max_replicas s)
    (latency_matrix s) (latency s) (deployment_request s) (cpu_capacity s)
    (memory_capacity s) (cluster_type s) (allocated_cpu s) (allocated_memory s)
    (free_cpu s) (free_memory s) (split_number_replicas s) (latency_weight s)
    (cost_weight s) (gini_weight s) (current_step s) (current_time s) (dt s) (penalty s)
    (accepted_requests s) (offered_requests s) (ep_accepted_requests s) (total_reward s)
    v (block_prob s) (ep_block_prob s) (avg_latency s) (avg_cost s)
    (avg_cpu_usage_percentage_cluster_selected s) (avg_load_served s) (deploy_all s)
    (deploy_ffd s) (deploy_ffi s) (deploy_bf1b1 s) (episode_count s).

Definition set_block_prob (v : Q) (s : Env) : Env :=
  mkEnv (num_clusters s) (arrival_rate_r s) (call_duration_r s) (episode_length s)
    (reward_function s) (running_requests s) (min_replicas s) (max_replicas s)
    (latency_matrix s) (latency s) (deployment_request s) (cpu_capacity s)
    (memory_capacity s) (cluster_type s) (allocated_cpu s) (allocated_memory s)
    (free_cpu s) (free_memory s) (split_number_replicas s) (latency_weight s)
    (cost_weight s) (gini_weight s) (current_step s) (current_time s) (dt s) (penalty s)
    (accepted_requests s) (offered_requests s) (ep_accepted_requests s) (total_reward s)
    (episode_over s) v (ep_block_prob s) (avg_latency s) (avg_cost s)
    (avg_cpu_usage_percentage_cluster_selected s) (avg_load_served s) (deploy_all s)
    (deploy_ffd s) (deploy_ffi s) (deploy_bf1b1 s) (episode_count s).

Definition set_ep_block_prob (v : Q) (s : Env) : Env :=
  mkEnv (num_clusters s) (arrival_rate_r s) (call_duration_r s) (episode_length s)
    (reward_function s) (running_requests s) (min_replicas s) (max_replicas s)
    (latency_matrix s) (latency s) (deployment_request s) (cpu_capacity s)
    (memory_capacity s) (cluster_type s) (allocated_cpu s) (allocated_memory s)
    (free_cpu s) (free_memory s) (split_number_replicas s) (latency_weight s)
    (cost_weight s) (gini_weight s) (current_step s) (current_time s) (dt s) (penalty s)
    (accepted_requests s) (offered_requests s) (ep_accepted_requests s) (total_reward s)
    (episode_over s) (block_prob s) v (avg_latency s) (avg_cost s)
    (avg_cpu_usage_percentage_cluster_selected s) (avg_load_served s) (deploy_all s)
    (deploy_ffd s) (deploy_ffi s) (deploy_bf1b1 s) (episode_count s).

Definition set_avg_latency (v : list Q) (s : Env) : Env :=
  mkEnv (num_clusters s) (arrival_rate_r s) (call_duration_r s) (episode_length s)
    (reward_function s) (running_requests s) (min_replicas s) (max_replicas s)
    (latency_matrix s) (latency s) (deployment_request s) (cpu_capacity s)
    (memory_capacity s) (cluster_type s) (allocated_cpu s) (allocated_memory s)
    (free_cpu s) (free_memory s) (split_number_replicas s) (latency_weight s)
    (cost_weight s) (gini_weight s) (current_step s) (current_time s) (dt s) (penalty s)
    (accepted_requests s) (offered_requests s) (ep_accepted_requests s) (total_reward s)
    (episode_over s) (block_prob s) (ep_block_prob s) v (avg_cost s)
    (avg_cpu_usage_percentage_cluster_selected s) (avg_load_served s) (deploy_all s)
    (deploy_ffd s) (deploy_ffi s) (deploy_bf1b1 s) (episode_count s).

Definition set_avg_cost (v : list Q) (s : Env) : Env :=
  mkEnv (num_clusters s) (arrival_rate_r s) (call_duration_r s) (episode_length s)
    (reward_function s) (running_requests s) (min_replicas s) (max_replicas s)
    (latency_matrix s) (latency s) (deployment_request s) (cpu_capacity s)
    (memory_capacity s) (cluster_type s) (allocated_cpu s) (allocated_memory s)
    (free_cpu s) (free_memory s) (split_number_replicas s) (latency_weight s)
    (cost_weight s) (gini_weight s) (current_step s) (current_time s) (dt s) (penalty s)
    (accepted_requests s) (offered_requests s) (ep_accepted_requests s) (total_reward s)
    (episode_over s) (block_prob s) (ep_block_prob s) (avg_latency s) v
    (avg_cpu_usage_percentage_cluster_selected s) (avg_load_served s) (deploy_all s)
    (deploy_ffd s) (deploy_ffi s) (deploy_bf1b1 s) (episode_count s).

Definition set_avg_cpu_usage_percentage_cluster_selected (v : list Q) (s : Env) : Env :=
  mkEnv (num_clusters s) (arrival_rate_r s) (call_duration_r s) (episode_length s)
    (reward_function s) (running_requests s) (min_replicas s) (max_replicas s)
    (latency_matrix s) (latency s) (deployment_request s) (cpu_capacity s)
    (memory_capacity s) (cluster_type s) (allocated_cpu s) (allocated_memory s)
    (free_cpu s) (free_memory s) (split_number_replicas s) (latency_weight s)
    (cost_weight s) (gini_weight s) (current_step s) (current_time s) (dt s) (penalty s)
    (accepted_requests s) (offered_requests s) (ep_accepted_requests s) (total_reward s)
    (episode_over s) (block_prob s) (ep_block_prob s) (avg_latency s) (avg_cost s) v
    (avg_load_served s) (deploy_all s) (deploy_ffd s) (deploy_ffi s) (deploy_bf1b1 s)
    (episode_count s).

Definition set_avg_load_served (v : list Q) (s : Env) : Env :=
  mkEnv (num_clusters s) (arrival_rate_r s) (call_duration_r s) (episode_length s)
    (reward_function s) (running_requests s) (min_replicas s) (max_replicas s)
    (latency_matrix s) (latency s) (deployment_request s) (cpu_capacity s)
    (memory_capacity s) (cluster_type s) (allocated_cpu s) (allocated_memory s)
    (free_cpu s) (free_memory s) (split_number_replicas s) (latency_weight s)
    (cost_weight s) (gini_weight s) (current_step s) (current_time s) (dt s) (penalty s)
    (accepted_requests s) (offered_requests s) (ep_accepted_requests s) (total_reward s)
    (episode_over s) (block_prob s) (ep_block_prob s) (avg_latency s) (avg_cost s)
    (avg_cpu_usage_percentage_cluster_selected s) v (deploy_all s) (deploy_ffd s)
    (deploy_ffi s) (deploy_bf1b1 s) (episode_count s).

Definition set_deploy_all (v : Z) (s : Env) : Env :=
  mkEnv (num_clusters s) (arrival_rate_r s) (call_duration_r s) (episode_length s)
    (reward_function s) (running_requests s) (min_replicas s) (max_replicas s)
    (latency_matrix s) (latency s) (deployment_request s) (cpu_capacity s)
    (memory_capacity s) (cluster_type s) (allocated_cpu s) (allocated_memory s)
    (free_cpu s) (free_memory s) (split_number_replicas s) (latency_weight s)
    (cost_weight s) (gini_weight s) (current_step s) (current_time s) (dt s) (penalty s)
    (accepted_requests s) (offered_requests s) (ep_accepted_requests s) (total_reward s)
    (episode_over s) (block_prob s) (ep_block_prob s) (avg_latency s) (avg_cost s)
    (avg_cpu_usage_percentage_cluster_selected s) (avg_load_served s) v (deploy_ffd s)
    (deploy_ffi s) (deploy_bf1b1 s) (episode_count s).

Definition set_deploy_ffd (v : Z) (s : Env) : Env :=
  mkEnv (num_clusters s) (arrival_rate_r s) (call_duration_r s) (episode_length s)
    (reward_function s) (running_requests s) (min_replicas s) (max_replicas s)
    (latency_matrix s) (latency s) (deployment_request s) (cpu_capacity s)
    (memory_capacity s) (cluster_type s) (allocated_cpu s) (allocated_memory s)
    (free_cpu s) (free_memory s) (split_number_replicas s) (latency_weight s)
    (cost_weight s) (gini_weight s) (current_step s) (current_time s) (dt s) (penalty s)
    (accepted_requests s) (offered_requests s) (ep_accepted_requests s) (total_reward s)
    (episode_over s) (block_prob s) (ep_block_prob s) (avg_latency s) (avg_cost s)
    (avg_cpu_usage_percentage_cluster_selected s) (avg_load_served s) (deploy_all s) v
    (deploy_ffi s) (deploy_bf1b1 s) (episode_count s).

Definition set_deploy_ffi (v : Z) (s : Env) : Env :=
  mkEnv (num_clusters s) (arrival_rate_r s) (call_duration_r s) (episode_length s)
    (reward_function s) (running_requests s) (min_replicas s) (max_replicas s)
    (latency_matrix s) (latency s) (deployment_request s) (cpu_capacity s)
    (memory_capacity s) (cluster_type s) (allocated_cpu s) (allocated_memory s)
    (free_cpu s) (free_memory s) (split_number_replicas s) (latency_weight s)
    (cost_weight s) (gini_weight s) (current_step s) (current_time s) (dt s) (penalty s)
    (accepted_requests s) (offered_requests s) (ep_accepted_requests s) (total_reward s)
    (episode_over s) (block_prob s) (ep_block_prob s) (avg_latency s) (avg_cost s)
    (avg_cpu_usage_percentage_cluster_selected s) (avg_load_served s) (deploy_all s)
    (deploy_ffd s) v (deploy_bf1b1 s) (episode_count s).

Definition set_deploy_bf1b1 (v : Z) (s : Env) : Env :=
  mkEnv (num_clusters s) (arrival_rate_r s) (call_duration_r s) (episode_length s)
    (reward_function s) (running_requests s) (min_replicas s) (max_replicas s)
    (latency_matrix s) (latency s) (deployment_request s) (cpu_capacity s)
    (memory_capacity s) (cluster_type s) (allocated_cpu s) (allocated_memory s)
    (free_cpu s) (free_memory s) (split_number_replicas s) (latency_weight s)
    (cost_weight s) (gini_weight s) (current_step s) (current_time s) (dt s) (penalty s)
    (accepted_requests s) (offered_requests s) (ep_accepted_requests s) (total_reward s)
    (episode_over s) (block_prob s) (ep_block_prob s) (avg_latency s) (avg_cost s)
    (avg_cpu_usage_percentage_cluster_selected s) (avg_load_served s) (deploy_all s)
    (deploy_ffd s) (deploy_ffi s) v (episode_count s).

Definition set_episode_count (v : Z) (s : Env) : Env :=
  mkEnv (num_clusters s) (arrival_rate_r s) (call_duration_r s) (episode_length s)
    (reward_function s) (running_requests s) (min_replicas s) (max_replicas s)
    (latency_matrix s) (latency s) (deployment_request s) (cpu_capacity s)
    (memory_capacity s) (cluster_type s) (allocated_cpu s) (allocated_memory s)
    (free_cpu s) (free_memory s) (split_number_replicas s) (latency_weight s)
    (cost_weight s) (gini_weight s) (current_step s) (current_time s) (dt s) (penalty s)
    (accepted_requests s) (offered_requests s) (ep_accepted_requests s) (total_reward s)
    (episode_over s) (block_prob s) (ep_block_prob s) (avg_latency s) (avg_cost s)
    (avg_cpu_usage_percentage_cluster_selected s) (avg_load_served s) (deploy_all s)
    (deploy_ffd s) (deploy_ffi s) (deploy_bf1b1 s) v.

(** ** Latency model ([increase_latency], [decrease_latency]) *)

Definition mean_of (l : list Q) : Q :=
  Qsum l / inject_Z (Z.of_nat (List.length l)).

(** [statistics.mean]: raises [StatisticsError] on an empty sequence. *)
Definition mean (l : list Q) : option Q :=
  match l with
  | [] => None
  | _ => Some (mean_of l)
  end.

(** [max(min(x, MAX_DELAY), MIN_DELAY)] *)
Definition clamp_delay (x : Q) : Q := Qmax (Qmin x MAX_DELAY) MIN_DELAY.

(** One iteration of the loop over [n2]; [scale] is [prev * factor] when the
    latency grows and [prev / factor] when it decays. *)
Definition latency_pair_update (scale : Q -> Q) (n : nat)
    (m : list (list Q)) (n2 : nat) : list (list Q) :=
  if Nat.eqb n n2 then mset n n2 0 m
  else
    let prev := mget n n2 m in
    let new_latency := clamp_delay (scale prev) in
    let m1 := mset n n2 new_latency m in
    let m2 := if Qeq_bool (mget n n2 m1) 0 then mset n n2 1 m1 else m1 in
    mset n2 n (mget n n2 m2) m2.

(** [for c in range(num_clusters): latency[c] = mean(latency_matrix[c])].
    The rows of the square matrix have [num_clusters >= 1] entries whenever the
    loop body runs, so [mean] cannot raise here. *)
Definition refresh_latency (num : nat) (m : list (list Q)) (lat : list Q) : list Q :=
  fold_left (fun acc c => upd c (mean_of (row c m)) acc) (seq 0 num) lat.

Definition update_latency (scale : Q -> Q) (n : nat) (s : Env) : Env :=
  let m := fold_left (latency_pair_update scale n) (seq 0 (num_clusters s))
                     (latency_matrix s) in
  set_latency (refresh_latency (num_clusters s) m (latency s))
              (set_latency_matrix m s).

Definition increase_latency (n : nat) (factor : Q) (s : Env) : Env :=
  update_latency (fun prev => prev * factor) n s.

Definition decrease_latency (n : nat) (factor : Q) (s : Env) : Env :=
  update_latency (fun prev => prev / factor) n s.

(** ** Fullness checks *)

Definition check_if_cluster_is_full_after_full_deployment (s : Env) (action : nat) : bool :=
  let r := deployment_request s in
  let total_cpu := inject_Z (num_replicas r) * cpu_request r in
  let total_memory := inject_Z (num_replicas r) * memory_request r in
  Qlt_bool (FULL_THRESHOLD * get action (cpu_capacity s))
           (get action (allocated_cpu s) + total_cpu)
  || Qlt_bool (FULL_THRESHOLD * get action (memory_capacity s))
              (get action (allocated_memory s) + total_memory).

Definition split_cluster_is_full (s : Env) (div : list Z) (d : nat) : bool :=
  let r := deployment_request s in
  let total_cpu := cpu_request r * inject_Z (geti d div) in
  let total_memory := memory_request r * inject_Z (geti d div) in
  Qlt_bool (FULL_THRESHOLD * get d (cpu_capacity s))
           (get d (allocated_cpu s) + total_cpu)
  || Qlt_bool (FULL_THRESHOLD * get d (memory_capacity s))
              (get d (allocated_memory s) + total_memory).

Definition check_if_clusters_are_full_after_split_deployment (s : Env) (div : list Z) : bool :=
  existsb (split_cluster_is_full s div) (seq 0 (List.length div)).

Definition check_if_cluster_is_really_full (s : Env) : bool :=
  forallb (check_if_cluster_is_full_after_full_deployment s) (seq 0 (num_clusters s)).

(** [action_masks]: one entry per whole-placement action, then the three
    spreading actions and reject. *)
Definition action_masks (s : Env) : list bool :=
  let valid_actions := repeat true (num_clusters s + NUM_SPREADING_ACTIONS + 1) in
  let valid_actions :=
    fold_left (fun acc i =>
                 if check_if_cluster_is_full_after_full_deployment s i
                 then upd i false acc else upd i true acc)
              (seq 0 (num_clusters s)) valid_actions in
  let valid_actions := upd (num_clusters s + FFD) true valid_actions in
  let valid_actions := upd (num_clusters s + FFI) true valid_actions in
  let valid_actions := upd (num_clusters s + BF1B1) true valid_actions in
  upd (num_clusters s + NUM_SPREADING_ACTIONS) true valid_actions.

(** ** Replica-splitting heuristics *)

(** Modelled from the spec: [sort_dict_by_value] lives in [envs/utils.py],
    which is not part of the sources at hand.  With [reverse=True] it ranks
    the clusters by descending free CPU; ties keep the insertion order of the
    dictionary, as Python's stable sort does. *)
Fixpoint insert_desc (key : nat -> Q) (x : nat) (l : list nat) : list nat :=
  match l with
  | [] => [x]
  | y :: t => if Qle_bool (key y) (key x) then x :: l else y :: insert_desc key x t
  end.

Fixpoint sort_dict_by_value (key : nat -> Q) (l : list nat) : list nat :=
  match l with
  | [] => []
  | x :: t => insert_desc key x (sort_dict_by_value key t)
  end.

(** [split_number_replicas[n] = min(free_cpu[n] / cpu_req, free_mem[n] / mem_req)] *)
Definition split_factors (cpu_req mem_req : Q) (num : nat)
    (free_cpu free_mem split0 : list Q) : list Q :=
  fold_left (fun acc n =>
               upd n (Qmin (get n free_cpu / cpu_req) (get n free_mem / mem_req)) acc)
            (seq 0 num) split0.

(** [min_factor], clamped to [max_replicas - 1]. *)
Definition ffd_min_factor (max_replicas : Z) (factors : list Q) : option Z :=
  m <- min_list factors ;;
  let min_factor := Qceiling m in
  Some (if (max_replicas <=? min_factor)%Z then (max_replicas - 1)%Z else min_factor).

(** Body of the loop over the ranked clusters; the state is
    [(distribution, num_replicas)].  Once [num_replicas] is 0 the loop has
    been left, and the remaining clusters change nothing. *)
Definition ffd_ranked_step (cpu_req mem_req : Q) (min_factor : Z)
    (free_cpu free_mem : list Q) (st : list Z * Z) (n : nat) : list Z * Z :=
  let '(distribution, num_replicas) := st in
  let value := get n free_cpu in
  if (num_replicas =? 0)%Z then st
  else if (0 <? num_replicas)%Z && (min_factor <? num_replicas)%Z
          && (Qlt_bool (cpu_req * inject_Z min_factor) value
              && Qlt_bool (mem_req * inject_Z min_factor) (get n free_mem))
  then (upd n (geti n distribution + min_factor)%Z distribution,
        (num_replicas - min_factor)%Z)
  else if (0 <? num_replicas)%Z
          && (Qlt_bool cpu_req value && Qlt_bool mem_req (get n free_mem))
  then (upd n (geti n distribution + 1)%Z distribution, (num_replicas - 1)%Z)
  else st.

(** Body of the second loop, in cluster-index order. *)
Definition ffd_remaining_step (cpu_req mem_req : Q)
    (free_cpu free_mem : list Q) (st : list Z * Z) (n : nat) : list Z * Z :=
  let '(distribution, num_replicas) := st in
  if (num_replicas =? 0)%Z then st
  else if Qlt_bool cpu_req (get n free_cpu) && Qlt_bool mem_req (get n free_mem)
  then (upd n (geti n distribution + 1)%Z distribution, (num_replicas - 1)%Z)
  else st.

(** The heuristic once the ranking of the clusters is known. *)
Definition ffd_distribute (order : list nat) (num_replicas : Z) (cpu_req mem_req : Q)
    (num : nat) (free_cpu free_mem : list Q) (min_factor : Z) : list Z :=
  let distribution := repeat 0%Z num in
  let '(distribution, remaining) :=
    fold_left (ffd_ranked_step cpu_req mem_req min_factor free_cpu free_mem)
              order (distribution, num_replicas) in
  if (remaining =? 0)%Z then distribution
  else fst (fold_left (ffd_remaining_step cpu_req mem_req free_cpu free_mem)
                      (seq 0 num) (distribution, remaining)).

(** [first_fit_decreasing_heuristic]: returns the distribution together with
    the scratch array [self.split_number_replicas] it overwrites. *)
Definition first_fit_decreasing_heuristic (num_replicas : Z) (cpu_req mem_req : Q)
    (num : nat) (free_cpu free_mem split0 : list Q) : option (list Z * list Q) :=
  let factors := split_factors cpu_req mem_req num free_cpu free_mem split0 in
  min_factor <- ffd_min_factor num_replicas factors ;;
  let order := sort_dict_by_value (fun n => get n free_cpu) (seq 0 num) in
  Some (ffd_distribute order num_replicas cpu_req mem_req num free_cpu free_mem min_factor,
        factors).

(** The inner loop of [best_fit_heuristic_one_by_one]: the state is
    [(best_fit_bin, best_fit_space)], with [None] for Python's [None] and for
    [float('inf')]. *)
Definition best_fit_step (cpu_req mem_req : Q) (free_cpu free_mem : list Q)
    (st : option nat * option Q) (cluster_idx : nat) : option nat * option Q :=
  if Qle_bool cpu_req (get cluster_idx free_cpu)
     && Qle_bool mem_req (get cluster_idx free_mem)
  then
    let space := get cluster_idx free_cpu - cpu_req + get cluster_idx free_mem - mem_req in
    match snd st with
    | None => (Some cluster_idx, Some space)
    | Some best_fit_space =>
        if Qlt_bool space best_fit_space then (Some cluster_idx, Some space) else st
    end
  else st.

Definition best_fit_bin (cpu_req mem_req : Q) (num : nat)
    (free_cpu free_mem : list Q) : option nat :=
  let sorted_clusters_cpu := sorted_by (fun x => get x free_cpu) (seq 0 num) in
  fst (fold_left (best_fit_step cpu_req mem_req free_cpu free_mem)
                 sorted_clusters_cpu (None, None)).

(** One replica: the state is [(distribution, free_cpu, free_mem)]; the two
    arrays are the caller's and are written in place. *)
Definition best_fit_place_one (cpu_req mem_req : Q) (num : nat)
    (st : list Z * list Q * list Q) : list Z * list Q * list Q :=
  let '(distribution, free_cpu, free_mem) := st in
  match best_fit_bin cpu_req mem_req num free_cpu free_mem with
  | Some b =>
      (upd b (geti b distribution + 1)%Z distribution,
       upd b (get b free_cpu - cpu_req) free_cpu,
       upd b (get b free_mem - mem_req) free_mem)
  | None => st
  end.

Definition best_fit_heuristic_one_by_one (num_replicas : Z) (cpu_req mem_req : Q)
    (num : nat) (free_cpu free_mem : list Q) : list Z * list Q * list Q :=
  Nat.iter (Z.to_nat num_replicas) (best_fit_place_one cpu_req mem_req num)
           (repeat 0%Z num, free_cpu, free_mem).

(** ** The departure timeline

    [running_requests] is a [heapq] min-heap of [(departure_time, request)]
    pairs.  The heap is represented by its contents in the order [heappop]
    would return them: [heappush] inserts by key and [heappop] takes the head;
    entries with equal keys leave in the order they were pushed.
    The heap stores a reference to the request object, so an entry shows every
    field written to the request within the step that enqueues it. *)

Fixpoint heappush (item : Q * DeploymentRequest)
    (h : list (Q * DeploymentRequest)) : list (Q * DeploymentRequest) :=
  match h with
  | [] => [item]
  | x :: t => if Qlt_bool (fst item) (fst x) then item :: h else x :: heappush item t
  end.

Definition enqueue_request (request : DeploymentRequest) (s : Env) : Env :=
  set_running_requests (heappush (departure_time request, request) (running_requests s)) s.

(** ** [take_action] *)

(** The accepting branch of a whole placement on cluster [action]. *)
Definition place_all (action : nat) (s : Env) : Env :=
  let s := set_accepted_requests (accepted_requests s + 1)%Z s in
  let s := set_ep_accepted_requests (ep_accepted_requests s + 1)%Z s in
  let s := set_deploy_all (deploy_all s + 1)%Z s in
  let s := set_deployment_request
             (with_deployed_cluster (Some action) (deployment_request s)) s in
  let s := set_penalty false s in
  let r := deployment_request s in
  let s := set_allocated_cpu
             (upd action (get action (allocated_cpu s)
                          + cpu_request r * inject_Z (num_replicas r))
                  (allocated_cpu s)) s in
  let s := set_allocated_memory
             (upd action (get action (allocated_memory s)
                          + memory_request r * inject_Z (num_replicas r))
                  (allocated_memory s)) s in
  let s := set_avg_cpu_usage_percentage_cluster_selected
             (avg_cpu_usage_percentage_cluster_selected s
              ++ [100 * (get action (allocated_cpu s) / get action (cpu_capacity s))]) s in
  let s := set_avg_load_served
             (upd action (get action (avg_load_served s) + inject_Z (num_replicas r))
                  (avg_load_served s)) s in
  let s := set_free_cpu
             (upd action (get action (cpu_capacity s) - get action (allocated_cpu s))
                  (free_cpu s)) s in
  let s := set_free_memory
             (upd action (get action (memory_capacity s) - get action (allocated_memory s))
                  (free_memory s)) s in
  (* [enqueue_request] is called here; the entry refers to the request
     object, to which the expected latency and cost are written below *)
  let s := increase_latency action (115 # 100) s in
  let s := set_avg_latency (avg_latency s ++ [get action (latency s)]) s in
  let type_id := nth action (cluster_type s) 0%nat in
  let cost := ct_cost (cluster_type_of type_id) in
  let s := set_avg_cost (avg_cost s ++ [cost]) s in
  let s := set_deployment_request
             (with_expected_cost (Some cost)
                (with_expected_latency (Some (get action (latency s)))
                   (deployment_request s))) s in
  enqueue_request (deployment_request s) s.

(** Body of [for d in range(len(div))] in the accepting branch of a split;
    the accumulators are [(avg_l, avg_c, avg_cpu)]. *)
Definition commit_split_step (div : list Z) (st : Env * (Q * Q * Q)) (d : nat)
    : Env * (Q * Q * Q) :=
  let '(s, (avg_l, avg_c, avg_cpu)) := st in
  let r := deployment_request s in
  let s := set_allocated_cpu
             (upd d (get d (allocated_cpu s) + cpu_request r * inject_Z (geti d div))
                  (allocated_cpu s)) s in
  let s := set_allocated_memory
             (upd d (get d (allocated_memory s) + memory_request r * inject_Z (geti d div))
                  (allocated_memory s)) s in
  let avg_cpu := avg_cpu + 100 * (get d (allocated_cpu s) / get d (cpu_capacity s)) in
  let s := set_free_cpu
             (upd d (get d (cpu_capacity s) - get d (allocated_cpu s)) (free_cpu s)) s in
  let s := set_free_memory
             (upd d (get d (memory_capacity s) - get d (allocated_memory s))
                  (free_memory s)) s in
  let avg_l := avg_l + get d (latency s) * inject_Z (geti d div) in
  let s := increase_latency d (105 # 100) s in
  let type_id := nth d (cluster_type s) 0%nat in
  let avg_c := avg_c + ct_cost (cluster_type_of type_id) * inject_Z (geti d div) in
  let s := set_avg_load_served
             (upd d (get d (avg_load_served s) + inject_Z (geti d div))
                  (avg_load_served s)) s in
  (s, (avg_l, avg_c, avg_cpu)).

(** The accepting branch of a split; [count_strategy] is the increment of the
    usage counter of the chosen strategy, the one statement in which the three
    copies of this branch differ. *)
Definition place_split (count_strategy : Env -> Env) (div : list Z) (s : Env) : Env :=
  let s := set_penalty false s in
  let s := set_accepted_requests (accepted_requests s + 1)%Z s in
  let s := set_ep_accepted_requests (ep_accepted_requests s + 1)%Z s in
  let s := count_strategy s in
  let s := set_deployment_request
             (with_is_deployment_split true
                (with_split_clusters (Some div) (deployment_request s))) s in
  let '(s, (avg_l, avg_c, avg_cpu)) :=
    fold_left (commit_split_step div) (seq 0 (List.length div)) (s, (0, 0, 0)) in
  let n := inject_Z (num_replicas (deployment_request s)) in
  let avg_l := avg_l / n in
  let avg_c := avg_c / n in
  let avg_cpu := avg_cpu / n in
  let s := set_avg_latency (avg_latency s ++ [avg_l]) s in
  let s := set_avg_cost (avg_cost s ++ [avg_c]) s in
  let s := set_avg_cpu_usage_percentage_cluster_selected
             (avg_cpu_usage_percentage_cluster_selected s ++ [avg_cpu]) s in
  let s := set_deployment_request
             (with_expected_cost (Some avg_c)
                (with_expected_latency (Some avg_l) (deployment_request s))) s in
  enqueue_request (deployment_request s) s.

Definition count_ffd (s : Env) : Env := set_deploy_ffd (deploy_ffd s + 1)%Z s.
Definition count_ffi (s : Env) : Env := set_deploy_ffi (deploy_ffi s + 1)%Z s.
Definition count_bf1b1 (s : Env) : Env := set_deploy_bf1b1 (deploy_bf1b1 s + 1)%Z s.

Definition take_action (action : nat) (s : Env) : option Env :=
  let s := set_current_step (current_step s + 1)%Z s in
  let s := if (current_step s =? episode_length s)%Z then set_episode_over true s else s in
  let r := deployment_request s in
  if (action <? num_clusters s)%nat then
    if check_if_cluster_is_full_after_full_deployment s action
    then Some (set_penalty true s)
    else Some (place_all action s)
  else if (action =? num_clusters s + FFD)%nat then
    if (num_replicas r =? 1)%Z then Some (set_penalty true s)
    else
      res <- first_fit_decreasing_heuristic (num_replicas r) (cpu_request r)
               (memory_request r) (num_clusters s) (free_cpu s) (free_memory s)
               (split_number_replicas s) ;;
      let s := set_split_number_replicas (snd res) s in
      let div := fst res in
      if check_if_clusters_are_full_after_split_deployment s div
      then Some (set_penalty true s)
      else Some (place_split count_ffd div s)
  else if (action =? num_clusters s + FFI)%nat then
    if (num_replicas r =? 1)%Z then Some (set_penalty true s)
    else
      res <- first_fit_decreasing_heuristic (num_replicas r) (cpu_request r)
               (memory_request r) (num_clusters s) (free_cpu s) (free_memory s)
               (split_number_replicas s) ;;
      let s := set_split_number_replicas (snd res) s in
      let div := fst res in
      if check_if_clusters_are_full_after_split_deployment s div
      then Some (set_penalty true s)
      else Some (place_split count_ffi div s)
  else if (action =? num_clusters s + BF1B1)%nat then
    if (num_replicas r =? 1)%Z then Some (set_penalty true s)
    else
      let '(div, free_cpu', free_mem') :=
        best_fit_heuristic_one_by_one (num_replicas r) (cpu_request r)
          (memory_request r) (num_clusters s) (free_cpu s) (free_memory s) in
      (* the heuristic was handed [self.free_cpu] and [self.free_memory]
         themselves and has written to them *)
      let s := set_free_memory free_mem' (set_free_cpu free_cpu' s) in
      if check_if_clusters_are_full_after_split_deployment s div
      then Some (set_penalty true s)
      else Some (place_split count_bf1b1 div s)
  else if (action =? num_clusters s + NUM_SPREADING_ACTIONS)%nat then
    Some (set_penalty true s)
  else Some s.

(** ** [dequeue_request] *)

(** Body of [for d in range(self.num_clusters)] for a split request.  The
    amounts are read from [self.deployment_request]. *)
Definition release_split_step (acc : option Env) (d : nat) : option Env :=
  s <- acc ;;
  split <- split_clusters (deployment_request s) ;;
  let total_cpu := cpu_request (deployment_request s) * inject_Z (geti d split) in
  let total_memory := memory_request (deployment_request s) * inject_Z (geti d split) in
  let s := set_allocated_cpu
             (upd d (get d (allocated_cpu s) - total_cpu) (allocated_cpu s)) s in
  let s := set_allocated_memory
             (upd d (get d (allocated_memory s) - total_memory) (allocated_memory s)) s in
  let s := set_free_cpu
             (upd d (get d (cpu_capacity s) - get d (allocated_cpu s)) (free_cpu s)) s in
  let s := set_free_memory
             (upd d (get d (memory_capacity s) - get d (allocated_memory s))
                  (free_memory s)) s in
  Some (if Qeq_bool total_cpu 0 then s else decrease_latency d (110 # 100) s).

(** [heappop] raises on an empty heap; subscripting a [split_clusters] that
    is still [None] raises.  An entry that is not split was enqueued by
    [place_all], which has set its [deployed_cluster]. *)
Definition dequeue_request (s : Env) : option Env :=
  match running_requests s with
  | [] => None
  | (_, popped) :: rest =>
      let s := set_running_requests rest s in
      if is_deployment_split popped then
        fold_left release_split_step (seq 0 (num_clusters s)) (Some s)
      else
        n <- deployed_cluster popped ;;
        let r := deployment_request s in
        let total_cpu := inject_Z (num_replicas r) * cpu_request r in
        let total_memory := inject_Z (num_replicas r) * memory_request r in
        let s := set_allocated_cpu
                   (upd n (get n (allocated_cpu s) - total_cpu) (allocated_cpu s)) s in
        let s := set_allocated_memory
                   (upd n (get n (allocated_memory s) - total_memory)
                        (allocated_memory s)) s in
        let s := set_free_cpu
                   (upd n (get n (cpu_capacity s) - get n (allocated_cpu s))
                        (free_cpu s)) s in
        let s := set_free_memory
                   (upd n (get n (memory_capacity s) - get n (allocated_memory s))
                        (free_memory s)) s in
        Some (decrease_latency n (115 # 100) s)
  end.

(** The [while True] loop of [next_request]: every iteration that continues
    pops one entry, so the length of the heap bounds the iterations. *)
Fixpoint drain (fuel : nat) (arrival_time : Q) (s : Env) : option Env :=
  match fuel with
  | O => Some s
  | S fuel' =>
      match running_requests s with
      | [] => Some s
      | (next_departure_time, _) :: _ =>
          if Qlt_bool next_departure_time arrival_time
          then s' <- dequeue_request s ;; drain fuel' arrival_time s'
          else Some s
      end
  end.

(** ** Pseudo-random draws

    [np_random.integers(low, high)] draws from the half-open range
    [low <= k < high] and raises when the range is empty; [u] is the raw
    integer the generator produces for the call.  [np_random.uniform] and
    [np_random.exponential] scale a sample of the unit interval and of the
    standard exponential distribution. *)

Definition integers_in (low high u : Z) : Z := (low + u mod (high - low))%Z.

Definition integers (low high u : Z) : option Z :=
  if (low <? high)%Z then Some (integers_in low high u) else None.

Definition uniform (low high u : Q) : Q := low + (high - low) * u.

Definition exponential (scale e : Q) : Q := scale * e.

(** The draws consumed by one call of [next_request]. *)
Record RequestDraws : Type := mkRequestDraws {
  e_arrival : Q;
  e_duration : Q;
  u_template : Z;
  u_replicas : Z
}.

(** The draws consumed by [__init__] and by [reset]. *)
Record FleetDraws : Type := mkFleetDraws {
  u_latency : nat -> nat -> Z;
  u_type : nat -> Z;
  u_cpu : nat -> Q;
  u_memory : nat -> Q
}.

(** The loop that fills the latency matrix, in [__init__] and in [reset]:
    every entry of the square matrix is written once, the diagonal with 0
    and the others with [integers(low=MIN_DELAY, high=MAX_DELAY)]. *)
Definition draw_latency_matrix (num : nat) (u : nat -> nat -> Z) : list (list Q) :=
  map (fun n1 =>
         map (fun n2 =>
                if Nat.eqb n1 n2 then 0
                else inject_Z (integers_in 1 1000 (u n1 n2)))
             (seq 0 num))
      (seq 0 num).

Definition draw_cluster_type (num : nat) (u : nat -> Z) : list nat :=
  map (fun c => Z.to_nat (integers_in 0 NUM_CLUSTER_TYPES (u c))) (seq 0 num).

Definition draw_allocated (num : nat) (u : nat -> Q) : list Q :=
  map (fun c => uniform 0 (2 # 10) (u c)) (seq 0 num).

Definition free_of (capacity allocated : list Q) (num : nat) : list Q :=
  map (fun n => get n capacity - get n allocated) (seq 0 num).

Section Collaborators.

(** Helpers of [envs/utils.py], which is not part of the sources at hand:
    the catalogue of request blueprints, the Gini coefficient, the min-max
    normalisation, and the rounding to two decimals that
    [float("{:.2f}".format(x))] performs. *)
Variable get_c2e_deployment_list : list DeploymentRequest.
Variable calculate_gini_coefficient : list Q -> Q.
Variable normalize : Q -> Q -> Q -> Q.
Variable round2 : Q -> Q.

(** [deployment_list[n - 1]]: index [-1] is the last blueprint. *)
Definition deployment_generator (dr : RequestDraws) (s : Env) : option DeploymentRequest :=
  let deployment_list := get_c2e_deployment_list in
  n <- integers 0 (Z.of_nat (List.length deployment_list)) (u_template dr) ;;
  let idx := if (n =? 0)%Z then (List.length deployment_list - 1)%nat
             else Z.to_nat (n - 1) in
  d <- nth_error deployment_list idx ;;
  if (min_replicas s =? max_replicas s)%Z
  then Some (with_num_replicas (min_replicas s) d)
  else
    k <- integers (min_replicas s) (max_replicas s) (u_replicas dr) ;;
    Some (with_num_replicas k d).

(** The two draws of [next_request] raise before anything is assigned:
    [1 / self.arrival_rate_r] raises [ZeroDivisionError] on a zero rate, and
    [np_random.exponential] raises [ValueError] on a negative scale. *)
Definition draws_raise (s : Env) : bool :=
  Qeq_bool (arrival_rate_r s) 0
  || Qlt_bool (1 / arrival_rate_r s) 0
  || Qlt_bool (call_duration_r s) 0.

Definition next_request (dr : RequestDraws) (s : Env) : option Env :=
  if draws_raise s then None
  else
    let arrival_time :=
      current_time s + exponential (1 / arrival_rate_r s) (e_arrival dr) in
    let departure_time :=
      arrival_time + exponential (call_duration_r s) (e_duration dr) in
    let s := set_dt (departure_time - arrival_time) s in
    let s := set_current_time arrival_time s in
    s <- drain (List.length (running_requests s)) arrival_time s ;;
    d <- deployment_generator dr s ;;
    Some (set_deployment_request d s).

(** The reward of a penalised step, shared by the four objectives;
    [unavoidable] is what is paid when no cluster could host the request. *)
Definition penalty_reward (unavoidable : Q) (s : Env) : Q :=
  if negb (check_if_cluster_is_really_full s) then -1 else unavoidable.

Definition get_reward (s : Env) : option Q :=
  let r := deployment_request s in
  if String.eqb (reward_function s) NAIVE then
    if penalty s then Some (penalty_reward 1 s) else Some 1
  else if String.eqb (reward_function s) MULTI then
    if penalty s then Some (penalty_reward 1 s)
    else
      lat_cost <-
        (if negb (is_deployment_split r) then
           c <- deployed_cluster r ;;
           Some (get c (latency s),
                 ct_cost (cluster_type_of (nth c (cluster_type s) 0%nat)))
         else
           l <- expected_latency r ;;
           c <- expected_cost r ;;
           Some (l, c)) ;;
      let gini := calculate_gini_coefficient (avg_load_served s) in
      let lat := normalize (fst lat_cost) MIN_DELAY MAX_DELAY in
      let cost := normalize (snd lat_cost) MIN_COST MAX_COST in
      Some (latency_weight s * (1 - lat) + cost_weight s * (1 - cost)
            + gini_weight s * (1 - gini))
  else if String.eqb (reward_function s) LATENCY then
    if penalty s then Some (penalty_reward 1 s)
    else
      let t := latency_threshold r in
      lat <- (if negb (is_deployment_split r) then
                c <- deployed_cluster r ;; Some (get c (latency s))
              else expected_latency r) ;;
      Some (if Qlt_bool lat t then 1 else -1)
  else if String.eqb (reward_function s) COST then
    if penalty s then Some (penalty_reward (MAX_COST - MIN_COST) s)
    else
      cost <- (if negb (is_deployment_split r) then
                 c <- deployed_cluster r ;;
                 Some (ct_cost (cluster_type_of (nth c (cluster_type s) 0%nat)))
               else expected_cost r) ;;
      Some (round2 (MAX_COST - cost))
  else None.

(** [step], without the observation and the [info] dictionary it builds.
    The two blocking probabilities divide Python integers, which raises on
    a zero divisor.  At the end of an episode the summary row takes the mean
    of the three per-request lists, which raises when nothing was accepted. *)
Definition step (action : nat) (dr : RequestDraws) (s : Env) : option (Env * Q) :=
  let s := set_offered_requests (offered_requests s + 1)%Z s in
  s <- take_action action s ;;
  reward <- get_reward s ;;
  let s := set_total_reward (total_reward s + reward) s in
  s <- next_request dr s ;;
  s <- (if (offered_requests s =? 0)%Z then None
        else Some (set_block_prob
                     (1 - inject_Z (accepted_requests s) / inject_Z (offered_requests s)) s)) ;;
  s <- (if (current_step s =? 0)%Z then None
        else Some (set_ep_block_prob
                     (1 - inject_Z (ep_accepted_requests s) / inject_Z (current_step s)) s)) ;;
  if (current_step s =? episode_length s)%Z then
    let s := set_episode_over true (set_episode_count (episode_count s + 1)%Z s) in
    _ <- mean (avg_latency s) ;;
    _ <- mean (avg_cost s) ;;
    _ <- mean (avg_cpu_usage_percentage_cluster_selected s) ;;
    Some (s, reward)
  else Some (s, reward).

(** The constructor arguments of the environment. *)
Record Config : Type := mkConfig {
  cfg_num_clusters : nat;
  cfg_arrival_rate_r : Q;
  cfg_call_duration_r : Q;
  cfg_episode_length : Z;
  cfg_reward_function : string;
  cfg_latency_weight : Q;
  cfg_cost_weight : Q;
  cfg_gini_weight : Q;
  cfg_min_replicas : Z;
  cfg_max_replicas : Z
}.

(** The request attribute before the first [next_request]. *)
Definition no_request : DeploymentRequest :=
  mkRequest 0 0 0 0 0 None false None None None.

(** [__init__].  [next_request] runs before the remaining attributes are
    assigned; they are constants, so the record is built first. *)
Definition init (cfg : Config) (fd : FleetDraws) (dr : RequestDraws) : option Env :=
  let num := cfg_num_clusters cfg in
  let latency_matrix := draw_latency_matrix num (u_latency fd) in
  let latency := map (fun n1 => mean_of (row n1 latency_matrix)) (seq 0 num) in
  let cluster_type := draw_cluster_type num (u_type fd) in
  let cpu_capacity := map (fun t => ct_cpu (cluster_type_of t)) cluster_type in
  let memory_capacity := map (fun t => ct_mem (cluster_type_of t)) cluster_type in
  let allocated_cpu := draw_allocated num (u_cpu fd) in
  let allocated_memory := draw_allocated num (u_memory fd) in
  next_request dr
    (mkEnv num (cfg_arrival_rate_r cfg) (cfg_call_duration_r cfg)
       (cfg_episode_length cfg) (cfg_reward_function cfg) []
       (cfg_min_replicas cfg) (cfg_max_replicas cfg)
       latency_matrix latency no_request
       cpu_capacity memory_capacity cluster_type
       allocated_cpu allocated_memory
       (free_of cpu_capacity allocated_cpu num)
       (free_of memory_capacity allocated_memory num)
       (repeat 0 num)
       (cfg_latency_weight cfg) (cfg_cost_weight cfg) (cfg_gini_weight cfg)
       0%Z 0 0 false 0%Z 0%Z 0%Z 0 false 0 0 [] [] [] (repeat 0 num)
       0%Z 0%Z 0%Z 0%Z 0%Z).

End Collaborators.

(** [reset]: the attributes it assigns, in the order of the source. *)
Definition reset (fd : FleetDraws) (s : Env) : Env :=
  let num := num_clusters s in
  let s := set_current_step 0%Z s in
  let s := set_episode_over false s in
  let s := set_total_reward 0 s in
  let s := set_ep_accepted_requests 0%Z s in
  let s := set_penalty false s in
  let s := set_block_prob 0 s in
  let s := set_ep_block_prob 0 s in
  let s := set_avg_latency [] s in
  let s := set_avg_cost [] s in
  let s := set_avg_load_served (repeat 0 num) s in
  let s := set_avg_cpu_usage_percentage_cluster_selected [] s in
  let s := set_latency_matrix (draw_latency_matrix num (u_latency fd)) s in
  let s := set_latency (map (fun n1 => mean_of (row n1 (latency_matrix s))) (seq 0 num)) s in
  let s := set_cluster_type (draw_cluster_type num (u_type fd)) s in
  let s := set_cpu_capacity (map (fun t => ct_cpu (cluster_type_of t)) (cluster_type s)) s in
  let s := set_memory_capacity (map (fun t => ct_mem (cluster_type_of t)) (cluster_type s)) s in
  let s := set_allocated_cpu (draw_allocated num (u_cpu fd)) s in
  let s := set_allocated_memory (draw_allocated num (u_memory fd)) s in
  let s := set_free_cpu (free_of (cpu_capacity s) (allocated_cpu s) num) s in
  let s := set_free_memory (free_of (memory_capacity s) (allocated_memory s) num) s in
  let s := set_deploy_all 0%Z s in
  let s := set_deploy_ffd 0%Z s in
  let s := set_deploy_ffi 0%Z s in
  let s := set_deploy_bf1b1 0%Z s in
  set_split_number_replicas (repeat 0 num) s.

(** * Vocabulary of the properties *)

(** Allocating the whole request on cluster [k] keeps CPU and memory at or
    below 95% of the capacity of the cluster. *)
Definition whole_placement_fits (s : Env) (k : nat) : Prop :=
  let r := deployment_request s in
  get k (allocated_cpu s) + inject_Z (num_replicas r) * cpu_request r
    <= FULL_THRESHOLD * get k (cpu_capacity s)
  /\ get k (allocated_memory s) + inject_Z (num_replicas r) * memory_request r
    <= FULL_THRESHOLD * get k (memory_capacity s).


(** The part of the state the fullness checks read. *)
Definition same_ledger (a b : Env) : Prop :=
  num_clusters a = num_clusters b
  /\ allocated_cpu a = allocated_cpu b
  /\ allocated_memory a = allocated_memory b
  /\ cpu_capacity a = cpu_capacity b
  /\ memory_capacity a = memory_capacity b
  /\ deployment_request a = deployment_request b.

(** The naive reward in the words of the specification: [+1] for an
    admitted action; for a penalised one, [+1] when no cluster of [before]
    can host the pending request as a whole and [-1] otherwise. *)
Definition naive_reward_spec (before after : Env) : Q :=
  if penalty after
  then if check_if_cluster_is_really_full before then 1 else -1
  else 1.

(** The state with the usage counters of the two first-fit actions erased. *)
Definition forget_first_fit_counters (s : Env) : Env :=
  set_deploy_ffi 0%Z (set_deploy_ffd 0%Z s).

(** The accepting branch of a split, cut at its loop: the statements before
    the loop and those after it. *)
Definition split_prologue (count_strategy : Env -> Env) (div : list Z) (s : Env) : Env :=
  let s := set_penalty false s in
  let s := set_accepted_requests (accepted_requests s + 1)%Z s in
  let s := set_ep_accepted_requests (ep_accepted_requests s + 1)%Z s in
  let s := count_strategy s in
  set_deployment_request
    (with_is_deployment_split true
       (with_split_clusters (Some div) (deployment_request s))) s.

Definition split_epilogue (st : Env * (Q * Q * Q)) : Env :=
  let '(s, (avg_l, avg_c, avg_cpu)) := st in
  let n := inject_Z (num_replicas (deployment_request s)) in
  let avg_l := avg_l / n in
  let avg_c := avg_c / n in
  let avg_cpu := avg_cpu / n in
  let s := set_avg_latency (avg_latency s ++ [avg_l]) s in
  let s := set_avg_cost (avg_cost s ++ [avg_c]) s in
  let s := set_avg_cpu_usage_percentage_cluster_selected
             (avg_cpu_usage_percentage_cluster_selected s ++ [avg_cpu]) s in
  let s := set_deployment_request
             (with_expected_cost (Some avg_c)
                (with_expected_latency (Some avg_l) (deployment_request s))) s in
  enqueue_request (deployment_request s) s.

(** * A two-cluster fleet used to run the environment

    Cluster 0 is an [edge_tier_1] cluster (2 CPU, 2 memory), cluster 1 a
    [cloud] cluster (8 CPU, 32 memory); both start with 0.125 allocated.  The
    catalogue holds three blueprints whose departure times differ, and whose
    demands are exact in binary floating point. *)
Module Fleet.

Definition blueprint_a : DeploymentRequest :=
  mkRequest 1 (1 # 2) (1 # 2) 200 10 None false None None None.

Definition blueprint_b : DeploymentRequest :=
  mkRequest 1 (1 # 2) (1 # 2) 200 20 None false None None None.

Definition blueprint_c : DeploymentRequest :=
  mkRequest 1 (5 # 8) (1 # 4) 200 30 None false None None None.

Definition catalogue : list DeploymentRequest := [blueprint_a; blueprint_b; blueprint_c].

Definition config : Config :=
  mkConfig 2 1 1 100 NAIVE (6 # 10) (2 # 10) (2 # 10) MIN_REPLICAS MAX_REPLICAS.

(** Raw draws: latency 5 from cluster 0 to 1 and 7 from 1 to 0, tiers 0 and 4,
    and 0.625 of the [0, 0.2) range of the initial allocation. *)
Definition fleet_draws : FleetDraws :=
  mkFleetDraws (fun n1 n2 => if Nat.eqb n1 0 then 4%Z else 6%Z)
               (fun c => if Nat.eqb c 0 then 0%Z else 4%Z)
               (fun _ => 5 # 8) (fun _ => 5 # 8).

(** The collaborators of [envs/utils.py] the naive objective never calls. *)
Definition no_gini (_ : list Q) : Q := 0.
Definition no_normalize (x _ _ : Q) : Q := x.
Definition no_round (x : Q) : Q := x.

Definition run_step (action : nat) (dr : RequestDraws) (s : Env) : option (Env * Q) :=
  step catalogue no_gini no_normalize no_round action dr s.

Definition reject : nat := 2 + NUM_SPREADING_ACTIONS.

(** First arrival at time 1: blueprint A with one replica. *)
Definition first_a : RequestDraws := mkRequestDraws 1 1 1 0.

(** First arrival at time 1: blueprint C with three replicas. *)
Definition first_c : RequestDraws := mkRequestDraws 1 1 0 2.

(** Next arrival one time unit later: blueprint B with three replicas. *)
Definition then_b : RequestDraws := mkRequestDraws 1 1 2 2.

(** Next arrival ten time units later: blueprint B with three replicas. *)
Definition later_b : RequestDraws := mkRequestDraws 10 1 2 2.

(** [__init__] with request A pending. *)
Definition started : option Env := init catalogue config fleet_draws first_a.

Definition blank : Env :=
  mkEnv 0 0 0 0 NAIVE [] 0 0 [] [] no_request [] [] [] [] [] [] [] []
        0 0 0 0 0 0 false 0 0 0 0 false 0 0 [] [] [] [] 0 0 0 0 0.

(** The state [started] returns. *)
Definition first_state : Env :=
  Eval vm_compute in match started with Some s => s | None => blank end.

(** Request A is admitted as a whole on cluster 0 and request B, which
    arrives while A is running, is rejected; A departs before the third
    arrival. *)
Definition a_placed : option (Env * Q) :=
  s <- started ;; run_step 0 then_b s.

Definition a_departed : option (Env * Q) :=
  p <- a_placed ;; run_step reject later_b (fst p).

(** The same run with a [reset] between the admission of A and the
    rejection of B. *)
Definition a_placed_then_reset : option Env :=
  p <- a_placed ;; Some (reset fleet_draws (fst p)).

Definition a_departed_after_reset : option (Env * Q) :=
  s <- a_placed_then_reset ;; run_step reject later_b s.

(** The same with splits: request A, now two replicas, is split by the FFD
    action; request B, three replicas, is split as well and is still running
    when A departs. *)
Definition first_a2 : RequestDraws := mkRequestDraws 1 1 1 1.

Definition started_a2 : option Env := init catalogue config fleet_draws first_a2.

Definition a_split : option (Env * Q) :=
  s <- started_a2 ;; run_step (2 + FFD) then_b s.

Definition a_split_departed : option (Env * Q) :=
  p <- a_split ;; run_step (2 + FFD) later_b (fst p).

(** Request C, three replicas, is handed to the best-fit split. *)
Definition started_c : option Env := init catalogue config fleet_draws first_c.

Definition c_split : option Env :=
  s <- started_c ;; take_action (2 + BF1B1) s.

End Fleet.

(** * Vocabulary of the split conservation property *)

(** [plan] assigns whole replicas to the clusters so that the free CPU and
    the free memory of every cluster cover its share. *)
Definition hosts_plan (cpu_req mem_req : Q) (num : nat)
    (free_cpu free_mem : list Q) (plan : list Z) : Prop :=
  List.length plan = num
  /\ forall c, (c < num)%nat ->
       (0 <= geti c plan)%Z
       /\ inject_Z (geti c plan) * cpu_req <= get c free_cpu
       /\ inject_Z (geti c plan) * mem_req <= get c free_mem.

(** The fleet has room for [num_replicas] replicas of the request. *)
Definition fleet_can_host (num_replicas : Z) (cpu_req mem_req : Q) (num : nat)
    (free_cpu free_mem : list Q) : Prop :=
  exists plan, hosts_plan cpu_req mem_req num free_cpu free_mem plan
               /\ Zsum plan = num_replicas.

(** The aggregate free capacity covers the aggregate demand. *)
Definition aggregate_capacity_suffices (num_replicas : Z) (cpu_req mem_req : Q)
    (free_cpu free_mem : list Q) : Prop :=
  inject_Z num_replicas * cpu_req <= Qsum free_cpu
  /\ inject_Z num_replicas * mem_req <= Qsum free_mem.

(** What the two loops of the first-fit heuristic maintain: the replicas
    placed so far and those still to place add up to the request. *)
Definition ffd_invariant (num : nat) (total : Z) (st : list Z * Z) : Prop :=
  List.length (fst st) = num /\ (0 <= snd st)%Z /\ (Zsum (fst st) + snd st = total)%Z.

(** The test of the best-fit scan: the cluster has room for one replica. *)
Definition fits_one (cpu_req mem_req : Q) (free_cpu free_mem : list Q) (c : nat) : bool :=
  Qle_bool cpu_req (get c free_cpu) && Qle_bool mem_req (get c free_mem).

(** The states of the best-fit scan: nothing found yet, or a bin together
    with its leftover space. *)
Definition scan_state_ok (st : option nat * option Q) : Prop :=
  st = (None, None) \/ exists b space, st = (Some b, Some space).

Definition scan_found (st : option nat * option Q) : Prop :=
  exists b space, st = (Some b, Some space).

(** Split conservation in the words of the specification, for both
    heuristics: the distribution never exceeds the request, and it places the
    whole request whenever the aggregate free capacity of the fleet covers
    it. *)
Definition split_conservation_as_claimed : Prop :=
  forall (num_replicas : Z) (cpu_req mem_req : Q) (num : nat)
         (free_cpu free_mem split0 : list Q),
    (2 <= num_replicas)%Z -> 0 < cpu_req -> 0 < mem_req ->
    List.length free_cpu = num -> List.length free_mem = num ->
    List.length split0 = num ->
    (forall dist factors,
        first_fit_decreasing_heuristic num_replicas cpu_req mem_req num
          free_cpu free_mem split0 = Some (dist, factors) ->
        (Zsum dist <= num_replicas)%Z
        /\ (aggregate_capacity_suffices num_replicas cpu_req mem_req free_cpu free_mem ->
            Zsum dist = num_replicas))
    /\ (let dist := fst (fst (best_fit_heuristic_one_by_one num_replicas cpu_req
                                mem_req num free_cpu free_mem)) in
        (Zsum dist <= num_replicas)%Z
        /\ (aggregate_capacity_suffices num_replicas cpu_req mem_req free_cpu free_mem ->
            Zsum dist = num_replicas)).

(** A fleet on which the first-fit split falls short: cluster 0 has 0.125
    CPU left, cluster 1 is almost empty; the request is eight replicas of
    0.25 CPU and 0.25 memory. *)
Module Crowded.
Definition free_cpu : list Q := [1 # 8; 63 # 8].
Definition free_mem : list Q := [15 # 8; 255 # 8].
Definition plan : list Z := [0%Z; 8%Z].
End Crowded.

(** A fleet whose free CPU is fragmented: 1.5 and 0.5 CPU are left, and the
    request is two replicas of 1 CPU. *)
Module Fragmented.
Definition free_cpu : list Q := [3 # 2; 1 # 2].
Definition free_mem : list Q := [8; 8].
End Fragmented.

(** The fleet state: ledger, derived free resources, latencies, timeline. *)
Definition same_fleet (a b : Env) : Prop :=
  same_ledger a b
  /\ free_cpu a = free_cpu b
  /\ free_memory a = free_memory b
  /\ latency_matrix a = latency_matrix b
  /\ latency a = latency b
  /\ running_requests a = running_requests b.

(** The latency bounds that initialisation and updates maintain: a square
    matrix with a zero diagonal whose other entries lie between [MIN_DELAY]
    and [MAX_DELAY]. *)
Definition latency_invariant (num : nat) (m : list (list Q)) : Prop :=
  List.length m = num
  /\ (forall i, (i < num)%nat -> List.length (row i m) = num)
  /\ (forall i, (i < num)%nat -> mget i i m == 0)
  /\ (forall i j, (i < num)%nat -> (j < num)%nat -> i <> j ->
        MIN_DELAY <= mget i j m /\ mget i j m <= MAX_DELAY).

(** * Further functions of the environment *)

Definition NUM_METRICS_CLUSTER : nat := 4.
Definition NUM_METRICS_REQUEST : nat := 4.

(** Body of the loop over the clusters ranked by increasing free CPU in
    [first_fit_increasing_heuristic]: a cluster with room for one replica
    receives [min_factor] replicas. *)
Definition ffi_ranked_step (cpu_req mem_req : Q) (min_factor : Z)
    (free_cpu free_mem : list Q) (st : list Z * Z) (n : nat) : list Z * Z :=
  let '(distribution, num_replicas) := st in
  if (num_replicas =? 0)%Z then st
  else if (0 <? num_replicas)%Z && (min_factor <? num_replicas)%Z
          && Qlt_bool cpu_req (get n free_cpu) && Qlt_bool mem_req (get n free_mem)
  then (upd n (geti n distribution + min_factor)%Z distribution,
        (num_replicas - min_factor)%Z)
  else st.

(** [first_fit_increasing_heuristic]; its second loop has the body of the
    second loop of the decreasing variant.  The minimum of the split factors
    raises on an empty list.  The demands of a request are positive: the
    quotients are the exact ones. *)
Definition first_fit_increasing_heuristic (num_replicas : Z) (cpu_req mem_req : Q)
    (num : nat) (free_cpu free_mem : list Q) : option (list Z) :=
  let distribution := repeat 0%Z num in
  let split_factors :=
    map (fun n => Qmin (get n free_cpu / cpu_req) (get n free_mem / mem_req))
        (seq 0 num) in
  min_factor <- ffd_min_factor num_replicas split_factors ;;
  let sorted_clusters_cpu := sorted_by (fun x => get x free_cpu) (seq 0 num) in
  let '(distribution, remaining) :=
    fold_left (ffi_ranked_step cpu_req mem_req min_factor free_cpu free_mem)
              sorted_clusters_cpu (distribution, num_replicas) in
  if (0 <? remaining)%Z
  then Some (fst (fold_left (ffd_remaining_step cpu_req mem_req free_cpu free_mem)
                            (seq 0 num) (distribution, remaining)))
  else Some distribution.

(** [get_state]: one row per cluster, then [NUM_SPREADING_ACTIONS + 1]
    placeholder rows of [-1], every row extended with the demands of the
    pending request.  [np.stack] and [np.concatenate] raise when the shapes
    of their arguments do not agree. *)
Definition get_state (s : Env) : option (list (list Q)) :=
  let num := num_clusters s in
  let cluster := repeat (repeat (-1) (NUM_METRICS_CLUSTER + 1)) (NUM_SPREADING_ACTIONS + 1) in
  if Nat.eqb (List.length (allocated_cpu s)) num
     && Nat.eqb (List.length (cpu_capacity s)) num
     && Nat.eqb (List.length (allocated_memory s)) num
     && Nat.eqb (List.length (memory_capacity s)) num
     && Nat.eqb (List.length (latency s)) num
  then
    let observation :=
      map (fun c => [get c (allocated_cpu s); get c (cpu_capacity s);
                     get c (allocated_memory s); get c (memory_capacity s);
                     get c (latency s)])
          (seq 0 num) in
    let r := deployment_request s in
    let request_demands :=
      [inject_Z (num_replicas r); cpu_request r; memory_request r;
       latency_threshold r; dt s] in
    Some (map (fun row => row ++ request_demands) (observation ++ cluster))
  else None.

(** * Vocabulary of the further properties *)

(** A square matrix of side [num]. *)
Definition latency_shape (num : nat) (m : list (list Q)) : Prop :=
  List.length m = num /\ forall i, (i < num)%nat -> List.length (row i m) = num.

(** What a latency update on cluster [n] does to the matrix: the diagonal
    entry is 0, every other entry of row [n] is the clamped image of the old
    one, column [n] mirrors row [n], and the rest is untouched. *)
Definition mirrored_update (scale : Q -> Q) (num n : nat)
    (before after : list (list Q)) : Prop :=
  mget n n after = 0
  /\ (forall j, (j < num)%nat -> j <> n ->
        mget n j after = clamp_delay (scale (mget n j before))
        /\ mget j n after = mget n j after)
  /\ (forall i j, (i < num)%nat -> (j < num)%nat -> i <> n -> j <> n ->
        mget i j after = mget i j before).

(** The ledger of a cluster right after [__init__] or [reset]: an absolute
    allocation below 0.2 on a capacity within the range of the tier table,
    with the free resources derived from both. *)
Definition fresh_cluster (s : Env) (c : nat) : Prop :=
  (0 <= get c (allocated_cpu s) /\ get c (allocated_cpu s) < 2 # 10)
  /\ (0 <= get c (allocated_memory s) /\ get c (allocated_memory s) < 2 # 10)
  /\ (2 <= get c (cpu_capacity s) /\ get c (cpu_capacity s) <= 8)
  /\ (2 <= get c (memory_capacity s) /\ get c (memory_capacity s) <= 32)
  /\ get c (free_cpu s) = get c (cpu_capacity s) - get c (allocated_cpu s)
  /\ get c (free_memory s) = get c (memory_capacity s) - get c (allocated_memory s).

(** The latency model right after [__init__] or [reset]. *)
Definition fresh_latency (s : Env) : Prop :=
  latency_invariant (num_clusters s) (latency_matrix s)
  /\ (forall i j, (i < num_clusters s)%nat -> (j < num_clusters s)%nat -> i <> j ->
        mget i j (latency_matrix s) <= 999)
  /\ List.length (latency s) = num_clusters s
  /\ (forall c, (c < num_clusters s)%nat ->
        get c (latency s) = mean_of (row c (latency_matrix s))).

(** The arrays of the ledger have one entry per cluster. *)
Definition ledger_shape (s : Env) : Prop :=
  List.length (cpu_capacity s) = num_clusters s
  /\ List.length (memory_capacity s) = num_clusters s
  /\ List.length (allocated_cpu s) = num_clusters s
  /\ List.length (allocated_memory s) = num_clusters s
  /\ List.length (free_cpu s) = num_clusters s
  /\ List.length (free_memory s) = num_clusters s
  /\ List.length (split_number_replicas s) = num_clusters s.

(** The samples of the unit interval behind the initial allocation of
    cluster [c]. *)
Definition unit_draws (fd : FleetDraws) (c : nat) : Prop :=
  (0 <= u_cpu fd c /\ u_cpu fd c < 1) /\ (0 <= u_memory fd c /\ u_memory fd c < 1).

(** What the best-fit loop maintains for its reservations: no count is
    negative, a cluster without replicas has the free resources it started
    with, and a cluster that received a replica had room for it when it was
    placed, so that its free resources are not negative. *)
Definition bf_reserved (num : nat) (free_cpu free_mem : list Q)
    (st : list Z * list Q * list Q) : Prop :=
  List.length (fst (fst st)) = num
  /\ List.length (snd (fst st)) = num
  /\ List.length (snd st) = num
  /\ forall c, (c < num)%nat ->
       (0 <= geti c (fst (fst st)))%Z
       /\ (geti c (fst (fst st)) = 0%Z ->
           get c (snd (fst st)) = get c free_cpu /\ get c (snd st) = get c free_mem)
       /\ ((0 < geti c (fst (fst st)))%Z ->
           0 <= get c (snd (fst st)) /\ 0 <= get c (snd st)).

(** What the loop maintains when the demands are not negative: the free
    resources never grow, and a cluster that received a replica had room for
    one replica at the start. *)
Definition bf_shrinks (cpu_req mem_req : Q) (num : nat) (free_cpu free_mem : list Q)
    (st : list Z * list Q * list Q) : Prop :=
  forall c, (c < num)%nat ->
    get c (snd (fst st)) <= get c free_cpu
    /\ get c (snd st) <= get c free_mem
    /\ ((0 < geti c (fst (fst st)))%Z ->
        cpu_req <= get c free_cpu /\ mem_req <= get c free_mem).

(** A distribution of replicas whose counts are non-negative and that gives
    replicas only to clusters with strictly more free CPU and memory than
    one replica asks for. *)
Definition counts_with_room (cpu_req mem_req : Q) (free_cpu free_mem : list Q)
    (d : list Z) : Prop :=
  forall c, (0 <= geti c d)%Z
            /\ ((0 < geti c d)%Z -> cpu_req < get c free_cpu /\ mem_req < get c free_mem).

(** One write of the sweeps that commit a distribution: entry [d] of the
    array moves by [k d]. *)
Definition bump (k : nat -> Q) (a : list Q) (d : nat) : list Q :=
  upd d (get d a + k d) a.

(** Cluster [c] is allocated within the fullness threshold. *)
Definition within_threshold (s : Env) (c : nat) : Prop :=
  get c (allocated_cpu s) <= FULL_THRESHOLD * get c (cpu_capacity s)
  /\ get c (allocated_memory s) <= FULL_THRESHOLD * get c (memory_capacity s).

(** The allocation of cluster [c] is the same in both states. *)
Definition allocation_kept (before after : Env) (c : nat) : Prop :=
  get c (allocated_cpu after) = get c (allocated_cpu before)
  /\ get c (allocated_memory after) = get c (allocated_memory before).

(** The timeline in departure order: no entry leaves before one in front of
    it. *)
Fixpoint timeline_sorted (h : list (Q * DeploymentRequest)) : Prop :=
  match h with
  | [] => True
  | x :: t => (forall y, In y t -> fst x <= fst y) /\ timeline_sorted t
  end.

(** The attributes a departure leaves alone: the configuration, the pending
    request, the capacities, the clock and the counters of the episode. *)
Definition books (s : Env) :=
  (num_clusters s, episode_length s, reward_function s, deployment_request s,
   cpu_capacity s, memory_capacity s, current_step s, current_time s,
   offered_requests s, accepted_requests s, ep_accepted_requests s,
   avg_latency s, avg_cost s, avg_cpu_usage_percentage_cluster_selected s).

(** What an action does to the counters and the per-request statistics of
    the episode: an admitted request counts once and adds one sample to each
    list, a blocked one changes none of them. *)
Definition tally_after (admitted : bool) (before after : Env) : Prop :=
  reward_function after = reward_function before
  /\ episode_length after = episode_length before
  /\ offered_requests after = offered_requests before
  /\ accepted_requests after
     = (accepted_requests before + (if admitted then 1 else 0))%Z
  /\ ep_accepted_requests after
     = (ep_accepted_requests before + (if admitted then 1 else 0))%Z
  /\ if admitted
     then exists l c u,
         avg_latency after = avg_latency before ++ [l]
         /\ avg_cost after = avg_cost before ++ [c]
         /\ avg_cpu_usage_percentage_cluster_selected after
            = avg_cpu_usage_percentage_cluster_selected before ++ [u]
     else avg_latency after = avg_latency before
          /\ avg_cost after = avg_cost before
          /\ avg_cpu_usage_percentage_cluster_selected after
             = avg_cpu_usage_percentage_cluster_selected before.

(** * Runs of the two-cluster fleet

    States reached from [Fleet.first_state], in which request A (one replica
    of 0.5 CPU and 0.5 memory, departing at time 10) is pending. *)
Module Runs.

(** Request A placed as a whole on cluster 0. *)
Definition placed_a : Env :=
  Eval vm_compute in
    match take_action 0 Fleet.first_state with Some s => s | None => Fleet.blank end.

(** Request A rejected. *)
Definition rejected_a : Env :=
  Eval vm_compute in
    match take_action Fleet.reject Fleet.first_state with
    | Some s => s
    | None => Fleet.blank
    end.

(** The arrival that follows the placement of A, eleven time units after
    the first one: A has departed by then. *)
Definition after_departure : Env :=
  Eval vm_compute in
    match next_request Fleet.catalogue Fleet.later_b placed_a with
    | Some s => s
    | None => Fleet.blank
    end.

(** A whole step: A placed on cluster 0, then the arrival of B. *)
Definition stepped_a : Env * Q :=
  Eval vm_compute in
    match Fleet.a_placed with Some p => p | None => (Fleet.blank, 0) end.

(** [__init__] with request A asking for two replicas, and its split by the
    FFD action. *)
Definition second_state : Env :=
  Eval vm_compute in
    match Fleet.started_a2 with Some s => s | None => Fleet.blank end.

Definition split_a : Env :=
  Eval vm_compute in
    match take_action (2 + FFD) second_state with
    | Some s => s
    | None => Fleet.blank
    end.

(** An episode of a single step. *)
Definition short_config : Config :=
  mkConfig 2 1 1 1 NAIVE (6 # 10) (2 # 10) (2 # 10) MIN_REPLICAS MAX_REPLICAS.

Definition last_state : Env :=
  Eval vm_compute in
    match init Fleet.catalogue short_config Fleet.fleet_draws Fleet.first_a with
    | Some s => s
    | None => Fleet.blank
    end.

Definition last_stepped : Env * Q :=
  Eval vm_compute in
    match Fleet.run_step 0 Fleet.then_b last_state with
    | Some p => p
    | None => (Fleet.blank, 0)
    end.

(** An environment built with the risk-aware objective, which [get_reward]
    does not implement. *)
Definition risk_config : Config :=
  mkConfig 2 1 1 100 "risk" (6 # 10) (2 # 10) (2 # 10) MIN_REPLICAS MAX_REPLICAS.

Definition risk_state : Env :=
  Eval vm_compute in
    match init Fleet.catalogue risk_config Fleet.fleet_draws Fleet.first_a with
    | Some s => s
    | None => Fleet.blank
    end.

(** The observation of [Fleet.first_state]. *)
Definition first_observation : list (list Q) :=
  Eval vm_compute in
    match get_state Fleet.first_state with Some o => o | None => [] end.

End Runs.

(** * Properties *)

(** ** Arrays *)

Lemma upd_length {A : Type} (i : nat) (v : A) (l : list A) :
  List.length (upd i v l) = List.length l.
Proof.
  revert i; induction l as [|x t IH]; intros [|j]; simpl; auto.
Qed.

Lemma nth_upd_same {A : Type} (i : nat) (v d : A) (l : list A) :
  (i < List.length l)%nat -> nth i (upd i v l) d = v.
Proof.
  revert i; induction l as [|x t IH]; intros [|j] H; simpl in *; try lia; auto.
  apply IH; lia.
Qed.

Lemma nth_upd_other {A : Type} (i j : nat) (v d : A) (l : list A) :
  i <> j -> nth j (upd i v l) d = nth j l d.
Proof.
  revert i j; induction l as [|x t IH]; intros [|i] [|j] H; simpl; auto; try lia.
Qed.

Lemma get_upd_same (i : nat) (v : Q) (l : list Q) :
  (i < List.length l)%nat -> get i (upd i v l) = v.
Proof. apply nth_upd_same. Qed.

Lemma get_upd_other (i j : nat) (v : Q) (l : list Q) :
  i <> j -> get j (upd i v l) = get j l.
Proof. apply nth_upd_other. Qed.

Lemma geti_upd_same (i : nat) (v : Z) (l : list Z) :
  (i < List.length l)%nat -> geti i (upd i v l) = v.
Proof. apply nth_upd_same. Qed.

Lemma geti_upd_other (i j : nat) (v : Z) (l : list Z) :
  i <> j -> geti j (upd i v l) = geti j l.
Proof. apply nth_upd_other. Qed.

Lemma fold_invariant {A : Type} (P : A -> Prop) (f : A -> nat -> A) (num : nat)
    (l : list nat) (a : A) :
  (forall x n, (n < num)%nat -> P x -> P (f x n)) ->
  Forall (fun n => (n < num)%nat) l -> P a -> P (fold_left f l a).
Proof.
  intros H F. revert a. induction F as [|n t Hn F IH]; intros a Pa; simpl; auto.
Qed.

Lemma seq_below (num : nat) : Forall (fun n => (n < num)%nat) (seq 0 num).
Proof. apply Forall_forall. intros n H. apply in_seq in H. lia. Qed.

Lemma Qlt_bool_iff (a b : Q) : Qlt_bool a b = true <-> a < b.
Proof.
  unfold Qlt_bool. rewrite negb_true_iff, <- not_true_iff_false, Qle_bool_iff.
  split; [apply Qnot_le_lt | apply Qlt_not_le].
Qed.

Lemma Qlt_bool_false_iff (a b : Q) : Qlt_bool a b = false <-> b <= a.
Proof.
  unfold Qlt_bool. rewrite negb_false_iff. apply Qle_bool_iff.
Qed.

(** ** Entering [take_action]

    [take_action] first advances the step counter and may close the episode;
    [s0] names the state that results, which agrees with [s] on everything
    else. *)

Ltac enter_take_action s s0 :=
  unfold take_action; cbv zeta;
  set (s0 := if (current_step (set_current_step (current_step s + 1)%Z s)
                 =? episode_length (set_current_step (current_step s + 1)%Z s))%Z
             then set_episode_over true (set_current_step (current_step s + 1)%Z s)
             else set_current_step (current_step s + 1)%Z s).

Ltac entry_fact s0 := subst s0; destruct (_ =? _)%Z.

(** ** Whole placement and the action mask *)

Lemma check_full_iff (s : Env) (k : nat) :
  check_if_cluster_is_full_after_full_deployment s k = false <-> whole_placement_fits s k.
Proof.
  unfold check_if_cluster_is_full_after_full_deployment, whole_placement_fits.
  cbv zeta. rewrite orb_false_iff, !Qlt_bool_false_iff. reflexivity.
Qed.

Lemma mask_loop_length (f : nat -> bool) (l : list nat) (acc : list bool) :
  List.length (fold_left (fun a i => if f i then upd i false a else upd i true a) l acc)
  = List.length acc.
Proof.
  revert acc; induction l as [|x t IH]; intro acc; simpl; auto.
  rewrite IH. destruct (f x); apply upd_length.
Qed.

Lemma mask_loop_outside (f : nat -> bool) (l : list nat) (acc : list bool) (j : nat) (d : bool) :
  ~ In j l ->
  nth j (fold_left (fun a i => if f i then upd i false a else upd i true a) l acc) d
  = nth j acc d.
Proof.
  revert acc; induction l as [|x t IH]; intros acc H; simpl; auto.
  rewrite IH by (intro; apply H; right; assumption).
  assert (x <> j) by (intro; apply H; left; assumption).
  destruct (f x); apply nth_upd_other; assumption.
Qed.

Lemma mask_loop_inside (f : nat -> bool) (l : list nat) (acc : list bool) (j : nat) (d : bool) :
  NoDup l -> In j l -> (j < List.length acc)%nat ->
  nth j (fold_left (fun a i => if f i then upd i false a else upd i true a) l acc) d
  = negb (f j).
Proof.
  revert acc; induction l as [|x t IH]; intros acc ND Hin Hlt; simpl; [destruct Hin|].
  inversion ND as [|? ? Hx ND']; subst.
  destruct Hin as [->|Hin].
  - rewrite mask_loop_outside by assumption.
    destruct (f j); simpl; apply nth_upd_same; assumption.
  - apply IH; auto. destruct (f x); rewrite upd_length; assumption.
Qed.

Lemma place_all_penalty (k : nat) (s : Env) : penalty (place_all k s) = false.
Proof. reflexivity. Qed.

Lemma action_masks_length (s : Env) :
  List.length (action_masks s) = (num_clusters s + NUM_SPREADING_ACTIONS + 1)%nat.
Proof.
  unfold action_masks. cbv zeta.
  rewrite !upd_length, mask_loop_length. apply repeat_length.
Qed.

Lemma action_masks_cluster (s : Env) (k : nat) (d : bool) :
  (k < num_clusters s)%nat ->
  nth k (action_masks s) d = negb (check_if_cluster_is_full_after_full_deployment s k).
Proof.
  intro H. unfold action_masks, NUM_SPREADING_ACTIONS, FFD, FFI, BF1B1. cbv zeta.
  rewrite !nth_upd_other by lia.
  apply mask_loop_inside.
  - apply seq_NoDup.
  - apply in_seq; lia.
  - rewrite repeat_length; lia.
Qed.

Lemma action_masks_strategy (s : Env) (j : nat) (d : bool) :
  (num_clusters s <= j < num_clusters s + NUM_SPREADING_ACTIONS + 1)%nat ->
  nth j (action_masks s) d = true.
Proof.
  intro H. unfold action_masks, NUM_SPREADING_ACTIONS, FFD, FFI, BF1B1 in *. cbv zeta.
  assert (L : forall m, List.length
            (fold_left (fun acc i =>
               if check_if_cluster_is_full_after_full_deployment s i
               then upd i false acc else upd i true acc)
            (seq 0 (num_clusters s)) (repeat true (num_clusters s + 3 + 1))) = m ->
            m = (num_clusters s + 3 + 1)%nat).
  { intros m <-. rewrite mask_loop_length. apply repeat_length. }
  destruct (Nat.eq_dec j (num_clusters s + 3)) as [->|N3].
  { apply nth_upd_same. rewrite !upd_length, (L _ eq_refl). lia. }
  rewrite nth_upd_other by lia.
  destruct (Nat.eq_dec j (num_clusters s + 2)) as [->|N2].
  { apply nth_upd_same. rewrite !upd_length, (L _ eq_refl). lia. }
  rewrite nth_upd_other by lia.
  destruct (Nat.eq_dec j (num_clusters s + 1)) as [->|N1].
  { apply nth_upd_same. rewrite !upd_length, (L _ eq_refl). lia. }
  rewrite nth_upd_other by lia.
  assert (j = num_clusters s + 0)%nat as -> by lia.
  apply nth_upd_same. rewrite (L _ eq_refl). lia.
Qed.

Lemma take_action_whole (k : nat) (s : Env) :
  (k < num_clusters s)%nat ->
  exists s', take_action k s = Some s'
    /\ penalty s' = check_if_cluster_is_full_after_full_deployment s k.
Proof.
  intro H. apply Nat.ltb_lt in H. enter_take_action s s0.
  assert (N : num_clusters s0 = num_clusters s) by (entry_fact s0; reflexivity).
  assert (C : check_if_cluster_is_full_after_full_deployment s0 k
              = check_if_cluster_is_full_after_full_deployment s k)
    by (entry_fact s0; reflexivity).
  clearbody s0. rewrite N, H, <- C.
  destruct (check_if_cluster_is_full_after_full_deployment s0 k);
    eexists; split; reflexivity.
Qed.

(** C6: a whole placement on cluster [k] is accepted exactly when the request
    fits under 95% of the CPU and of the memory capacity of the cluster; the
    mask of action [k] is the outcome of that check, and the masks of the
    three spreading actions and of reject are always true. *)
Theorem whole_placement_feasible_iff_fits (s : Env) (k j : nat) :
  (k < num_clusters s)%nat ->
  (num_clusters s <= j < num_clusters s + NUM_SPREADING_ACTIONS + 1)%nat ->
  (check_if_cluster_is_full_after_full_deployment s k = false
     <-> whole_placement_fits s k)
  /\ (exists s', take_action k s = Some s'
        /\ (penalty s' = false <-> whole_placement_fits s k))
  /\ (nth k (action_masks s) true = false <-> ~ whole_placement_fits s k)
  /\ List.length (action_masks s) = (num_clusters s + NUM_SPREADING_ACTIONS + 1)%nat
  /\ nth j (action_masks s) false = true.
Proof.
  intros Hk Hj.
  split; [apply check_full_iff|].
  split.
  { destruct (take_action_whole k s Hk) as [s' [E P]].
    exists s'. split; [exact E|]. rewrite P. apply check_full_iff. }
  split.
  { rewrite action_masks_cluster by assumption.
    rewrite negb_false_iff, <- check_full_iff.
    destruct (check_if_cluster_is_full_after_full_deployment s k); split; congruence. }
  split; [apply action_masks_length | apply action_masks_strategy; assumption].
Qed.

(** ** Frame properties of the accepting branch of a split *)

Lemma commit_split_fold_frame (div : list Z) (l : list nat) (st : Env * (Q * Q * Q)) :
  let s' := fst (fold_left (commit_split_step div) l st) in
  penalty s' = penalty (fst st)
  /\ reward_function s' = reward_function (fst st)
  /\ deployment_request s' = deployment_request (fst st)
  /\ running_requests s' = running_requests (fst st).
Proof.
  revert st; induction l as [|d t IH]; intro st; [simpl; auto|].
  simpl fold_left. specialize (IH (commit_split_step div st d)).
  cbv zeta in *. destruct IH as (P & R & D & H).
  rewrite P, R, D, H. destruct st as [s [[a b] c]]. repeat split.
Qed.

Lemma place_split_frame (count : Env -> Env) (div : list Z) (s : Env) :
  (forall e, penalty (count e) = penalty e) ->
  (forall e, reward_function (count e) = reward_function e) ->
  penalty (place_split count div s) = false
  /\ reward_function (place_split count div s) = reward_function s.
Proof.
  intros CP CR. unfold place_split. cbv zeta.
  match goal with
  | |- context [fold_left (commit_split_step div) ?l ?st] =>
      pose proof (commit_split_fold_frame div l st) as F;
      destruct (fold_left (commit_split_step div) l st) as [e [[a b] c]]
  end.
  cbv zeta in F. destruct F as (P & R & _ & _).
  cbn [fst penalty reward_function set_deployment_request] in P, R.
  split.
  - change (penalty e = false). rewrite P, CP. reflexivity.
  - change (reward_function e = reward_function s). rewrite R, CR. reflexivity.
Qed.

Lemma split_factors_length (cpu_req mem_req : Q) (num : nat)
    (free_cpu free_mem split0 : list Q) :
  List.length (split_factors cpu_req mem_req num free_cpu free_mem split0)
  = List.length split0.
Proof.
  unfold split_factors. generalize (seq 0 num) as l. intro l. revert split0.
  induction l as [|x t IH]; intro split0; simpl; auto.
  rewrite IH. apply upd_length.
Qed.

(** The heuristic returns a distribution as soon as the scratch array is not
    empty: [min] is then taken over a non-empty sequence. *)
Lemma first_fit_decreasing_returns (num_replicas : Z) (cpu_req mem_req : Q) (num : nat)
    (free_cpu free_mem split0 : list Q) :
  split0 <> [] ->
  exists res, first_fit_decreasing_heuristic num_replicas cpu_req mem_req num
                free_cpu free_mem split0 = Some res.
Proof.
  intro H. unfold first_fit_decreasing_heuristic, ffd_min_factor. cbv zeta.
  pose proof (split_factors_length cpu_req mem_req num free_cpu free_mem split0) as L.
  destruct (split_factors cpu_req mem_req num free_cpu free_mem split0) as [|x t].
  - destruct split0; [congruence | discriminate L].
  - simpl. eexists. reflexivity.
Qed.

(** ** The naive reward *)

Lemma same_ledger_really_full (a b : Env) :
  same_ledger a b ->
  check_if_cluster_is_really_full a = check_if_cluster_is_really_full b.
Proof.
  intros (N & AC & AM & CC & MC & D).
  unfold check_if_cluster_is_really_full,
    check_if_cluster_is_full_after_full_deployment.
  rewrite N, AC, AM, CC, MC, D. reflexivity.
Qed.

(** Every action returns; an action that leaves the penalty flag set has not
    touched the ledger. *)
Lemma take_action_outcome (a : nat) (s : Env) :
  split_number_replicas s <> [] ->
  exists s1, take_action a s = Some s1
    /\ reward_function s1 = reward_function s
    /\ (penalty s1 = false \/ same_ledger s1 s).
Proof.
  intro NE. enter_take_action s s0.
  assert (L0 : same_ledger s0 s)
    by (entry_fact s0; repeat split).
  assert (R0 : reward_function s0 = reward_function s)
    by (entry_fact s0; reflexivity).
  assert (NE0 : split_number_replicas s0 <> [])
    by (entry_fact s0; exact NE).
  clearbody s0.
  assert (BLOCK : forall e, same_ledger e s0 -> reward_function e = reward_function s0 ->
            exists s1, Some (set_penalty true e) = Some s1
              /\ reward_function s1 = reward_function s
              /\ (penalty s1 = false \/ same_ledger s1 s)).
  { intros e (N & AC & AM & CC & MC & D) R. eexists. split; [reflexivity|].
    destruct L0 as (N' & AC' & AM' & CC' & MC' & D').
    split; [simpl; congruence|]. right. repeat split; simpl; congruence. }
  assert (ACCEPT : forall count div e,
            (forall x, penalty (count x) = penalty x) ->
            (forall x, reward_function (count x) = reward_function x) ->
            reward_function e = reward_function s0 ->
            exists s1, Some (place_split count div e) = Some s1
              /\ reward_function s1 = reward_function s
              /\ (penalty s1 = false \/ same_ledger s1 s)).
  { intros count div e CP CR R. eexists. split; [reflexivity|].
    destruct (place_split_frame count div e CP CR) as [P R'].
    split; [congruence | left; exact P]. }
  destruct (a <? num_clusters s0)%nat.
  { destruct (check_if_cluster_is_full_after_full_deployment s0 a).
    - apply BLOCK; [repeat split | reflexivity].
    - eexists. split; [reflexivity|]. split; [exact R0 | left; reflexivity]. }
  destruct (a =? num_clusters s0 + FFD)%nat.
  { destruct (num_replicas (deployment_request s0) =? 1)%Z.
    - apply BLOCK; [repeat split | reflexivity].
    - destruct (first_fit_decreasing_returns (num_replicas (deployment_request s0))
                  (cpu_request (deployment_request s0))
                  (memory_request (deployment_request s0)) (num_clusters s0)
                  (free_cpu s0) (free_memory s0) (split_number_replicas s0) NE0)
        as [res ->].
      simpl bind.
      destruct (check_if_clusters_are_full_after_split_deployment _ _).
      + apply BLOCK; [repeat split | reflexivity].
      + apply ACCEPT; reflexivity. }
  destruct (a =? num_clusters s0 + FFI)%nat.
  { destruct (num_replicas (deployment_request s0) =? 1)%Z.
    - apply BLOCK; [repeat split | reflexivity].
    - destruct (first_fit_decreasing_returns (num_replicas (deployment_request s0))
                  (cpu_request (deployment_request s0))
                  (memory_request (deployment_request s0)) (num_clusters s0)
                  (free_cpu s0) (free_memory s0) (split_number_replicas s0) NE0)
        as [res ->].
      simpl bind.
      destruct (check_if_clusters_are_full_after_split_deployment _ _).
      + apply BLOCK; [repeat split | reflexivity].
      + apply ACCEPT; reflexivity. }
  destruct (a =? num_clusters s0 + BF1B1)%nat.
  { destruct (num_replicas (deployment_request s0) =? 1)%Z.
    - apply BLOCK; [repeat split | reflexivity].
    - destruct (best_fit_heuristic_one_by_one _ _ _ _ _ _) as [[div fc] fm].
      destruct (check_if_clusters_are_full_after_split_deployment _ _).
      + apply BLOCK; [repeat split | reflexivity].
      + apply ACCEPT; reflexivity. }
  destruct (a =? num_clusters s0 + NUM_SPREADING_ACTIONS)%nat.
  { apply BLOCK; [repeat split | reflexivity]. }
  eexists. split; [reflexivity|]. split; [exact R0 | right; exact L0].
Qed.

Lemma really_full_iff (s : Env) :
  check_if_cluster_is_really_full s = true
  <-> forall k, (k < num_clusters s)%nat -> ~ whole_placement_fits s k.
Proof.
  unfold check_if_cluster_is_really_full. rewrite forallb_forall. split.
  - intros H k Hk F. apply check_full_iff in F.
    rewrite H in F by (apply in_seq; lia). discriminate.
  - intros H k Hk. apply in_seq in Hk.
    destruct (check_if_cluster_is_full_after_full_deployment s k) eqn:E; [reflexivity|].
    exfalso. apply (H k); [lia | apply check_full_iff; exact E].
Qed.

Lemma get_reward_naive (gini : list Q -> Q) (normalize : Q -> Q -> Q -> Q)
    (round2 : Q -> Q) (s : Env) :
  reward_function s = NAIVE ->
  get_reward gini normalize round2 s
  = Some (if penalty s
          then if check_if_cluster_is_really_full s then 1 else -1
          else 1).
Proof.
  intro H. unfold get_reward, penalty_reward. rewrite H. cbv zeta. simpl String.eqb.
  destruct (penalty s); [|reflexivity].
  destruct (check_if_cluster_is_really_full s); reflexivity.
Qed.

(** C7: under the naive objective every action yields a reward: [+1] when
    the action was admitted; when it was penalised, [+1] if every cluster
    fails the whole-placement check for the pending request, that is, if the
    request fits on no cluster, and [-1] otherwise.  It is the reward [step]
    returns. *)
Theorem naive_reward_of_step (catalog : list DeploymentRequest) (gini : list Q -> Q)
    (normalize : Q -> Q -> Q -> Q) (round2 : Q -> Q)
    (a : nat) (dr : RequestDraws) (s : Env) :
  reward_function s = NAIVE ->
  split_number_replicas s <> [] ->
  (check_if_cluster_is_really_full s = true
     <-> forall k, (k < num_clusters s)%nat -> ~ whole_placement_fits s k)
  /\ exists s1,
       take_action a (set_offered_requests (offered_requests s + 1)%Z s) = Some s1
       /\ get_reward gini normalize round2 s1 = Some (naive_reward_spec s s1)
       /\ (forall s2 reward,
             step catalog gini normalize round2 a dr s = Some (s2, reward) ->
             reward = naive_reward_spec s s1).
Proof.
  intros RF NE. split; [apply really_full_iff|].
  destruct (take_action_outcome a (set_offered_requests (offered_requests s + 1)%Z s) NE)
    as (s1 & TA & R1 & O).
  assert (G : get_reward gini normalize round2 s1 = Some (naive_reward_spec s s1)).
  { rewrite get_reward_naive by (rewrite R1; exact RF).
    unfold naive_reward_spec. destruct (penalty s1) eqn:P; [|reflexivity].
    destruct O as [O|O]; [congruence|].
    rewrite (same_ledger_really_full _ _ O). reflexivity. }
  exists s1. split; [exact TA|]. split; [exact G|].
  intros s2 reward. unfold step. cbv zeta. rewrite TA. simpl bind. rewrite G. simpl bind.
  destruct (next_request _ _ _) as [e|]; [simpl bind|discriminate].
  destruct (offered_requests e =? 0)%Z; [discriminate|]. simpl bind.
  destruct (current_step _ =? 0)%Z; [discriminate|]. simpl bind.
  destruct (_ =? _)%Z.
  - destruct (mean _); [simpl bind|discriminate].
    destruct (mean _); [simpl bind|discriminate].
    destruct (mean _); [simpl bind|discriminate].
    intro E; inversion E; reflexivity.
  - intro E; inversion E; reflexivity.
Qed.

(** ** The two first-fit actions *)

Lemma commit_split_step_ffd (div : list Z) (v : Z) (s : Env) (acc : Q * Q * Q) (d : nat) :
  commit_split_step div (set_deploy_ffd v s, acc) d
  = (set_deploy_ffd v (fst (commit_split_step div (s, acc) d)),
     snd (commit_split_step div (s, acc) d)).
Proof. destruct acc as [[a b] c]. reflexivity. Qed.

Lemma commit_split_step_ffi (div : list Z) (v : Z) (s : Env) (acc : Q * Q * Q) (d : nat) :
  commit_split_step div (set_deploy_ffi v s, acc) d
  = (set_deploy_ffi v (fst (commit_split_step div (s, acc) d)),
     snd (commit_split_step div (s, acc) d)).
Proof. destruct acc as [[a b] c]. reflexivity. Qed.

Lemma commit_split_fold_setter (set : Env -> Env) (div : list Z) :
  (forall s acc d,
      commit_split_step div (set s, acc) d
      = (set (fst (commit_split_step div (s, acc) d)),
         snd (commit_split_step div (s, acc) d))) ->
  forall l s acc,
    fold_left (commit_split_step div) l (set s, acc)
    = (set (fst (fold_left (commit_split_step div) l (s, acc))),
       snd (fold_left (commit_split_step div) l (s, acc))).
Proof.
  intros H l. induction l as [|d t IH]; intros s acc; [reflexivity|].
  cbn [fold_left]. rewrite H, IH, <- surjective_pairing. reflexivity.
Qed.

Lemma place_split_unfold (count : Env -> Env) (div : list Z) (s : Env) :
  place_split count div s
  = split_epilogue (fold_left (commit_split_step div) (seq 0 (List.length div))
                              (split_prologue count div s, (0, 0, 0))).
Proof. reflexivity. Qed.

Lemma place_split_count_ffd (div : list Z) (s : Env) :
  place_split count_ffd div s
  = set_deploy_ffd (deploy_ffd s + 1)%Z (place_split (fun e => e) div s).
Proof.
  rewrite !place_split_unfold.
  change (split_prologue count_ffd div s)
    with (set_deploy_ffd (deploy_ffd s + 1)%Z (split_prologue (fun e => e) div s)).
  rewrite (commit_split_fold_setter _ div (commit_split_step_ffd div _)).
  destruct (fold_left _ _ _) as [e [[a b] c]]. reflexivity.
Qed.

Lemma place_split_count_ffi (div : list Z) (s : Env) :
  place_split count_ffi div s
  = set_deploy_ffi (deploy_ffi s + 1)%Z (place_split (fun e => e) div s).
Proof.
  rewrite !place_split_unfold.
  change (split_prologue count_ffi div s)
    with (set_deploy_ffi (deploy_ffi s + 1)%Z (split_prologue (fun e => e) div s)).
  rewrite (commit_split_fold_setter _ div (commit_split_step_ffi div _)).
  destruct (fold_left _ _ _) as [e [[a b] c]]. reflexivity.
Qed.

Lemma commit_split_fold_counters (div : list Z) (l : list nat) (st : Env * (Q * Q * Q)) :
  deploy_ffd (fst (fold_left (commit_split_step div) l st)) = deploy_ffd (fst st)
  /\ deploy_ffi (fst (fold_left (commit_split_step div) l st)) = deploy_ffi (fst st).
Proof.
  revert st; induction l as [|d t IH]; intro st; [simpl; auto|].
  cbn [fold_left]. destruct (IH (commit_split_step div st d)) as [A B].
  rewrite A, B. destruct st as [s [[a b] c]]. split; reflexivity.
Qed.

Lemma place_split_counters (div : list Z) (s : Env) :
  deploy_ffd (place_split (fun e => e) div s) = deploy_ffd s
  /\ deploy_ffi (place_split (fun e => e) div s) = deploy_ffi s.
Proof.
  rewrite place_split_unfold.
  pose proof (commit_split_fold_counters div (seq 0 (List.length div))
                (split_prologue (fun e => e) div s, (0, 0, 0))) as F.
  destruct (fold_left _ _ _) as [e [[a b] c]]. exact F.
Qed.

(** C9: the FFD action and the FFI action run the same heuristic on the same
    arguments; from the same state they both raise or both return, and the
    two resulting states agree on everything but the usage counters
    [deploy_ffd] and [deploy_ffi], of which each action increments its own
    when the request is admitted. *)
Theorem ffd_and_ffi_actions_equivalent (s : Env) :
  match take_action (num_clusters s + FFD) s, take_action (num_clusters s + FFI) s with
  | Some a, Some b =>
      forget_first_fit_counters a = forget_first_fit_counters b
      /\ penalty a = penalty b
      /\ deployment_request a = deployment_request b
      /\ deploy_ffi a = deploy_ffi s
      /\ deploy_ffd b = deploy_ffd s
      /\ (deploy_ffd a - deploy_ffd s = deploy_ffi b - deploy_ffi s)%Z
      /\ (0 <= deploy_ffd a - deploy_ffd s <= 1)%Z
  | None, None => True
  | _, _ => False
  end.
Proof.
  enter_take_action s s0.
  assert (N : num_clusters s0 = num_clusters s)
    by (entry_fact s0; reflexivity).
  assert (D : deploy_ffd s0 = deploy_ffd s)
    by (entry_fact s0; reflexivity).
  assert (I : deploy_ffi s0 = deploy_ffi s)
    by (entry_fact s0; reflexivity).
  clearbody s0. rewrite <- N, <- D, <- I. clear N D I.
  unfold FFD, FFI.
  replace (num_clusters s0 + 0 <? num_clusters s0)%nat with false
    by (symmetry; apply Nat.ltb_ge; lia).
  replace (num_clusters s0 + 1 <? num_clusters s0)%nat with false
    by (symmetry; apply Nat.ltb_ge; lia).
  replace (num_clusters s0 + 1 =? num_clusters s0 + 0)%nat with false
    by (symmetry; apply Nat.eqb_neq; lia).
  rewrite !Nat.eqb_refl.
  destruct (num_replicas (deployment_request s0) =? 1)%Z.
  { cbv beta iota. cbn [deploy_ffd deploy_ffi set_penalty]. repeat split; lia. }
  destruct (first_fit_decreasing_heuristic _ _ _ _ _ _ _) as [res|]; [|exact Logic.I].
  cbn [bind].
  destruct (check_if_clusters_are_full_after_split_deployment _ _).
  { cbv beta iota. cbn [deploy_ffd deploy_ffi set_penalty set_split_number_replicas].
    repeat split; lia. }
  rewrite place_split_count_ffd, place_split_count_ffi.
  set (e := set_split_number_replicas (snd res) s0).
  destruct (place_split_counters (fst res) e) as [PD PI].
  cbv beta iota.
  cbn [deploy_ffd deploy_ffi set_deploy_ffd set_deploy_ffi penalty deployment_request].
  change (deploy_ffd e) with (deploy_ffd s0) in *.
  change (deploy_ffi e) with (deploy_ffi s0) in *.
  repeat split; try reflexivity; try assumption; lia.
Qed.

(** ** Bounds of the latency matrix *)

Lemma row_upd_same (i : nat) (r : list Q) (m : list (list Q)) :
  (i < List.length m)%nat -> row i (upd i r m) = r.
Proof. apply nth_upd_same. Qed.

Lemma row_upd_other (i k : nat) (r : list Q) (m : list (list Q)) :
  i <> k -> row k (upd i r m) = row k m.
Proof. apply nth_upd_other. Qed.

Lemma mset_length (i j : nat) (v : Q) (m : list (list Q)) :
  List.length (mset i j v m) = List.length m.
Proof. apply upd_length. Qed.

Lemma mset_row_length (i j k : nat) (v : Q) (m : list (list Q)) :
  (i < List.length m)%nat ->
  List.length (row k (mset i j v m)) = List.length (row k m).
Proof.
  intro H. unfold mset. destruct (Nat.eq_dec i k) as [->|N].
  - rewrite row_upd_same by assumption. apply upd_length.
  - rewrite row_upd_other by assumption. reflexivity.
Qed.

Lemma mget_mset_same (i j : nat) (v : Q) (m : list (list Q)) :
  (i < List.length m)%nat -> (j < List.length (row i m))%nat ->
  mget i j (mset i j v m) = v.
Proof.
  intros Hi Hj. unfold mget, mset. rewrite row_upd_same by assumption.
  apply get_upd_same. assumption.
Qed.

Lemma mget_mset_other (i j k l : nat) (v : Q) (m : list (list Q)) :
  (i < List.length m)%nat -> (i <> k \/ j <> l) ->
  mget k l (mset i j v m) = mget k l m.
Proof.
  intros Hi N. unfold mget, mset. destruct (Nat.eq_dec i k) as [->|Nk].
  - rewrite row_upd_same by assumption. apply get_upd_other.
    destruct N; congruence.
  - rewrite row_upd_other by assumption. reflexivity.
Qed.

Lemma clamp_delay_range (x : Q) : MIN_DELAY <= clamp_delay x /\ clamp_delay x <= MAX_DELAY.
Proof.
  unfold clamp_delay. split.
  - apply Q.le_max_r.
  - apply Q.max_lub; [apply Q.le_min_r | unfold MIN_DELAY, MAX_DELAY; discriminate].
Qed.

Lemma latency_pair_update_invariant (scale : Q -> Q) (num n n2 : nat)
    (m : list (list Q)) :
  (n < num)%nat -> (n2 < num)%nat ->
  latency_invariant num m ->
  latency_invariant num (latency_pair_update scale n m n2).
Proof.
  intros Hn Hn2 (L & R & D & B). unfold latency_pair_update.
  destruct (Nat.eqb_spec n n2) as [<-|N].
  - (* the diagonal entry *)
    assert (O : forall k l, (n <> k \/ n <> l) -> mget k l (mset n n 0 m) = mget k l m)
      by (intros k l NK; apply mget_mset_other; [lia | exact NK]).
    repeat split.
    + rewrite mset_length. exact L.
    + intros i Hi. rewrite mset_row_length by lia. apply R, Hi.
    + intros i Hi. destruct (Nat.eq_dec n i) as [<-|Ni].
      * rewrite mget_mset_same; [reflexivity | lia | rewrite R; lia].
      * rewrite O by lia. apply D, Hi.
    + rewrite O by lia. apply (B i j); assumption.
    + rewrite O by lia. apply (B i j); assumption.
  - cbv zeta.
    set (m1 := mset n n2 (clamp_delay (scale (mget n n2 m))) m).
    set (m2 := if Qeq_bool (mget n n2 m1) 0 then mset n n2 1 m1 else m1).
    assert (L1 : List.length m1 = num) by (subst m1; rewrite mset_length; exact L).
    assert (R1 : forall i, (i < num)%nat -> List.length (row i m1) = num)
      by (intros i Hi; subst m1; rewrite mset_row_length by lia; apply R, Hi).
    assert (L2 : List.length m2 = num)
      by (subst m2; destruct (Qeq_bool _ 0); [rewrite mset_length|]; exact L1).
    assert (R2 : forall i, (i < num)%nat -> List.length (row i m2) = num).
    { intros i Hi. subst m2. destruct (Qeq_bool _ 0); [|apply R1, Hi].
      rewrite mset_row_length by lia. apply R1, Hi. }
    assert (V2 : MIN_DELAY <= mget n n2 m2 /\ mget n n2 m2 <= MAX_DELAY).
    { subst m2. destruct (Qeq_bool (mget n n2 m1) 0).
      - rewrite mget_mset_same; [|lia|rewrite R1; lia].
        unfold MIN_DELAY, MAX_DELAY. split; discriminate.
      - subst m1. rewrite mget_mset_same; [|lia|rewrite R; lia].
        apply clamp_delay_range. }
    assert (O2 : forall k l, (n <> k \/ n2 <> l) -> mget k l m2 = mget k l m).
    { intros k l NK. subst m2. destruct (Qeq_bool _ 0).
      - rewrite mget_mset_other; [|lia|exact NK].
        subst m1. apply mget_mset_other; [lia | exact NK].
      - subst m1. apply mget_mset_other; [lia | exact NK]. }
    assert (S2 : mget n2 n (mset n2 n (mget n n2 m2) m2) = mget n n2 m2)
      by (apply mget_mset_same; [lia | rewrite R2; lia]).
    assert (O3 : forall k l, (n2 <> k \/ n <> l) ->
              mget k l (mset n2 n (mget n n2 m2) m2) = mget k l m2)
      by (intros k l NK; apply mget_mset_other; [lia | exact NK]).
    assert (E : forall i j, (i < num)%nat -> (j < num)%nat -> i <> j ->
              MIN_DELAY <= mget i j (mset n2 n (mget n n2 m2) m2)
              /\ mget i j (mset n2 n (mget n n2 m2) m2) <= MAX_DELAY).
    { intros i j Hi Hj Nij.
      destruct (Nat.eq_dec n2 i) as [<-|Ni]; [destruct (Nat.eq_dec n j) as [<-|Nj]|].
      - rewrite S2. exact V2.
      - rewrite O3 by lia. rewrite O2 by lia. apply (B n2 j); assumption.
      - rewrite O3 by lia.
        destruct (Nat.eq_dec n i) as [<-|Ni']; [destruct (Nat.eq_dec n2 j) as [<-|Nj]|].
        + exact V2.
        + rewrite O2 by lia. apply (B n j); assumption.
        + rewrite O2 by lia. apply (B i j); assumption. }
    repeat split.
    + rewrite mset_length. exact L2.
    + intros i Hi. rewrite mset_row_length by lia. apply R2, Hi.
    + intros i Hi. rewrite O3 by lia. rewrite O2 by lia. apply D, Hi.
    + apply E; assumption.
    + apply E; assumption.
Qed.

(** [increase_latency] and [decrease_latency] keep the bounds. *)
Lemma update_latency_invariant (scale : Q -> Q) (n : nat) (s : Env) :
  (n < num_clusters s)%nat ->
  latency_invariant (num_clusters s) (latency_matrix s) ->
  latency_invariant (num_clusters s) (latency_matrix (update_latency scale n s)).
Proof.
  intros Hn I. unfold update_latency. cbv zeta.
  cbn [latency_matrix set_latency set_latency_matrix].
  apply (fold_invariant (latency_invariant (num_clusters s))
           (latency_pair_update scale n) (num_clusters s)).
  - intros m n2 Hn2 Im. apply latency_pair_update_invariant; assumption.
  - apply seq_below.
  - exact I.
Qed.

Lemma nth_map_seq {A : Type} (f : nat -> A) (num i : nat) (d : A) :
  (i < num)%nat -> nth i (map f (seq 0 num)) d = f i.
Proof.
  intro H. rewrite (nth_indep _ d (f 0%nat)) by (rewrite length_map, length_seq; exact H).
  rewrite (map_nth f (seq 0 num) 0%nat i), seq_nth by exact H. reflexivity.
Qed.

(** [__init__] and [reset] establish the bounds. *)
Lemma draw_latency_matrix_invariant (num : nat) (u : nat -> nat -> Z) :
  latency_invariant num (draw_latency_matrix num u).
Proof.
  unfold draw_latency_matrix. repeat split.
  - rewrite length_map, length_seq. reflexivity.
  - intros i Hi. unfold row. rewrite nth_map_seq by exact Hi.
    rewrite length_map, length_seq. reflexivity.
  - intros i Hi. unfold mget, row, get. rewrite nth_map_seq by exact Hi.
    rewrite nth_map_seq by exact Hi. rewrite Nat.eqb_refl. reflexivity.
  - unfold mget, row, get. rewrite nth_map_seq by assumption.
    rewrite nth_map_seq by assumption.
    replace (i =? j)%nat with false by (symmetry; apply Nat.eqb_neq; assumption).
    unfold MIN_DELAY, integers_in. change 1 with (inject_Z 1). rewrite <- Zle_Qle.
    pose proof (Z.mod_pos_bound (u i j) (1000 - 1)). lia.
  - unfold mget, row, get. rewrite nth_map_seq by assumption.
    rewrite nth_map_seq by assumption.
    replace (i =? j)%nat with false by (symmetry; apply Nat.eqb_neq; assumption).
    unfold MAX_DELAY, integers_in. change 1000 with (inject_Z 1000). rewrite <- Zle_Qle.
    pose proof (Z.mod_pos_bound (u i j) (1000 - 1)). lia.
Qed.

(** ** Blocked actions *)

(** Every action but the best-fit split leaves the fleet state as it was
    when it ends with the penalty flag set: a blocked whole placement, a
    blocked first-fit split and a reject change nothing but the flag, the
    step counter and the scratch array of the first-fit heuristic. *)
Lemma penalised_action_keeps_fleet (a : nat) (s : Env) :
  a <> (num_clusters s + BF1B1)%nat ->
  split_number_replicas s <> [] ->
  exists s1, take_action a s = Some s1
    /\ (penalty s1 = true -> same_fleet s1 s).
Proof.
  intros NB NE. enter_take_action s s0.
  assert (F0 : same_fleet s0 s)
    by (entry_fact s0; repeat split).
  assert (N0 : num_clusters s0 = num_clusters s)
    by (entry_fact s0; reflexivity).
  assert (NE0 : split_number_replicas s0 <> [])
    by (entry_fact s0; exact NE).
  clearbody s0. rewrite <- N0 in NB.
  assert (BLOCK : forall e, same_fleet e s0 ->
            exists s1, Some (set_penalty true e) = Some s1
              /\ (penalty s1 = true -> same_fleet s1 s)).
  { intros e ((N & AC & AM & CC & MC & D) & FC & FM & LM & L & RR).
    eexists. split; [reflexivity|]. intros _.
    destruct F0 as ((N' & AC' & AM' & CC' & MC' & D') & FC' & FM' & LM' & L' & RR').
    repeat split; simpl; congruence. }
  assert (ACCEPT : forall count div e,
            (forall x, penalty (count x) = penalty x) ->
            (forall x, reward_function (count x) = reward_function x) ->
            exists s1, Some (place_split count div e) = Some s1
              /\ (penalty s1 = true -> same_fleet s1 s)).
  { intros count div e CP CR. eexists. split; [reflexivity|].
    destruct (place_split_frame count div e CP CR) as [P _]. congruence. }
  destruct (a <? num_clusters s0)%nat.
  { destruct (check_if_cluster_is_full_after_full_deployment s0 a).
    - apply BLOCK; repeat split.
    - eexists. split; [reflexivity|]. rewrite place_all_penalty. discriminate. }
  destruct (a =? num_clusters s0 + FFD)%nat.
  { destruct (num_replicas (deployment_request s0) =? 1)%Z.
    - apply BLOCK; repeat split.
    - destruct (first_fit_decreasing_returns (num_replicas (deployment_request s0))
                  (cpu_request (deployment_request s0))
                  (memory_request (deployment_request s0)) (num_clusters s0)
                  (free_cpu s0) (free_memory s0) (split_number_replicas s0) NE0)
        as [res ->].
      simpl bind.
      destruct (check_if_clusters_are_full_after_split_deployment _ _).
      + apply BLOCK; repeat split.
      + apply ACCEPT; reflexivity. }
  destruct (a =? num_clusters s0 + FFI)%nat.
  { destruct (num_replicas (deployment_request s0) =? 1)%Z.
    - apply BLOCK; repeat split.
    - destruct (first_fit_decreasing_returns (num_replicas (deployment_request s0))
                  (cpu_request (deployment_request s0))
                  (memory_request (deployment_request s0)) (num_clusters s0)
                  (free_cpu s0) (free_memory s0) (split_number_replicas s0) NE0)
        as [res ->].
      simpl bind.
      destruct (check_if_clusters_are_full_after_split_deployment _ _).
      + apply BLOCK; repeat split.
      + apply ACCEPT; reflexivity. }
  destruct (a =? num_clusters s0 + BF1B1)%nat eqn:E.
  { apply Nat.eqb_eq in E. contradiction. }
  destruct (a =? num_clusters s0 + NUM_SPREADING_ACTIONS)%nat.
  { apply BLOCK; repeat split. }
  eexists. split; [reflexivity|]. intros _. exact F0.
Qed.

(** ** Draining the timeline *)

Lemma release_split_fold_timeline (l : list nat) (acc : option Env) (s' : Env) :
  fold_left release_split_step l acc = Some s' ->
  exists s, acc = Some s /\ running_requests s' = running_requests s.
Proof.
  revert acc. induction l as [|d t IH]; intros acc H.
  - simpl in H. exists s'. split; [exact H | reflexivity].
  - cbn [fold_left] in H. destruct (IH _ H) as (s1 & E & R).
    destruct acc as [s|]; [|discriminate E].
    exists s. split; [reflexivity|]. rewrite R.
    unfold release_split_step in E. cbn [bind] in E.
    destruct (split_clusters (deployment_request s)) as [split|]; [|discriminate E].
    cbn [bind] in E. cbv zeta in E.
    destruct (Qeq_bool _ 0); inversion E; reflexivity.
Qed.

Lemma dequeue_request_pops (s s' : Env) :
  dequeue_request s = Some s' ->
  exists entry, running_requests s = entry :: running_requests s'.
Proof.
  unfold dequeue_request.
  destruct (running_requests s) as [|[t popped] rest] eqn:E; [discriminate|].
  destruct (is_deployment_split popped).
  - intro H. apply release_split_fold_timeline in H.
    destruct H as (s1 & E1 & R). inversion E1; subst.
    exists (t, popped). rewrite R. reflexivity.
  - destruct (deployed_cluster popped) as [n|]; [|discriminate].
    cbn [bind]. cbv zeta. intro H. inversion H.
    exists (t, popped). reflexivity.
Qed.

(** With the length of the heap as fuel the loop runs to its end: when it
    returns, the heap is empty or its earliest departure is not due. *)
Lemma drain_settles (fuel : nat) (arrival_time : Q) (s s' : Env) :
  (List.length (running_requests s) <= fuel)%nat ->
  drain fuel arrival_time s = Some s' ->
  match running_requests s' with
  | [] => True
  | (next_departure_time, _) :: _ => ~ next_departure_time < arrival_time
  end.
Proof.
  revert s. induction fuel as [|fuel IH]; intros s L H.
  - simpl in H. inversion H; subst.
    destruct (running_requests s'); [exact I | simpl in L; lia].
  - simpl in H. destruct (running_requests s) as [|[t r] rest] eqn:E.
    + inversion H; subst. rewrite E. exact I.
    + destruct (Qlt_bool t arrival_time) eqn:T.
      * destruct (dequeue_request s) as [s1|] eqn:D; [|discriminate H].
        cbn [bind] in H. apply (IH s1); [|exact H].
        destruct (dequeue_request_pops s s1 D) as (entry & P).
        rewrite E in P. inversion P; subst. simpl in L. lia.
      * inversion H; subst. rewrite E.
        intro C. apply Qlt_bool_iff in C. congruence.
Qed.

(** ** Running the environment on the two-cluster fleet *)

(** C1: request A (one replica of 0.5 CPU) is admitted on cluster 0, whose
    allocation goes from 0.125 to 0.625.  It departs while request B (three
    replicas of 0.5 CPU, rejected) is the pending request:
    [dequeue_request] pops A but releases the amounts of
    [self.deployment_request], so 1.5 CPU is released and the allocation of
    cluster 0 ends at -0.875 instead of 0.125.  Likewise for splits: A (two
    replicas, split [1, 1]) departs while B (three replicas, split [1, 2])
    is pending and running; the distribution of B is released, and cluster 1
    ends at 0.625 although B still holds 1.0 there on top of the initial
    0.125. *)
Theorem departure_releases_amounts_of_pending_request :
  match Fleet.started, Fleet.a_placed, Fleet.a_departed with
  | Some s0, Some (s1, _), Some (s2, _) =>
      get 0 (allocated_cpu s0) == 1 # 8
      /\ get 0 (allocated_cpu s1) == (1 # 8) + 1 * (1 # 2)
      /\ map fst (running_requests s1) = [10]
      /\ num_replicas (deployment_request s1) = 3%Z
      /\ running_requests s2 = []
      /\ get 0 (allocated_cpu s2) == (1 # 8) + 1 * (1 # 2) - 3 * (1 # 2)
      /\ get 0 (allocated_cpu s2) < get 0 (allocated_cpu s0)
      /\ get 0 (allocated_memory s2) < get 0 (allocated_memory s0)
      /\ get 1 (allocated_cpu s2) == get 1 (allocated_cpu s0)
  | _, _, _ => False
  end
  /\ match Fleet.started_a2, Fleet.a_split, Fleet.a_split_departed with
     | Some s0, Some (s1, _), Some (s2, _) =>
         get 1 (allocated_cpu s0) == 1 # 8
         /\ map (fun e => split_clusters (snd e)) (running_requests s1)
            = [Some [1; 1]%Z]
         /\ get 1 (allocated_cpu s1) == (1 # 8) + 1 * (1 # 2)
         /\ map (fun e => split_clusters (snd e)) (running_requests s2)
            = [Some [1; 2]%Z]
         /\ get 1 (allocated_cpu s2) == (1 # 8) + 1 * (1 # 2)
         /\ get 1 (allocated_cpu s2) < (1 # 8) + 2 * (1 # 2)
     | _, _, _ => False
     end.
Proof. split; vm_compute; repeat split. Qed.

(** C2: in the same run the step that drains the departure of A leaves
    cluster 0 with a negative CPU and memory allocation. *)
Theorem allocation_negative_after_departure :
  match Fleet.a_placed, Fleet.a_departed with
  | Some (s1, _), Some (s2, _) =>
      (0 <= get 0 (allocated_cpu s1) /\ get 0 (allocated_cpu s1) <= get 0 (cpu_capacity s1))
      /\ get 0 (allocated_cpu s2) < 0
      /\ get 0 (allocated_memory s2) < 0
      /\ get 0 (cpu_capacity s2) < get 0 (free_cpu s2)
  | _, _ => False
  end.
Proof. vm_compute. repeat split; discriminate. Qed.

(** C3: request C (three replicas of 0.625 CPU) is handed to the best-fit
    split.  The heuristic packs the three replicas on cluster 0, the
    validation refuses the distribution (2.0 of 2 CPU), and the action is
    penalised with the allocation untouched; but the heuristic has written
    its reservations into [free_cpu] and [free_memory], which no longer equal
    capacity minus allocation. *)
Theorem blocked_best_fit_split_changes_free_resources :
  match Fleet.started_c, Fleet.c_split with
  | Some s, Some s' =>
      penalty s' = true
      /\ running_requests s' = running_requests s
      /\ allocated_cpu s' = allocated_cpu s
      /\ allocated_memory s' = allocated_memory s
      /\ get 0 (free_cpu s) == get 0 (cpu_capacity s) - get 0 (allocated_cpu s)
      /\ get 0 (free_cpu s') == 0
      /\ get 0 (free_cpu s') < get 0 (cpu_capacity s') - get 0 (allocated_cpu s')
      /\ get 0 (free_memory s') < get 0 (memory_capacity s') - get 0 (allocated_memory s')
  | _, _ => False
  end.
Proof. vm_compute. repeat split. Qed.

(** C4: right after [__init__], and again right after [reset], the latency
    from cluster 0 to cluster 1 is 5 and the latency from 1 to 0 is 7: the two
    entries are drawn independently.  The diagonal is 0. *)
Theorem latency_matrix_asymmetric_after_init :
  match Fleet.started, Fleet.a_placed_then_reset with
  | Some s0, Some s1 =>
      mget 0 1 (latency_matrix s0) == 5 /\ mget 1 0 (latency_matrix s0) == 7
      /\ mget 0 1 (latency_matrix s1) == 5 /\ mget 1 0 (latency_matrix s1) == 7
      /\ mget 0 0 (latency_matrix s0) == 0 /\ mget 1 1 (latency_matrix s0) == 0
  | _, _ => False
  end.
Proof. vm_compute. repeat split. Qed.

(** ** [reset] *)

(** C10: [reset] keeps the timeline, the clock and the pending request.  In
    the run on the two-cluster fleet request A is still enqueued after the
    reset, and the step that drains it takes the freshly drawn allocation of
    cluster 0 from 0.125 to below zero. *)
Theorem reset_keeps_timeline_and_clock :
  (forall (fd : FleetDraws) (s : Env),
      running_requests (reset fd s) = running_requests s
      /\ current_time (reset fd s) = current_time s
      /\ deployment_request (reset fd s) = deployment_request s)
  /\ match Fleet.a_placed_then_reset, Fleet.a_departed_after_reset with
     | Some s, Some (s', _) =>
         map fst (running_requests s) = [10]
         /\ get 0 (allocated_cpu s) == 1 # 8
         /\ running_requests s' = []
         /\ get 0 (allocated_cpu s') < 0
     | _, _ => False
     end.
Proof.
  split.
  - intros fd s. repeat split.
  - vm_compute. repeat split.
Qed.

(** ** The request generator *)

Lemma integers_range (low high u k : Z) :
  integers low high u = Some k -> (low <= k < high)%Z.
Proof.
  unfold integers, integers_in. destruct (low <? high)%Z eqn:E; [|discriminate].
  apply Z.ltb_lt in E. intro H; inversion H; subst.
  pose proof (Z.mod_pos_bound u (high - low)). lia.
Qed.

Lemma integers_reaches (low high k : Z) :
  (low <= k < high)%Z -> integers low high (k - low) = Some k.
Proof.
  intro H. unfold integers, integers_in.
  replace (low <? high)%Z with true by (symmetry; apply Z.ltb_lt; lia).
  rewrite Z.mod_small by lia. f_equal; lia.
Qed.

(** The generator returns a request for every draw; its replica count is the
    common bound when the two bounds are equal, and otherwise lies in the
    half-open range from [min_replicas] up to, and excluding, [max_replicas]. *)
Lemma deployment_generator_returns (catalog : list DeploymentRequest)
    (dr : RequestDraws) (s : Env) :
  catalog <> [] ->
  (min_replicas s <= max_replicas s)%Z ->
  exists d, deployment_generator catalog dr s = Some d
    /\ (min_replicas s = max_replicas s -> num_replicas d = max_replicas s)
    /\ (min_replicas s < max_replicas s ->
        min_replicas s <= num_replicas d < max_replicas s)%Z.
Proof.
  intros NE LE. unfold deployment_generator. cbv zeta.
  assert (L : (0 < Z.of_nat (List.length catalog))%Z).
  { destruct catalog; [congruence | simpl List.length; lia]. }
  unfold integers at 1.
  replace (0 <? Z.of_nat (List.length catalog))%Z with true
    by (symmetry; apply Z.ltb_lt; exact L).
  cbn [bind].
  set (n := integers_in 0 (Z.of_nat (List.length catalog)) (u_template dr)).
  assert (B : (0 <= n < Z.of_nat (List.length catalog))%Z).
  { subst n. unfold integers_in. pose proof (Z.mod_pos_bound (u_template dr)
                           (Z.of_nat (List.length catalog) - 0)). lia. }
  set (idx := if (n =? 0)%Z then (List.length catalog - 1)%nat else Z.to_nat (n - 1)).
  assert (I : (idx < List.length catalog)%nat).
  { subst idx. destruct (n =? 0)%Z eqn:E; [lia|]. apply Z.eqb_neq in E. lia. }
  destruct (nth_error catalog idx) as [d|] eqn:E.
  2: { apply nth_error_None in E. lia. }
  cbn [bind].
  destruct (min_replicas s =? max_replicas s)%Z eqn:M.
  - apply Z.eqb_eq in M. eexists. split; [reflexivity|].
    cbn [num_replicas with_num_replicas]. split; intros; lia.
  - apply Z.eqb_neq in M.
    destruct (integers (min_replicas s) (max_replicas s) (u_replicas dr)) as [k|] eqn:K.
    + apply integers_range in K. cbn [bind]. eexists. split; [reflexivity|].
      cbn [num_replicas with_num_replicas]. split; intros; lia.
    + unfold integers in K.
      replace (min_replicas s <? max_replicas s)%Z with true in K
        by (symmetry; apply Z.ltb_lt; lia).
      discriminate.
Qed.

(** C8: with the default bounds, [min_replicas = 1] and [max_replicas = 8],
    every draw yields a request of one to seven replicas: the replica count
    is taken from a range that excludes [max_replicas], so eight replicas are
    never generated. *)
Theorem max_replicas_is_never_generated (dr : RequestDraws) :
  match Fleet.started with
  | Some s =>
      min_replicas s = 1%Z /\ max_replicas s = 8%Z
      /\ match deployment_generator Fleet.catalogue dr s with
         | Some d => (1 <= num_replicas d <= 7)%Z
         | None => False
         end
  | None => False
  end.
Proof.
  destruct Fleet.started as [s|] eqn:E; [|vm_compute in E; discriminate].
  assert (M : min_replicas s = 1%Z /\ max_replicas s = 8%Z).
  { vm_compute in E. inversion E. split; reflexivity. }
  destruct M as [M1 M8]. split; [exact M1|]. split; [exact M8|].
  destruct (deployment_generator_returns Fleet.catalogue dr s) as (d & G & _ & R).
  - discriminate.
  - lia.
  - rewrite G. lia.
Qed.

(** ** Split conservation *)

Lemma Zsum_from (l : list Z) (a : Z) : fold_left Z.add l a = (a + Zsum l)%Z.
Proof.
  unfold Zsum. revert a; induction l as [|x t IH]; intro a; simpl; [lia|].
  rewrite IH, (IH x). lia.
Qed.

Lemma Zsum_cons (x : Z) (l : list Z) : Zsum (x :: l) = (x + Zsum l)%Z.
Proof. unfold Zsum at 1. simpl. rewrite Zsum_from. lia. Qed.

Lemma Zsum_repeat_zero (num : nat) : Zsum (repeat 0%Z num) = 0%Z.
Proof. induction num as [|n IH]; [reflexivity|]. simpl repeat. rewrite Zsum_cons, IH. lia. Qed.

Lemma Zsum_upd (n : nat) (k : Z) (l : list Z) :
  (n < List.length l)%nat -> Zsum (upd n (geti n l + k)%Z l) = (Zsum l + k)%Z.
Proof.
  revert n; induction l as [|x t IH]; intros [|n] H; simpl in H; try lia.
  - simpl upd. unfold geti. simpl nth. rewrite !Zsum_cons. lia.
  - simpl upd. rewrite !Zsum_cons. unfold geti in *. simpl nth. rewrite IH by lia. lia.
Qed.

(** *** The first-fit split *)

Section FirstFit.

Variables (cpu_req mem_req : Q) (free_cpu free_mem : list Q) (num : nat) (total : Z).

Lemma ffd_ranked_step_invariant (min_factor : Z) (st : list Z * Z) (n : nat) :
  (n < num)%nat -> ffd_invariant num total st ->
  ffd_invariant num total
    (ffd_ranked_step cpu_req mem_req min_factor free_cpu free_mem st n).
Proof.
  intros Hn (L & P & S). destruct st as [d r]. cbn [fst snd] in *.
  unfold ffd_ranked_step. cbv zeta.
  destruct (r =? 0)%Z; [repeat split; assumption|].
  destruct ((0 <? r)%Z && (min_factor <? r)%Z && _) eqn:E1.
  - apply andb_prop in E1. destruct E1 as [E1 _].
    apply andb_prop in E1. destruct E1 as [_ E1]. apply Z.ltb_lt in E1.
    unfold ffd_invariant. cbn [fst snd].
    rewrite upd_length, Zsum_upd by lia. repeat split; lia.
  - clear E1.
    destruct ((0 <? r)%Z && (Qlt_bool cpu_req (get n free_cpu)
                             && Qlt_bool mem_req (get n free_mem))) eqn:E2;
      [|repeat split; assumption].
    apply andb_prop in E2. destruct E2 as [E2 _]. apply Z.ltb_lt in E2.
    unfold ffd_invariant. cbn [fst snd].
    rewrite upd_length, Zsum_upd by lia. repeat split; lia.
Qed.

Lemma ffd_remaining_step_invariant (st : list Z * Z) (n : nat) :
  (n < num)%nat -> ffd_invariant num total st ->
  ffd_invariant num total (ffd_remaining_step cpu_req mem_req free_cpu free_mem st n).
Proof.
  intros Hn (L & P & S). destruct st as [d r]. cbn [fst snd] in *.
  unfold ffd_remaining_step.
  destruct (r =? 0)%Z eqn:Z0; [repeat split; assumption|].
  apply Z.eqb_neq in Z0.
  destruct (_ && _); [|repeat split; assumption].
  unfold ffd_invariant. cbn [fst snd].
  rewrite upd_length, Zsum_upd by lia. repeat split; lia.
Qed.

(** Whatever the ranking of the clusters, the two passes never place more
    replicas than requested. *)
Lemma ffd_distribute_sum (order : list nat) (min_factor : Z) :
  Forall (fun n => (n < num)%nat) order -> (0 <= total)%Z ->
  let d := ffd_distribute order total cpu_req mem_req num free_cpu free_mem
             min_factor in
  List.length d = num /\ (Zsum d <= total)%Z.
Proof.
  intros F P. unfold ffd_distribute. cbv zeta.
  assert (I0 : ffd_invariant num total (repeat 0%Z num, total)).
  { unfold ffd_invariant. cbn [fst snd].
    rewrite repeat_length, Zsum_repeat_zero. repeat split; lia. }
  pose proof (fold_invariant (ffd_invariant num total)
                (ffd_ranked_step cpu_req mem_req min_factor free_cpu free_mem)
                num order _ (ffd_ranked_step_invariant min_factor) F I0) as I1.
  destruct (fold_left _ order _) as [d r].
  destruct (r =? 0)%Z.
  - destruct I1 as (L & R & S). cbn [fst snd] in *. split; [exact L | lia].
  - pose proof (fold_invariant (ffd_invariant num total)
                  (ffd_remaining_step cpu_req mem_req free_cpu free_mem)
                  num (seq 0 num) _ ffd_remaining_step_invariant
                  (seq_below num) I1) as (L & R & S).
    split; [exact L | lia].
Qed.

End FirstFit.

Lemma insert_desc_In (key : nat -> Q) (x y : nat) (l : list nat) :
  In y (insert_desc key x l) <-> y = x \/ In y l.
Proof.
  induction l as [|z t IH]; simpl.
  - split; intros [H|H]; auto; contradiction.
  - destruct (Qle_bool (key z) (key x)); simpl; [intuition auto|].
    rewrite IH. intuition auto.
Qed.

Lemma sort_dict_by_value_In (key : nat -> Q) (y : nat) (l : list nat) :
  In y (sort_dict_by_value key l) <-> In y l.
Proof.
  induction l as [|x t IH]; simpl; [reflexivity|].
  rewrite insert_desc_In, IH. intuition auto.
Qed.

Lemma first_fit_decreasing_sum (num_replicas : Z) (cpu_req mem_req : Q) (num : nat)
    (free_cpu free_mem split0 : list Q) :
  (0 <= num_replicas)%Z -> split0 <> [] ->
  exists dist factors,
    first_fit_decreasing_heuristic num_replicas cpu_req mem_req num
      free_cpu free_mem split0 = Some (dist, factors)
    /\ List.length dist = num /\ (Zsum dist <= num_replicas)%Z.
Proof.
  intros P NE.
  destruct (first_fit_decreasing_returns num_replicas cpu_req mem_req num
              free_cpu free_mem split0 NE) as [[dist factors] E].
  exists dist, factors. split; [exact E|].
  unfold first_fit_decreasing_heuristic in E. cbv zeta in E.
  destruct (ffd_min_factor _ _) as [mf|]; [|discriminate].
  cbn [bind] in E. inversion E; subst. apply ffd_distribute_sum; [|exact P].
  apply Forall_forall. intros n H. apply sort_dict_by_value_In, in_seq in H. lia.
Qed.


Lemma insert_by_In (key : nat -> Q) (x y : nat) (l : list nat) :
  In y (insert_by key x l) <-> y = x \/ In y l.
Proof.
  induction l as [|z t IH]; simpl.
  - split; intros [H|H]; auto; contradiction.
  - destruct (Qle_bool (key x) (key z)); simpl; [intuition auto|].
    rewrite IH. intuition auto.
Qed.

Lemma sorted_by_In (key : nat -> Q) (y : nat) (l : list nat) :
  In y (sorted_by key l) <-> In y l.
Proof.
  induction l as [|x t IH]; simpl; [reflexivity|].
  rewrite insert_by_In, IH. intuition auto.
Qed.

(** *** The best-fit split *)

Section BestFit.

Variables (cpu_req mem_req : Q) (num : nat).

Lemma best_fit_step_cases (free_cpu free_mem : list Q)
    (st : option nat * option Q) (c : nat) :
  scan_state_ok st ->
  let st' := best_fit_step cpu_req mem_req free_cpu free_mem st c in
  scan_state_ok st'
  /\ (scan_found st -> scan_found st')
  /\ (fits_one cpu_req mem_req free_cpu free_mem c = true -> scan_found st')
  /\ (forall b, fst st' = Some b ->
        fst st = Some b
        \/ (b = c /\ fits_one cpu_req mem_req free_cpu free_mem c = true)).
Proof.
  intros OK. unfold best_fit_step, fits_one. cbv zeta.
  destruct (Qle_bool cpu_req (get c free_cpu) && Qle_bool mem_req (get c free_mem)).
  - destruct OK as [->|(b0 & sp0 & ->)]; cbn [snd fst].
    + repeat split.
      * right. eexists _, _. reflexivity.
      * intros _. eexists _, _. reflexivity.
      * intros _. eexists _, _. reflexivity.
      * intros b H. inversion H. right. split; reflexivity.
    + destruct (Qlt_bool _ sp0); cbn [fst snd]; repeat split;
        try (right; eexists _, _; reflexivity);
        try (intros _; eexists _, _; reflexivity).
      * intros b H. inversion H. right. split; reflexivity.
      * intros b H. left. exact H.
  - repeat split; auto. intro H; discriminate H.
Qed.

Lemma best_fit_fold_cases (free_cpu free_mem : list Q)
    (order : list nat) (st : option nat * option Q) :
  scan_state_ok st ->
  let st' := fold_left (best_fit_step cpu_req mem_req free_cpu free_mem) order st in
  scan_state_ok st'
  /\ (scan_found st -> scan_found st')
  /\ ((exists c, In c order /\ fits_one cpu_req mem_req free_cpu free_mem c = true) ->
      scan_found st')
  /\ (forall b, fst st' = Some b ->
        fst st = Some b
        \/ (In b order /\ fits_one cpu_req mem_req free_cpu free_mem b = true)).
Proof.
  revert st. induction order as [|c t IH]; intros st OK; cbv zeta.
  - simpl. repeat split; auto. intros (c & [] & _).
  - cbn [fold_left].
    destruct (best_fit_step_cases free_cpu free_mem st c OK) as (OK1 & F1 & N1 & B1).
    destruct (IH _ OK1) as (OK2 & F2 & N2 & B2). cbv zeta in *.
    repeat split.
    + exact OK2.
    + intro F. apply F2, F1, F.
    + intros (x & [<-|Hin] & Hx).
      * apply F2, N1, Hx.
      * apply N2. exists x. split; assumption.
    + intros b Hb. destruct (B2 b Hb) as [H|[Hin Hf]].
      * destruct (B1 b H) as [H1|[-> Hf]]; [left; exact H1|].
        right. split; [left; reflexivity | exact Hf].
      * right. split; [right; exact Hin | exact Hf].
Qed.

(** The bin the scan returns is a cluster with room for one replica. *)
Lemma best_fit_bin_sound (free_cpu free_mem : list Q) (b : nat) :
  best_fit_bin cpu_req mem_req num free_cpu free_mem = Some b ->
  (b < num)%nat /\ fits_one cpu_req mem_req free_cpu free_mem b = true.
Proof.
  unfold best_fit_bin. cbv zeta. intro H.
  destruct (best_fit_fold_cases free_cpu free_mem
              (sorted_by (fun x => get x free_cpu) (seq 0 num)) (None, None))
    as (_ & _ & _ & B); [left; reflexivity|].
  destruct (B b H) as [D|[Hin Hf]]; [discriminate D|].
  apply sorted_by_In, in_seq in Hin. split; [lia | exact Hf].
Qed.

(** The scan returns a bin as soon as one cluster has room. *)
Lemma best_fit_bin_complete (free_cpu free_mem : list Q) (c : nat) :
  (c < num)%nat -> fits_one cpu_req mem_req free_cpu free_mem c = true ->
  exists b, best_fit_bin cpu_req mem_req num free_cpu free_mem = Some b.
Proof.
  intros Hc Hf. unfold best_fit_bin. cbv zeta.
  destruct (best_fit_fold_cases free_cpu free_mem
              (sorted_by (fun x => get x free_cpu) (seq 0 num)) (None, None))
    as (_ & _ & N & _); [left; reflexivity|].
  destruct N as (b & sp & E).
  - exists c. split; [|exact Hf]. apply sorted_by_In, in_seq. lia.
  - exists b. cbv zeta in E. rewrite E. reflexivity.
Qed.

Lemma fits_one_iff (free_cpu free_mem : list Q) (c : nat) :
  fits_one cpu_req mem_req free_cpu free_mem c = true
  <-> cpu_req <= get c free_cpu /\ mem_req <= get c free_mem.
Proof.
  unfold fits_one. rewrite andb_true_iff, !Qle_bool_iff. reflexivity.
Qed.

Lemma best_fit_place_one_sum (st : list Z * list Q * list Q) :
  List.length (fst (fst st)) = num ->
  let st' := best_fit_place_one cpu_req mem_req num st in
  List.length (fst (fst st')) = num
  /\ (Zsum (fst (fst st')) <= Zsum (fst (fst st)) + 1)%Z.
Proof.
  destruct st as [[d fc] fm]. cbn [fst snd]. intro L.
  unfold best_fit_place_one.
  destruct (best_fit_bin cpu_req mem_req num fc fm) as [b|] eqn:E; cbn [fst snd].
  - apply best_fit_bin_sound in E. destruct E as [Hb _].
    rewrite upd_length, Zsum_upd by lia. split; [exact L | lia].
  - split; [exact L | lia].
Qed.

(** Every iteration places at most one replica. *)
Lemma best_fit_sum_le (free_cpu free_mem : list Q) (k : nat) :
  let st := Nat.iter k (best_fit_place_one cpu_req mem_req num)
              (repeat 0%Z num, free_cpu, free_mem) in
  List.length (fst (fst st)) = num /\ (Zsum (fst (fst st)) <= Z.of_nat k)%Z.
Proof.
  induction k as [|k IH]; cbv zeta.
  - cbn [Nat.iter nat_rect fst snd]. rewrite repeat_length, Zsum_repeat_zero. split; lia.
  - rewrite Nat.iter_succ. cbv zeta in IH. destruct IH as [L S].
    destruct (best_fit_place_one_sum _ L) as [L' S'].
    split; [exact L' | lia].
Qed.

(** A cluster fails the test of the scan when its free CPU or its free
    memory is below the demand of one replica. *)
Lemma fits_one_false_iff (free_cpu free_mem : list Q) (c : nat) :
  fits_one cpu_req mem_req free_cpu free_mem c = false
  <-> get c free_cpu < cpu_req \/ get c free_mem < mem_req.
Proof.
  unfold fits_one. rewrite andb_false_iff, <- !Qlt_bool_iff. unfold Qlt_bool.
  rewrite !negb_true_iff. reflexivity.
Qed.

(** The scan finds no bin only when no cluster has room. *)
Lemma best_fit_bin_none (free_cpu free_mem : list Q) (c : nat) :
  best_fit_bin cpu_req mem_req num free_cpu free_mem = None -> (c < num)%nat ->
  get c free_cpu < cpu_req \/ get c free_mem < mem_req.
Proof.
  intros E Hc. apply fits_one_false_iff.
  destruct (fits_one cpu_req mem_req free_cpu free_mem c) eqn:F; [|reflexivity].
  destruct (best_fit_bin_complete free_cpu free_mem c Hc F) as [b Eb].
  rewrite E in Eb. discriminate Eb.
Qed.

(** An iteration that places nothing leaves arrays on which no later
    iteration places anything: after [k] iterations either [k] replicas are
    placed, or no cluster has room for one more. *)
Lemma best_fit_iter_stops (free_cpu free_mem : list Q) (k : nat) :
  let st := Nat.iter k (best_fit_place_one cpu_req mem_req num)
              (repeat 0%Z num, free_cpu, free_mem) in
  Zsum (fst (fst st)) = Z.of_nat k
  \/ forall c, (c < num)%nat ->
       get c (snd (fst st)) < cpu_req \/ get c (snd st) < mem_req.
Proof.
  induction k as [|k IH]; cbv zeta.
  - left. cbn [Nat.iter nat_rect fst snd]. rewrite Zsum_repeat_zero. reflexivity.
  - rewrite Nat.iter_succ. cbv zeta in IH.
    destruct (best_fit_sum_le free_cpu free_mem k) as [L _]. cbv zeta in L.
    destruct (Nat.iter k _ _) as [[d fc] fm]. cbn [fst snd] in IH, L.
    unfold best_fit_place_one.
    destruct (best_fit_bin cpu_req mem_req num fc fm) as [b|] eqn:E; cbn [fst snd].
    + destruct (best_fit_bin_sound fc fm b E) as [Hb Fb].
      destruct IH as [S|Full].
      * left. rewrite Zsum_upd by lia. lia.
      * exfalso. apply fits_one_iff in Fb. destruct Fb as [Fc Fm].
        destruct (Full b Hb) as [X|X]; [apply (Qlt_not_le _ _ X Fc)
                                       | apply (Qlt_not_le _ _ X Fm)].
    + right. intros c Hc. exact (best_fit_bin_none fc fm c E Hc).
Qed.

End BestFit.

(** *** Two fleets on which a split falls short *)

Lemma crowded_fleet_can_host :
  fleet_can_host 8 (1 # 4) (1 # 4) 2 Crowded.free_cpu Crowded.free_mem.
Proof.
  exists Crowded.plan. split; [|reflexivity]. split; [reflexivity|].
  intros c Hc. destruct c as [|[|c]]; [| |lia]; vm_compute; repeat split; discriminate.
Qed.

Lemma crowded_fleet_aggregate :
  aggregate_capacity_suffices 8 (1 # 4) (1 # 4) Crowded.free_cpu Crowded.free_mem.
Proof. split; vm_compute; discriminate. Qed.

(** On the crowded fleet the first-fit split places two of the eight
    replicas, although cluster 1 alone has room for all eight; the ranking
    of the two clusters makes no difference. *)
Lemma first_fit_falls_short_with_room :
  fleet_can_host 8 (1 # 4) (1 # 4) 2 Crowded.free_cpu Crowded.free_mem
  /\ first_fit_decreasing_heuristic 8 (1 # 4) (1 # 4) 2
       Crowded.free_cpu Crowded.free_mem [0; 0]
     = Some ([0; 2]%Z, [4 # 8; 252 # 8])
  /\ ffd_distribute [1; 0]%nat 8 (1 # 4) (1 # 4) 2
       Crowded.free_cpu Crowded.free_mem 1 = [0; 2]%Z
  /\ ffd_distribute [0; 1]%nat 8 (1 # 4) (1 # 4) 2
       Crowded.free_cpu Crowded.free_mem 1 = [0; 2]%Z.
Proof.
  split; [exact crowded_fleet_can_host|].
  repeat split; vm_compute; reflexivity.
Qed.

(** On the fragmented fleet the aggregate free CPU equals the demand, but no
    cluster has room for the second replica: the best-fit split places one
    replica of two. *)
Lemma best_fit_falls_short_when_fragmented :
  aggregate_capacity_suffices 2 1 1 Fragmented.free_cpu Fragmented.free_mem
  /\ fst (fst (best_fit_heuristic_one_by_one 2 1 1 2
                 Fragmented.free_cpu Fragmented.free_mem)) = [1; 0]%Z.
Proof. split; [split; vm_compute; discriminate | vm_compute; reflexivity]. Qed.

(** C5, as claimed: on the crowded fleet the aggregate free CPU and memory
    exceed the demand of the eight replicas, and the first-fit split places
    two of them. *)
Lemma split_conservation_fails_for_first_fit : ~ split_conservation_as_claimed.
Proof.
  intro C.
  destruct (C 8%Z (1 # 4) (1 # 4) 2%nat Crowded.free_cpu Crowded.free_mem [0; 0])
    as [FF _]; try reflexivity; try lia.
  destruct (FF [0; 2]%Z [4 # 8; 252 # 8]) as [_ E]; [vm_compute; reflexivity|].
  specialize (E crowded_fleet_aggregate). vm_compute in E. discriminate E.
Qed.

(** C5, amended: for a request of at least two replicas with positive
    demands, the first-fit split and the best-fit split return a
    distribution with one count per cluster that sums to at most the replica
    count.  The best-fit split places every replica unless it stops because
    no cluster has the free CPU and memory of one more replica left. *)
Theorem split_conservation (num_replicas : Z) (cpu_req mem_req : Q) (num : nat)
    (free_cpu free_mem split0 : list Q) :
  (2 <= num_replicas)%Z -> 0 < cpu_req -> 0 < mem_req ->
  List.length free_cpu = num -> List.length free_mem = num ->
  split0 <> [] ->
  (exists dist factors,
      first_fit_decreasing_heuristic num_replicas cpu_req mem_req num
        free_cpu free_mem split0 = Some (dist, factors)
      /\ List.length dist = num
      /\ (Zsum dist <= num_replicas)%Z)
  /\ (let '(dist, free_cpu', free_mem') :=
        best_fit_heuristic_one_by_one num_replicas cpu_req mem_req num
          free_cpu free_mem in
      List.length dist = num
      /\ (Zsum dist <= num_replicas)%Z
      /\ (Zsum dist = num_replicas
          \/ forall c, (c < num)%nat ->
               get c free_cpu' < cpu_req \/ get c free_mem' < mem_req)).
Proof.
  intros R Hcpu Hmem Lc Lm NE. split.
  - apply first_fit_decreasing_sum; [lia | exact NE].
  - unfold best_fit_heuristic_one_by_one.
    destruct (best_fit_sum_le cpu_req mem_req num free_cpu free_mem
                (Z.to_nat num_replicas)) as [L S].
    pose proof (best_fit_iter_stops cpu_req mem_req num free_cpu free_mem
                  (Z.to_nat num_replicas)) as F.
    cbv zeta in L, S, F.
    destruct (Nat.iter _ _ _) as [[dist fc] fm]. cbn [fst snd] in L, S, F.
    split; [exact L|]. split; [lia|].
    destruct F as [F|F]; [left; lia | right; exact F].
Qed.

(** ** Instances *)

Lemma split_conservation_witness :
  (2 <= 8)%Z /\ 0 < 1 # 4 /\ 0 < 1 # 4
  /\ List.length Crowded.free_cpu = 2%nat /\ List.length Crowded.free_mem = 2%nat
  /\ [0; 0] <> []
  /\ (exists dist factors,
         first_fit_decreasing_heuristic 8 (1 # 4) (1 # 4) 2
           Crowded.free_cpu Crowded.free_mem [0; 0] = Some (dist, factors)
         /\ List.length dist = 2%nat
         /\ (Zsum dist <= 8)%Z)
  /\ (let '(dist, free_cpu', free_mem') :=
        best_fit_heuristic_one_by_one 8 (1 # 4) (1 # 4) 2
          Crowded.free_cpu Crowded.free_mem in
      List.length dist = 2%nat
      /\ (Zsum dist <= 8)%Z
      /\ (Zsum dist = 8%Z
          \/ forall c, (c < 2)%nat ->
               get c free_cpu' < 1 # 4 \/ get c free_mem' < 1 # 4)).
Proof.
  assert (H2 : (2 <= 8)%Z) by lia.
  assert (Hq : 0 < 1 # 4) by reflexivity.
  assert (NE : [0; 0] <> (@nil Q)) by discriminate.
  repeat (split; [first [assumption | reflexivity]|]).
  exact (split_conservation 8 (1 # 4) (1 # 4) 2 Crowded.free_cpu Crowded.free_mem
           [0; 0] H2 Hq Hq eq_refl eq_refl NE).
Defined.

Lemma first_state_is_started : Fleet.started = Some Fleet.first_state.
Proof. vm_compute. reflexivity. Qed.

Lemma whole_placement_feasible_iff_fits_witness :
  (0 < num_clusters Fleet.first_state)%nat
  /\ (num_clusters Fleet.first_state <= 3
      < num_clusters Fleet.first_state + NUM_SPREADING_ACTIONS + 1)%nat
  /\ (check_if_cluster_is_full_after_full_deployment Fleet.first_state 0 = false
        <-> whole_placement_fits Fleet.first_state 0)
  /\ (exists s', take_action 0 Fleet.first_state = Some s'
        /\ (penalty s' = false <-> whole_placement_fits Fleet.first_state 0))
  /\ (nth 0 (action_masks Fleet.first_state) true = false
        <-> ~ whole_placement_fits Fleet.first_state 0)
  /\ List.length (action_masks Fleet.first_state)
     = (num_clusters Fleet.first_state + NUM_SPREADING_ACTIONS + 1)%nat
  /\ nth 3 (action_masks Fleet.first_state) false = true.
Proof.
  assert (H0 : (0 < num_clusters Fleet.first_state)%nat) by (vm_compute; lia).
  assert (H3 : (num_clusters Fleet.first_state <= 3
                < num_clusters Fleet.first_state + NUM_SPREADING_ACTIONS + 1)%nat)
    by (vm_compute; lia).
  split; [exact H0|]. split; [exact H3|].
  exact (whole_placement_feasible_iff_fits Fleet.first_state 0 3 H0 H3).
Defined.

Lemma naive_reward_of_step_witness :
  reward_function Fleet.first_state = NAIVE
  /\ split_number_replicas Fleet.first_state <> []
  /\ (check_if_cluster_is_really_full Fleet.first_state = true
        <-> forall k, (k < num_clusters Fleet.first_state)%nat ->
                      ~ whole_placement_fits Fleet.first_state k)
  /\ exists s1,
       take_action 0 (set_offered_requests
                        (offered_requests Fleet.first_state + 1)%Z Fleet.first_state)
       = Some s1
       /\ get_reward Fleet.no_gini Fleet.no_normalize Fleet.no_round s1
          = Some (naive_reward_spec Fleet.first_state s1)
       /\ (forall s2 reward,
             step Fleet.catalogue Fleet.no_gini Fleet.no_normalize Fleet.no_round
                  0 Fleet.then_b Fleet.first_state = Some (s2, reward) ->
             reward = naive_reward_spec Fleet.first_state s1).
Proof.
  assert (R : reward_function Fleet.first_state = NAIVE) by reflexivity.
  assert (NE : split_number_replicas Fleet.first_state <> []) by discriminate.
  split; [exact R|]. split; [exact NE|].
  exact (naive_reward_of_step Fleet.catalogue Fleet.no_gini Fleet.no_normalize
           Fleet.no_round 0 Fleet.then_b Fleet.first_state R NE).
Defined.

(** * Further properties of the environment *)

(** ** Loops that write an array entry by entry *)

Lemma fold_upd_length {A : Type} (f : nat -> A) (l : list nat) (acc : list A) :
  List.length (fold_left (fun a i => upd i (f i) a) l acc) = List.length acc.
Proof.
  revert acc; induction l as [|x t IH]; intro acc; simpl; auto.
  rewrite IH. apply upd_length.
Qed.

Lemma fold_upd_outside {A : Type} (f : nat -> A) (l : list nat) (acc : list A)
    (j : nat) (d : A) :
  ~ In j l -> nth j (fold_left (fun a i => upd i (f i) a) l acc) d = nth j acc d.
Proof.
  revert acc; induction l as [|x t IH]; intros acc H; simpl; auto.
  rewrite IH by (intro; apply H; right; assumption).
  apply nth_upd_other. intro; apply H; left; assumption.
Qed.

Lemma fold_upd_inside {A : Type} (f : nat -> A) (l : list nat) (acc : list A)
    (j : nat) (d : A) :
  NoDup l -> In j l -> (j < List.length acc)%nat ->
  nth j (fold_left (fun a i => upd i (f i) a) l acc) d = f j.
Proof.
  revert acc; induction l as [|x t IH]; intros acc ND Hin Hlt; simpl; [destruct Hin|].
  inversion ND as [|? ? Hx ND']; subst.
  destruct Hin as [->|Hin].
  - rewrite fold_upd_outside by assumption. apply nth_upd_same; assumption.
  - apply IH; auto. rewrite upd_length; assumption.
Qed.

Lemma fold_upd_seq {A : Type} (f : nat -> A) (num : nat) (acc : list A) (j : nat) (d : A) :
  (j < num)%nat -> (num <= List.length acc)%nat ->
  nth j (fold_left (fun a i => upd i (f i) a) (seq 0 num) acc) d = f j.
Proof.
  intros Hj Hn. apply fold_upd_inside; [apply seq_NoDup | apply in_seq; lia | lia].
Qed.

(** ** The latency model *)

Lemma clamp_delay_not_zero (x : Q) : Qeq_bool (clamp_delay x) 0 = false.
Proof.
  destruct (Qeq_bool (clamp_delay x) 0) eqn:E; [|reflexivity].
  apply Qeq_bool_iff in E. destruct (clamp_delay_range x) as [L _].
  rewrite E in L. unfold MIN_DELAY in L. exfalso. apply (Qlt_not_le 0 1); [reflexivity | exact L].
Qed.

Lemma latency_pair_update_shape (scale : Q -> Q) (num n n2 : nat) (m : list (list Q)) :
  (n < num)%nat -> (n2 < num)%nat -> latency_shape num m ->
  latency_shape num (latency_pair_update scale n m n2).
Proof.
  intros Hn Hn2 [L R]. unfold latency_pair_update.
  destruct (Nat.eqb n n2).
  - split; [rewrite mset_length; exact L|].
    intros i Hi. rewrite mset_row_length by lia. apply R, Hi.
  - cbv zeta. rewrite mget_mset_same by (try lia; rewrite R; lia).
    rewrite clamp_delay_not_zero.
    split; [rewrite !mset_length; exact L|].
    intros i Hi. rewrite !mset_row_length by (rewrite ?mset_length; lia). apply R, Hi.
Qed.

(** The entries of the matrix after one iteration of the loop over [n2]. *)
Lemma latency_pair_update_entries (scale : Q -> Q) (num n n2 : nat) (m : list (list Q))
    (i j : nat) :
  (n < num)%nat -> (n2 < num)%nat -> latency_shape num m ->
  (i < num)%nat -> (j < num)%nat ->
  mget i j (latency_pair_update scale n m n2)
  = if (Nat.eqb i n && Nat.eqb j n2) || (Nat.eqb i n2 && Nat.eqb j n)
    then (if Nat.eqb n n2 then 0 else clamp_delay (scale (mget n n2 m)))
    else mget i j m.
Proof.
  intros Hn Hn2 [L R] Hi Hj. unfold latency_pair_update.
  destruct (Nat.eqb_spec n n2) as [<-|N].
  - destruct (Nat.eqb_spec i n) as [->|Ni]; destruct (Nat.eqb_spec j n) as [->|Nj];
      cbn [andb orb].
    + apply mget_mset_same; [lia | rewrite R; lia].
    + apply mget_mset_other; [lia | right; congruence].
    + apply mget_mset_other; [lia | left; congruence].
    + apply mget_mset_other; [lia | left; congruence].
  - cbv zeta. rewrite mget_mset_same by (try lia; rewrite R; lia).
    rewrite clamp_delay_not_zero.
    rewrite (mget_mset_same n n2) by (try lia; rewrite R; lia).
    set (c := clamp_delay (scale (mget n n2 m))).
    destruct (Nat.eqb_spec i n2) as [->|Ni2]; destruct (Nat.eqb_spec j n) as [->|Nj];
      cbn [andb orb]; rewrite ?orb_true_r, ?orb_false_r.
    + apply mget_mset_same; [rewrite mset_length; lia|].
      rewrite mset_row_length by lia. rewrite R; lia.
    + rewrite mget_mset_other by (try rewrite mset_length; try lia; right; congruence).
      replace (Nat.eqb n2 n) with false by (symmetry; apply Nat.eqb_neq; congruence).
      cbn [andb]. apply mget_mset_other; [lia | left; congruence].
    + rewrite mget_mset_other by (try rewrite mset_length; try lia; left; congruence).
      destruct (Nat.eqb_spec i n) as [->|Ni]; cbn [andb].
      * replace (Nat.eqb n n2) with false by (symmetry; apply Nat.eqb_neq; congruence).
        apply mget_mset_other; [lia | right; congruence].
      * apply mget_mset_other; [lia | left; congruence].
    + rewrite mget_mset_other by (try rewrite mset_length; try lia; left; congruence).
      destruct (Nat.eqb_spec i n) as [->|Ni]; destruct (Nat.eqb_spec j n2) as [->|Nj2];
        cbn [andb].
      * apply mget_mset_same; [lia | rewrite R; lia].
      * apply mget_mset_other; [lia | right; congruence].
      * apply mget_mset_other; [lia | left; congruence].
      * apply mget_mset_other; [lia | left; congruence].
Qed.

(** The matrix after the first [k] iterations: the entries of row and column
    [n] up to [k] carry the clamped new latency, computed from the entry of
    row [n] before the loop; all other entries are as before. *)
Lemma latency_fold_prefix (scale : Q -> Q) (num n : nat) (m : list (list Q)) (k : nat) :
  (n < num)%nat -> (k <= num)%nat -> latency_shape num m ->
  let m' := fold_left (latency_pair_update scale n) (seq 0 k) m in
  latency_shape num m'
  /\ forall i j, (i < num)%nat -> (j < num)%nat ->
       mget i j m'
       = if Nat.eqb i n && Nat.ltb j k
         then (if Nat.eqb j n then 0 else clamp_delay (scale (mget n j m)))
         else if Nat.eqb j n && Nat.ltb i k
              then clamp_delay (scale (mget n i m))
              else mget i j m.
Proof.
  intros Hn Hk Sh. induction k as [|k IH]; cbv zeta.
  - split; [exact Sh|]. intros i j Hi Hj. cbn [seq fold_left].
    rewrite !andb_false_r. reflexivity.
  - destruct IH as [S' E]; [lia|].
    rewrite seq_S, fold_left_app. cbn [fold_left Nat.add].
    split; [apply latency_pair_update_shape; [lia | lia | exact S']|].
    intros i j Hi Hj.
    rewrite (latency_pair_update_entries scale num n k) by (try assumption; lia).
    rewrite (E n k) by lia. rewrite (E i j) by assumption.
    rewrite Nat.eqb_refl, Nat.ltb_irrefl. cbn [andb].
    destruct (Nat.eqb_spec i n) as [Ei|Ni]; destruct (Nat.eqb_spec j n) as [Ej|Nj];
      destruct (Nat.eqb_spec n k) as [Ek|Nk]; destruct (Nat.eqb_spec k n) as [Ek'|Nk'];
      destruct (Nat.ltb_spec n k);
      destruct (Nat.eqb_spec i k) as [Eik|Nik]; destruct (Nat.eqb_spec j k) as [Ejk|Njk];
      destruct (Nat.ltb_spec i k); destruct (Nat.ltb_spec i (S k));
      destruct (Nat.ltb_spec j k); destruct (Nat.ltb_spec j (S k));
      cbn [andb orb]; try lia; try reflexivity; try (subst; reflexivity).
Qed.

(** The matrix after [increase_latency] or [decrease_latency] on cluster [n]. *)
Lemma update_latency_entries (scale : Q -> Q) (n : nat) (s : Env) (i j : nat) :
  (n < num_clusters s)%nat -> latency_shape (num_clusters s) (latency_matrix s) ->
  (i < num_clusters s)%nat -> (j < num_clusters s)%nat ->
  mget i j (latency_matrix (update_latency scale n s))
  = if Nat.eqb i n
    then (if Nat.eqb j n then 0 else clamp_delay (scale (mget n j (latency_matrix s))))
    else if Nat.eqb j n then clamp_delay (scale (mget n i (latency_matrix s)))
         else mget i j (latency_matrix s).
Proof.
  intros Hn S Hi Hj. unfold update_latency. cbv zeta.
  cbn [latency_matrix set_latency set_latency_matrix].
  destruct (latency_fold_prefix scale (num_clusters s) n (latency_matrix s)
              (num_clusters s) Hn (Nat.le_refl _) S) as [_ E].
  cbv zeta in E. rewrite E by assumption.
  replace (Nat.ltb j (num_clusters s)) with true by (symmetry; apply Nat.ltb_lt; exact Hj).
  replace (Nat.ltb i (num_clusters s)) with true by (symmetry; apply Nat.ltb_lt; exact Hi).
  rewrite !andb_true_r. reflexivity.
Qed.

Lemma update_latency_mirrored (scale : Q -> Q) (n : nat) (s : Env) :
  (n < num_clusters s)%nat -> latency_shape (num_clusters s) (latency_matrix s) ->
  mirrored_update scale (num_clusters s) n (latency_matrix s)
    (latency_matrix (update_latency scale n s)).
Proof.
  intros Hn Sh. unfold mirrored_update. split; [|split].
  - rewrite update_latency_entries by assumption. rewrite Nat.eqb_refl. reflexivity.
  - intros j Hj N. rewrite !update_latency_entries by assumption.
    rewrite Nat.eqb_refl.
    replace (Nat.eqb j n) with false by (symmetry; apply Nat.eqb_neq; assumption).
    split; reflexivity.
  - intros i j Hi Hj Ni Nj. rewrite update_latency_entries by assumption.
    replace (Nat.eqb i n) with false by (symmetry; apply Nat.eqb_neq; assumption).
    replace (Nat.eqb j n) with false by (symmetry; apply Nat.eqb_neq; assumption).
    reflexivity.
Qed.

(** X1: [increase_latency] and [decrease_latency] on cluster [n] rewrite row
    [n] from its old entries, copy it into column [n], zero the diagonal
    entry and leave every entry outside row and column [n] as it was. *)
Theorem latency_update_mirrors_row (n : nat) (factor : Q) (s : Env) :
  (n < num_clusters s)%nat ->
  latency_shape (num_clusters s) (latency_matrix s) ->
  mirrored_update (fun prev => prev * factor) (num_clusters s) n
    (latency_matrix s) (latency_matrix (increase_latency n factor s))
  /\ mirrored_update (fun prev => prev / factor) (num_clusters s) n
       (latency_matrix s) (latency_matrix (decrease_latency n factor s)).
Proof.
  intros Hn Sh. split; apply update_latency_mirrored; assumption.
Qed.

(** X2: a latency update keeps the matrix square with a zero diagonal and
    every other entry between [MIN_DELAY] and [MAX_DELAY], whatever the
    factor. *)
Theorem latency_update_keeps_bounds (n : nat) (factor : Q) (s : Env) :
  (n < num_clusters s)%nat ->
  latency_invariant (num_clusters s) (latency_matrix s) ->
  latency_invariant (num_clusters s) (latency_matrix (increase_latency n factor s))
  /\ latency_invariant (num_clusters s) (latency_matrix (decrease_latency n factor s)).
Proof.
  intros Hn I. split; apply update_latency_invariant; assumption.
Qed.

Lemma clamp_grows (prev factor : Q) :
  0 <= prev -> prev <= MAX_DELAY -> 1 <= factor ->
  prev <= clamp_delay (prev * factor).
Proof.
  intros P M F. unfold clamp_delay.
  apply Qle_trans with (Qmin (prev * factor) MAX_DELAY); [|apply Q.le_max_l].
  apply Q.min_glb; [nra | exact M].
Qed.

Lemma clamp_decays (prev factor : Q) :
  MIN_DELAY <= prev -> 1 <= factor ->
  clamp_delay (prev / factor) <= prev.
Proof.
  intros P F. unfold clamp_delay. unfold MIN_DELAY in *.
  apply Q.max_lub; [|exact P].
  apply Qle_trans with (prev / factor); [apply Q.le_min_l|].
  apply Qle_shift_div_r; [lra | nra].
Qed.

(** X3: with a factor of at least 1 (the source uses 1.05, 1.10 and 1.15),
    [increase_latency] lowers no latency of cluster [n] and
    [decrease_latency] raises none. *)
Theorem latency_update_is_monotone (n j : nat) (factor : Q) (s : Env) :
  (n < num_clusters s)%nat -> (j < num_clusters s)%nat -> 1 <= factor ->
  latency_invariant (num_clusters s) (latency_matrix s) ->
  mget n j (latency_matrix s) <= mget n j (latency_matrix (increase_latency n factor s))
  /\ mget n j (latency_matrix (decrease_latency n factor s)) <= mget n j (latency_matrix s).
Proof.
  intros Hn Hj F (L & R & D & B).
  assert (Sh : latency_shape (num_clusters s) (latency_matrix s)) by (split; assumption).
  unfold increase_latency, decrease_latency.
  rewrite !update_latency_entries by assumption. rewrite Nat.eqb_refl.
  destruct (Nat.eqb_spec j n) as [->|N].
  - rewrite (D n Hn). split; apply Qle_refl.
  - destruct (B n j Hn Hj (not_eq_sym N)) as [Lo Hi]. split.
    + apply clamp_grows; try assumption. unfold MIN_DELAY in Lo. lra.
    + apply clamp_decays; assumption.
Qed.

(** X4: after [increase_latency] and after [decrease_latency] the vector
    [latency] holds, for every cluster, the mean of its row of the updated
    matrix. *)
Theorem latency_update_refreshes_means (n c : nat) (factor : Q) (s : Env) :
  (c < num_clusters s)%nat -> (num_clusters s <= List.length (latency s))%nat ->
  get c (latency (increase_latency n factor s))
  = mean_of (row c (latency_matrix (increase_latency n factor s)))
  /\ get c (latency (decrease_latency n factor s))
     = mean_of (row c (latency_matrix (decrease_latency n factor s))).
Proof.
  intros Hc L. unfold increase_latency, decrease_latency, update_latency, refresh_latency.
  cbv zeta. cbn [latency latency_matrix set_latency set_latency_matrix].
  unfold get. split.
  - apply (fold_upd_seq
             (fun c => mean_of (row c (fold_left
                                         (latency_pair_update (fun prev => prev * factor) n)
                                         (seq 0 (num_clusters s)) (latency_matrix s)))));
      assumption.
  - apply (fold_upd_seq
             (fun c => mean_of (row c (fold_left
                                         (latency_pair_update (fun prev => prev / factor) n)
                                         (seq 0 (num_clusters s)) (latency_matrix s)))));
      assumption.
Qed.

(** ** The fleet after [__init__] and [reset] *)

Lemma drawn_allocation (num : nat) (u : nat -> Q) (c : nat) :
  (c < num)%nat -> 0 <= u c -> u c < 1 ->
  0 <= get c (draw_allocated num u) /\ get c (draw_allocated num u) < 2 # 10.
Proof.
  intros Hc L H. unfold get, draw_allocated. rewrite nth_map_seq by exact Hc.
  unfold uniform. split; lra.
Qed.

Lemma tier_capacity (u : Z) :
  let t := cluster_type_of (Z.to_nat (integers_in 0 NUM_CLUSTER_TYPES u)) in
  (2 <= ct_cpu t /\ ct_cpu t <= 8) /\ (2 <= ct_mem t /\ ct_mem t <= 32)
  /\ (1 <= ct_cost t /\ ct_cost t <= 16).
Proof.
  cbv zeta. unfold integers_in, NUM_CLUSTER_TYPES.
  pose proof (Z.mod_pos_bound u (5 - 0)) as B.
  assert (H : (Z.to_nat (0 + u mod (5 - 0)) < 5)%nat) by lia.
  destruct (Z.to_nat (0 + u mod (5 - 0))) as [|[|[|[|[|t]]]]]; [| | | | |lia];
    vm_compute; repeat split; discriminate.
Qed.

Lemma drawn_capacity (num : nat) (u : nat -> Z) (c : nat) :
  (c < num)%nat ->
  let cpu := get c (map (fun t => ct_cpu (cluster_type_of t)) (draw_cluster_type num u)) in
  let mem := get c (map (fun t => ct_mem (cluster_type_of t)) (draw_cluster_type num u)) in
  (2 <= cpu /\ cpu <= 8) /\ (2 <= mem /\ mem <= 32).
Proof.
  intro Hc. cbv zeta. unfold get, draw_cluster_type. rewrite !map_map.
  rewrite !nth_map_seq by exact Hc.
  destruct (tier_capacity (u c)) as (A & B & _). split; assumption.
Qed.

Lemma drawn_latency_below_max (num : nat) (u : nat -> nat -> Z) (i j : nat) :
  (i < num)%nat -> (j < num)%nat -> i <> j ->
  mget i j (draw_latency_matrix num u) <= 999.
Proof.
  intros Hi Hj N. unfold mget, row, get, draw_latency_matrix.
  rewrite nth_map_seq by exact Hi. rewrite nth_map_seq by exact Hj.
  replace (i =? j)%nat with false by (symmetry; apply Nat.eqb_neq; assumption).
  unfold integers_in. change 999 with (inject_Z 999). rewrite <- Zle_Qle.
  pose proof (Z.mod_pos_bound (u i j) (1000 - 1)). lia.
Qed.

(** X5: [reset] gives every cluster an allocation in [0, 0.2) in absolute
    units, whatever its tier, on a capacity within the range of the tier
    table (2 to 8 CPU, 2 to 32 memory), and free resources equal to capacity
    minus allocation; the ledger arrays have one entry per cluster. *)
Theorem reset_draws_fresh_ledger (fd : FleetDraws) (s : Env) (c : nat) :
  (c < num_clusters s)%nat -> unit_draws fd c ->
  num_clusters (reset fd s) = num_clusters s
  /\ ledger_shape (reset fd s)
  /\ fresh_cluster (reset fd s) c.
Proof.
  intros Hc [[C0 C1] [M0 M1]].
  split; [reflexivity|]. split.
  - unfold ledger_shape, reset. cbv zeta.
    simpl.
    unfold free_of, draw_allocated, draw_cluster_type.
    rewrite !length_map, !length_seq, repeat_length. repeat split.
  - unfold fresh_cluster, reset. cbv zeta.
    simpl.
    destruct (drawn_capacity (num_clusters s) (u_type fd) c Hc) as [CC MC].
    split; [apply drawn_allocation; assumption|].
    split; [apply drawn_allocation; assumption|].
    split; [exact CC|]. split; [exact MC|].
    unfold free_of. split; unfold get at 1; rewrite nth_map_seq by exact Hc; reflexivity.
Qed.

(** X6: [reset] leaves a square latency matrix with a zero diagonal whose
    other entries lie between 1 and 999 ([MAX_DELAY] itself is never drawn),
    and a [latency] vector that holds the mean of every row. *)
Theorem reset_draws_fresh_latency (fd : FleetDraws) (s : Env) :
  fresh_latency (reset fd s).
Proof.
  unfold fresh_latency, reset. cbv zeta. simpl.
  split; [apply draw_latency_matrix_invariant|].
  split; [intros i j Hi Hj N; apply drawn_latency_below_max; assumption|].
  split; [rewrite length_map, length_seq; reflexivity|].
  intros c Hc. unfold get. rewrite nth_map_seq by exact Hc. reflexivity.
Qed.

Lemma draws_return (s : Env) :
  0 < arrival_rate_r s -> 0 <= call_duration_r s -> draws_raise s = false.
Proof.
  intros R D. unfold draws_raise.
  rewrite !orb_false_iff, !Qlt_bool_false_iff. split; [split|].
  - destruct (Qeq_bool (arrival_rate_r s) 0) eqn:E; [|reflexivity].
    apply Qeq_bool_iff in E. lra.
  - apply Qle_shift_div_l; [exact R | lra].
  - exact D.
Qed.

(** X7: [__init__] returns an environment whenever the catalogue is not
    empty, [min_replicas <= max_replicas], the arrival rate is positive and
    the mean duration is not negative: the timeline is empty, the clock
    stands at the first arrival, [dt] is the difference between the sampled
    departure and that arrival, and the fleet is as after [reset]. *)
Theorem init_returns_fresh_environment (catalog : list DeploymentRequest)
    (cfg : Config) (fd : FleetDraws) (dr : RequestDraws) :
  catalog <> [] ->
  (cfg_min_replicas cfg <= cfg_max_replicas cfg)%Z ->
  0 < cfg_arrival_rate_r cfg -> 0 <= cfg_call_duration_r cfg ->
  exists s, init catalog cfg fd dr = Some s
    /\ num_clusters s = cfg_num_clusters cfg
    /\ running_requests s = []
    /\ current_time s = 0 + exponential (1 / cfg_arrival_rate_r cfg) (e_arrival dr)
    /\ dt s = current_time s + exponential (cfg_call_duration_r cfg) (e_duration dr)
              - current_time s
    /\ penalty s = false
    /\ fresh_latency s
    /\ ledger_shape s
    /\ (forall c, (c < cfg_num_clusters cfg)%nat -> unit_draws fd c -> fresh_cluster s c).
Proof.
  intros NE LE Rate Dur. unfold init. cbv zeta.
  match goal with |- context [next_request _ _ ?e] => set (env0 := e) end.
  unfold next_request. cbv zeta.
  rewrite (draws_return env0 Rate Dur).
  change (running_requests (set_current_time
            (current_time env0 + exponential (1 / arrival_rate_r env0) (e_arrival dr))
            (set_dt (current_time env0 + exponential (1 / arrival_rate_r env0) (e_arrival dr)
                     + exponential (call_duration_r env0) (e_duration dr)
                     - (current_time env0 + exponential (1 / arrival_rate_r env0) (e_arrival dr)))
                    env0))) with (@nil (Q * DeploymentRequest)).
  cbn [List.length drain bind].
  match goal with
  | |- context [deployment_generator catalog dr ?e] =>
      destruct (deployment_generator_returns catalog dr e NE LE) as (d & G & _)
  end.
  rewrite G. cbn [bind]. eexists. split; [reflexivity|].
  subst env0.
  split; [reflexivity|]. split; [reflexivity|].
  split; [reflexivity|]. split; [reflexivity|]. split; [reflexivity|].
  split.
  { unfold fresh_latency. simpl.
    split; [apply draw_latency_matrix_invariant|].
    split; [intros i j Hi Hj N; apply drawn_latency_below_max; assumption|].
    split; [rewrite length_map, length_seq; reflexivity|].
    intros c Hc. unfold get. rewrite nth_map_seq by exact Hc. reflexivity. }
  split.
  { unfold ledger_shape. simpl. unfold free_of, draw_allocated, draw_cluster_type.
    rewrite !length_map, !length_seq, repeat_length. repeat split. }
  intros c Hc [[C0 C1] [M0 M1]]. unfold fresh_cluster. simpl.
  destruct (drawn_capacity (cfg_num_clusters cfg) (u_type fd) c Hc) as [CC MC].
  split; [apply drawn_allocation; assumption|].
  split; [apply drawn_allocation; assumption|].
  split; [exact CC|]. split; [exact MC|].
  unfold free_of. split; unfold get at 1; rewrite nth_map_seq by exact Hc; reflexivity.
Qed.

(** ** The request generator *)

Lemma deployment_generator_blueprint (catalog : list DeploymentRequest)
    (dr : RequestDraws) (s : Env) (d : DeploymentRequest) :
  deployment_generator catalog dr s = Some d ->
  exists b, In b catalog /\ d = with_num_replicas (num_replicas d) b.
Proof.
  unfold deployment_generator. cbv zeta.
  destruct (integers 0 _ (u_template dr)) as [n|]; [|discriminate]. cbn [bind].
  destruct (nth_error catalog _) as [b|] eqn:E; [|discriminate]. cbn [bind].
  apply nth_error_In in E.
  destruct (min_replicas s =? max_replicas s)%Z.
  - intro H. inversion H. exists b. split; [exact E | reflexivity].
  - destruct (integers (min_replicas s) _ _) as [k|]; [|discriminate]. cbn [bind].
    intro H. inversion H. exists b. split; [exact E | reflexivity].
Qed.

(** X8: [deployment_generator] raises exactly when the catalogue is empty or
    [max_replicas < min_replicas]; what it returns is a blueprint of the
    catalogue in which only the replica count has been overwritten. *)
Theorem deployment_generator_outcome (catalog : list DeploymentRequest)
    (dr : RequestDraws) (s : Env) :
  (deployment_generator catalog dr s = None
     <-> catalog = [] \/ (max_replicas s < min_replicas s)%Z)
  /\ (forall d, deployment_generator catalog dr s = Some d ->
        exists b, In b catalog /\ d = with_num_replicas (num_replicas d) b).
Proof.
  split; [|apply deployment_generator_blueprint].
  split.
  - intro H. destruct catalog as [|b t]; [left; reflexivity|].
    destruct (Z_lt_le_dec (max_replicas s) (min_replicas s)) as [L|L]; [right; exact L|].
    destruct (deployment_generator_returns (b :: t) dr s) as (d & G & _);
      [discriminate | exact L | congruence].
  - intros [->|L].
    + reflexivity.
    + unfold deployment_generator. cbv zeta.
      destruct (integers 0 _ (u_template dr)) as [n|]; [|reflexivity]. cbn [bind].
      destruct (nth_error catalog _) as [b|]; [|reflexivity]. cbn [bind].
      replace (min_replicas s =? max_replicas s)%Z with false
        by (symmetry; apply Z.eqb_neq; lia).
      unfold integers.
      replace (min_replicas s <? max_replicas s)%Z with false
        by (symmetry; apply Z.ltb_ge; lia).
      reflexivity.
Qed.

(** X9: every blueprint can be drawn: the raw draw [i + 1] selects the
    blueprint at index [i], and the draw that [integers] maps to 0 selects the
    last one, since the source indexes the catalogue with [n - 1]. *)
Theorem deployment_generator_reaches_blueprint (catalog : list DeploymentRequest)
    (s : Env) (i : nat) (b : DeploymentRequest) (ea ed : Q) (ur : Z) :
  nth_error catalog i = Some b ->
  (min_replicas s <= max_replicas s)%Z ->
  exists d,
    deployment_generator catalog (mkRequestDraws ea ed (Z.of_nat i + 1) ur) s = Some d
    /\ d = with_num_replicas (num_replicas d) b.
Proof.
  intros E LE.
  assert (Hi : (i < List.length catalog)%nat) by (apply nth_error_Some; congruence).
  unfold deployment_generator. cbv zeta. cbn [u_template u_replicas].
  unfold integers at 1.
  replace (0 <? Z.of_nat (List.length catalog))%Z with true
    by (symmetry; apply Z.ltb_lt; lia).
  cbn [bind]. unfold integers_in.
  set (n := (0 + (Z.of_nat i + 1) mod (Z.of_nat (List.length catalog) - 0))%Z).
  assert (I : (if (n =? 0)%Z then (List.length catalog - 1)%nat else Z.to_nat (n - 1)) = i).
  { subst n. destruct (Nat.eq_dec (S i) (List.length catalog)) as [L|L].
    - replace (Z.of_nat (List.length catalog) - 0)%Z with (Z.of_nat i + 1)%Z by lia.
      rewrite Z.mod_same by lia. cbn. lia.
    - rewrite Z.mod_small by lia.
      replace (0 + (Z.of_nat i + 1) =? 0)%Z with false
        by (symmetry; apply Z.eqb_neq; lia).
      lia. }
  rewrite I, E. cbn [bind].
  destruct (min_replicas s =? max_replicas s)%Z eqn:M.
  - eexists. split; reflexivity.
  - apply Z.eqb_neq in M. unfold integers.
    replace (min_replicas s <? max_replicas s)%Z with true
      by (symmetry; apply Z.ltb_lt; lia).
    cbn [bind]. eexists. split; reflexivity.
Qed.

(** ** The splitting heuristics *)

Section BestFitReservations.

Variables (cpu_req mem_req : Q) (num : nat) (free_cpu free_mem : list Q).

Lemma best_fit_place_one_reserved (st : list Z * list Q * list Q) :
  bf_reserved num free_cpu free_mem st ->
  bf_reserved num free_cpu free_mem (best_fit_place_one cpu_req mem_req num st).
Proof.
  destruct st as [[d fc] fm]. unfold bf_reserved. cbn [fst snd].
  intros (Ld & Lc & Lm & H). unfold best_fit_place_one.
  destruct (best_fit_bin cpu_req mem_req num fc fm) as [b|] eqn:E; cbn [fst snd];
    [|repeat split; try assumption; apply H; assumption].
  destruct (best_fit_bin_sound cpu_req mem_req num fc fm b E) as [Hb Fb].
  apply fits_one_iff in Fb. destruct Fb as [Fc Fm].
  rewrite !upd_length. repeat (split; [assumption|]).
  intros c Hc. destruct (H c Hc) as (P & Z0 & NN).
  destruct (Nat.eq_dec b c) as [->|N].
  - rewrite geti_upd_same, !get_upd_same by lia.
    split; [lia|]. split; [intro X; lia|]. intros _. split; lra.
  - rewrite geti_upd_other, !get_upd_other by assumption.
    repeat split; try assumption; first [apply Z0 | apply NN]; assumption.
Qed.

Lemma best_fit_iter_reserved (k : nat) :
  List.length free_cpu = num -> List.length free_mem = num ->
  bf_reserved num free_cpu free_mem
    (Nat.iter k (best_fit_place_one cpu_req mem_req num)
       (repeat 0%Z num, free_cpu, free_mem)).
Proof.
  intros Lc Lm. induction k as [|k IH].
  - unfold bf_reserved. cbn [Nat.iter nat_rect fst snd].
    rewrite repeat_length. repeat (split; [first [assumption | reflexivity]|]).
    intros c Hc. unfold geti. rewrite nth_repeat.
    split; [lia|]. split; [intros _; split; reflexivity | lia].
  - rewrite Nat.iter_succ. apply best_fit_place_one_reserved, IH.
Qed.

Hypothesis cpu_nonneg : 0 <= cpu_req.
Hypothesis mem_nonneg : 0 <= mem_req.

Lemma best_fit_place_one_shrinks (st : list Z * list Q * list Q) :
  bf_reserved num free_cpu free_mem st ->
  bf_shrinks cpu_req mem_req num free_cpu free_mem st ->
  bf_shrinks cpu_req mem_req num free_cpu free_mem
    (best_fit_place_one cpu_req mem_req num st).
Proof.
  destruct st as [[d fc] fm]. unfold bf_reserved, bf_shrinks. cbn [fst snd].
  intros (Ld & Lc & Lm & _) H. unfold best_fit_place_one.
  destruct (best_fit_bin cpu_req mem_req num fc fm) as [b|] eqn:E; cbn [fst snd];
    [|exact H].
  destruct (best_fit_bin_sound cpu_req mem_req num fc fm b E) as [Hb Fb].
  apply fits_one_iff in Fb. destruct Fb as [Fc Fm].
  intros c Hc. destruct (H c Hc) as (SC & SM & Room).
  destruct (Nat.eq_dec b c) as [->|N].
  - rewrite geti_upd_same, !get_upd_same by lia.
    split; [lra|]. split; [lra|]. intros _. split; lra.
  - rewrite geti_upd_other, !get_upd_other by assumption.
    split; [exact SC|]. split; [exact SM | exact Room].
Qed.

Lemma best_fit_iter_shrinks (k : nat) :
  List.length free_cpu = num -> List.length free_mem = num ->
  bf_shrinks cpu_req mem_req num free_cpu free_mem
    (Nat.iter k (best_fit_place_one cpu_req mem_req num)
       (repeat 0%Z num, free_cpu, free_mem)).
Proof.
  intros Lc Lm. induction k as [|k IH].
  - unfold bf_shrinks. cbn [Nat.iter nat_rect fst snd].
    intros c Hc. unfold geti. rewrite nth_repeat.
    split; [apply Qle_refl|]. split; [apply Qle_refl | lia].
  - rewrite Nat.iter_succ.
    apply best_fit_place_one_shrinks; [apply best_fit_iter_reserved; assumption | exact IH].
Qed.

End BestFitReservations.

(** X10: the best-fit split never places a replica where it does not fit:
    no count is negative, a cluster that received no replica keeps its free
    CPU and memory, and a cluster that received one is left with free CPU and
    memory that are not negative. *)
Theorem best_fit_never_overdraws (num_replicas : Z) (cpu_req mem_req : Q)
    (num : nat) (free_cpu free_mem : list Q) (c : nat) :
  List.length free_cpu = num -> List.length free_mem = num -> (c < num)%nat ->
  let '(dist, free_cpu', free_mem') :=
    best_fit_heuristic_one_by_one num_replicas cpu_req mem_req num free_cpu free_mem in
  List.length dist = num
  /\ (0 <= geti c dist)%Z
  /\ (geti c dist = 0%Z ->
      get c free_cpu' = get c free_cpu /\ get c free_mem' = get c free_mem)
  /\ ((0 < geti c dist)%Z -> 0 <= get c free_cpu' /\ 0 <= get c free_mem').
Proof.
  intros Lc Lm Hc. unfold best_fit_heuristic_one_by_one.
  pose proof (best_fit_iter_reserved cpu_req mem_req num free_cpu free_mem
                (Z.to_nat num_replicas) Lc Lm) as R.
  destruct (Nat.iter _ _ _) as [[d fc] fm]. unfold bf_reserved in R. cbn [fst snd] in R.
  destruct R as (Ld & _ & _ & H). destruct (H c Hc) as (P & Z0 & NN).
  split; [exact Ld|]. split; [exact P|]. split; [exact Z0 | exact NN].
Qed.

(** X11: when the demands of a replica are not negative, the best-fit split
    never hands back more free CPU or memory than it was given, and a cluster
    that has no room for one replica at the start receives none. *)
Theorem best_fit_skips_clusters_without_room (num_replicas : Z) (cpu_req mem_req : Q)
    (num : nat) (free_cpu free_mem : list Q) (c : nat) :
  0 <= cpu_req -> 0 <= mem_req ->
  List.length free_cpu = num -> List.length free_mem = num -> (c < num)%nat ->
  let '(dist, free_cpu', free_mem') :=
    best_fit_heuristic_one_by_one num_replicas cpu_req mem_req num free_cpu free_mem in
  get c free_cpu' <= get c free_cpu
  /\ get c free_mem' <= get c free_mem
  /\ (get c free_cpu < cpu_req \/ get c free_mem < mem_req -> geti c dist = 0%Z).
Proof.
  intros Hcpu Hmem Lc Lm Hc. unfold best_fit_heuristic_one_by_one.
  pose proof (best_fit_iter_reserved cpu_req mem_req num free_cpu free_mem
                (Z.to_nat num_replicas) Lc Lm) as R.
  pose proof (best_fit_iter_shrinks cpu_req mem_req num free_cpu free_mem Hcpu Hmem
                (Z.to_nat num_replicas) Lc Lm) as S.
  destruct (Nat.iter _ _ _) as [[d fc] fm]. unfold bf_reserved in R.
  unfold bf_shrinks in S. cbn [fst snd] in R, S.
  destruct R as (_ & _ & _ & H). destruct (H c Hc) as (P & _ & _).
  destruct (S c Hc) as (SC & SM & Room).
  split; [exact SC|]. split; [exact SM|].
  intro Short. destruct (Z_lt_le_dec 0 (geti c d)) as [G|G]; [|lia].
  exfalso. destruct (Room G) as [A B].
  destruct Short as [X|X]; [apply (Qlt_not_le _ _ X A) | apply (Qlt_not_le _ _ X B)].
Qed.

Lemma geti_upd_cases (i j : nat) (v : Z) (l : list Z) :
  (i = j /\ geti j (upd i v l) = v) \/ geti j (upd i v l) = geti j l.
Proof.
  destruct (Nat.eq_dec i j) as [->|N].
  - destruct (Nat.lt_ge_cases j (List.length l)) as [H|H].
    + left. split; [reflexivity | apply geti_upd_same; exact H].
    + right. unfold geti. rewrite !nth_overflow by (rewrite ?upd_length; lia). reflexivity.
  - right. apply geti_upd_other. exact N.
Qed.

Lemma fold_Qmin_lower (z : Q) (l : list Q) (x : Q) :
  z <= x -> (forall y, In y l -> z <= y) -> z <= fold_left Qmin l x.
Proof.
  revert x. induction l as [|y t IH]; intros x Hx H; simpl; [exact Hx|].
  apply IH.
  - apply Q.min_glb; [exact Hx | apply H; left; reflexivity].
  - intros y' Hy. apply H. right. exact Hy.
Qed.

Lemma min_list_lower (z : Q) (l : list Q) (m : Q) :
  (forall y, In y l -> z <= y) -> min_list l = Some m -> z <= m.
Proof.
  destruct l as [|x t]; [discriminate|]. intros H E. inversion E.
  apply fold_Qmin_lower; [apply H; left; reflexivity|].
  intros y Hy. apply H. right. exact Hy.
Qed.

Lemma share_factor_nonneg (f g cpu_req mem_req : Q) :
  0 < cpu_req -> 0 < mem_req -> 0 <= f -> 0 <= g ->
  0 <= Qmin (f / cpu_req) (g / mem_req).
Proof.
  intros C M F G. apply Q.min_glb; apply Qle_shift_div_l; try assumption; lra.
Qed.

Lemma ffd_min_factor_nonneg (num_replicas : Z) (factors : list Q) (mf : Z) :
  (1 <= num_replicas)%Z -> (forall y, In y factors -> 0 <= y) ->
  ffd_min_factor num_replicas factors = Some mf -> (0 <= mf)%Z.
Proof.
  intros R H. unfold ffd_min_factor.
  destruct (min_list factors) as [m|] eqn:E; [|discriminate]. cbn [bind]. cbv zeta.
  pose proof (min_list_lower 0 factors m H E) as M.
  apply Qceiling_resp_le in M. change (Qceiling 0) with 0%Z in M.
  intro X. inversion X. destruct (num_replicas <=? Qceiling m)%Z; lia.
Qed.

Lemma share_of_several_covers_one (x v : Q) (k : Z) :
  0 < x -> (1 <= k)%Z -> x * inject_Z k < v -> x < v.
Proof.
  intros X K H. assert (1 <= inject_Z k) as K' by (rewrite Zle_Qle in K; exact K). nra.
Qed.

Section CountsWithRoom.

Variables (cpu_req mem_req : Q) (free_cpu free_mem : list Q) (min_factor : Z).
Hypothesis cpu_req_pos : 0 < cpu_req.
Hypothesis mem_req_pos : 0 < mem_req.
Hypothesis min_factor_nonneg : (0 <= min_factor)%Z.

Lemma counts_with_room_add_one (d : list Z) (n : nat) :
  counts_with_room cpu_req mem_req free_cpu free_mem d ->
  cpu_req < get n free_cpu -> mem_req < get n free_mem ->
  counts_with_room cpu_req mem_req free_cpu free_mem (upd n (geti n d + 1)%Z d).
Proof.
  intros H C M c. destruct (H c) as [P R]. destruct (H n) as [Pn _].
  destruct (geti_upd_cases n c (geti n d + 1) d) as [[<- ->]| ->].
  - split; [lia | intros _; split; assumption].
  - split; assumption.
Qed.

Lemma counts_with_room_add_factor (d : list Z) (n : nat) :
  counts_with_room cpu_req mem_req free_cpu free_mem d ->
  ((1 <= min_factor)%Z -> cpu_req < get n free_cpu /\ mem_req < get n free_mem) ->
  counts_with_room cpu_req mem_req free_cpu free_mem (upd n (geti n d + min_factor)%Z d).
Proof.
  intros H F c. destruct (H c) as [P R]. destruct (H n) as [Pn Rn].
  destruct (geti_upd_cases n c (geti n d + min_factor) d) as [[<- ->]| ->].
  - split; [lia|]. intro G.
    destruct (Z.eq_dec min_factor 0) as [E|E]; [apply Rn; lia | apply F; lia].
  - split; assumption.
Qed.

Lemma ffd_ranked_step_room (st : list Z * Z) (n : nat) :
  counts_with_room cpu_req mem_req free_cpu free_mem (fst st) ->
  counts_with_room cpu_req mem_req free_cpu free_mem
    (fst (ffd_ranked_step cpu_req mem_req min_factor free_cpu free_mem st n)).
Proof.
  destruct st as [d r]. cbn [fst]. intros H. unfold ffd_ranked_step. cbv zeta.
  destruct (r =? 0)%Z; [exact H|].
  destruct (_ && _ && (Qlt_bool _ _ && Qlt_bool _ _)) eqn:B1; cbn [fst].
  - apply andb_prop in B1 as [_ B]. apply andb_prop in B as [C M].
    apply Qlt_bool_iff in C, M.
    apply counts_with_room_add_factor; [exact H|]. intro K. split.
    + exact (share_of_several_covers_one _ _ _ cpu_req_pos K C).
    + exact (share_of_several_covers_one _ _ _ mem_req_pos K M).
  - clear B1.
    destruct (_ && (Qlt_bool _ _ && Qlt_bool _ _)) eqn:B2; cbn [fst]; [|exact H].
    apply andb_prop in B2 as [_ B]. apply andb_prop in B as [C M].
    apply Qlt_bool_iff in C, M.
    apply counts_with_room_add_one; assumption.
Qed.

Lemma ffi_ranked_step_room (st : list Z * Z) (n : nat) :
  counts_with_room cpu_req mem_req free_cpu free_mem (fst st) ->
  counts_with_room cpu_req mem_req free_cpu free_mem
    (fst (ffi_ranked_step cpu_req mem_req min_factor free_cpu free_mem st n)).
Proof.
  destruct st as [d r]. cbn [fst]. intros H. unfold ffi_ranked_step.
  destruct (r =? 0)%Z; [exact H|].
  destruct (_ && _ && Qlt_bool _ _ && Qlt_bool _ _) eqn:B1; cbn [fst]; [|exact H].
  apply andb_prop in B1 as [B M]. apply andb_prop in B as [_ C].
  apply Qlt_bool_iff in C, M.
  apply counts_with_room_add_factor; [exact H|]. intros _. split; assumption.
Qed.

Lemma ffd_remaining_step_room (st : list Z * Z) (n : nat) :
  counts_with_room cpu_req mem_req free_cpu free_mem (fst st) ->
  counts_with_room cpu_req mem_req free_cpu free_mem
    (fst (ffd_remaining_step cpu_req mem_req free_cpu free_mem st n)).
Proof.
  destruct st as [d r]. cbn [fst]. intros H. unfold ffd_remaining_step.
  destruct (r =? 0)%Z; [exact H|].
  destruct (Qlt_bool _ _ && Qlt_bool _ _) eqn:B; cbn [fst]; [|exact H].
  apply andb_prop in B as [C M]. apply Qlt_bool_iff in C, M.
  apply counts_with_room_add_one; assumption.
Qed.

Lemma fold_room (f : list Z * Z -> nat -> list Z * Z) (l : list nat) (st : list Z * Z) :
  (forall st n, counts_with_room cpu_req mem_req free_cpu free_mem (fst st) ->
                counts_with_room cpu_req mem_req free_cpu free_mem (fst (f st n))) ->
  counts_with_room cpu_req mem_req free_cpu free_mem (fst st) ->
  counts_with_room cpu_req mem_req free_cpu free_mem (fst (fold_left f l st)).
Proof.
  intro F. revert st. induction l as [|n t IH]; intros st H; [exact H|].
  cbn [fold_left]. apply IH, F, H.
Qed.

Lemma no_counts_with_room (num : nat) :
  counts_with_room cpu_req mem_req free_cpu free_mem (repeat 0%Z num).
Proof.
  intro c.
  assert (geti c (repeat 0%Z num) = 0%Z) as ->.
  { unfold geti. destruct (Nat.lt_ge_cases c num);
      [rewrite nth_repeat | rewrite nth_overflow by (rewrite repeat_length; lia)];
      reflexivity. }
  split; lia.
Qed.

Lemma ffd_distribute_room (order : list nat) (num_replicas : Z) (num : nat) :
  counts_with_room cpu_req mem_req free_cpu free_mem
    (ffd_distribute order num_replicas cpu_req mem_req num free_cpu free_mem min_factor).
Proof.
  unfold ffd_distribute. cbv zeta.
  pose proof (fold_room (ffd_ranked_step cpu_req mem_req min_factor free_cpu free_mem)
                order (repeat 0%Z num, num_replicas) ffd_ranked_step_room
                (no_counts_with_room num)) as H1.
  destruct (fold_left _ order _) as [d r]. cbn [fst] in H1.
  destruct (r =? 0)%Z; [exact H1|].
  apply (fold_room (ffd_remaining_step cpu_req mem_req free_cpu free_mem)
           (seq 0 num) (d, r) ffd_remaining_step_room H1).
Qed.

End CountsWithRoom.

Lemma split_factors_nonneg (cpu_req mem_req : Q) (num : nat)
    (free_cpu free_mem split0 : list Q) (y : Q) :
  0 < cpu_req -> 0 < mem_req -> List.length split0 = num ->
  (forall c, (c < num)%nat -> 0 <= get c free_cpu /\ 0 <= get c free_mem) ->
  In y (split_factors cpu_req mem_req num free_cpu free_mem split0) -> 0 <= y.
Proof.
  intros C M L F H. apply (In_nth _ _ 0) in H as (j & Hj & <-).
  rewrite split_factors_length, L in Hj. unfold split_factors.
  rewrite (fold_upd_seq
             (fun n => Qmin (get n free_cpu / cpu_req) (get n free_mem / mem_req)))
    by lia.
  destruct (F j Hj). apply share_factor_nonneg; assumption.
Qed.

Lemma ffi_ranked_step_invariant (cpu_req mem_req : Q) (free_cpu free_mem : list Q)
    (num : nat) (total min_factor : Z) (st : list Z * Z) (n : nat) :
  (n < num)%nat -> ffd_invariant num total st ->
  ffd_invariant num total
    (ffi_ranked_step cpu_req mem_req min_factor free_cpu free_mem st n).
Proof.
  intros Hn (L & P & S). destruct st as [d r]. cbn [fst snd] in *.
  unfold ffi_ranked_step.
  destruct (r =? 0)%Z; [repeat split; assumption|].
  destruct ((0 <? r)%Z && (min_factor <? r)%Z && _ && _) eqn:E1;
    [|repeat split; assumption].
  apply andb_prop in E1 as [E1 _]. apply andb_prop in E1 as [E1 _].
  apply andb_prop in E1 as [_ E1]. apply Z.ltb_lt in E1.
  unfold ffd_invariant. cbn [fst snd].
  rewrite upd_length, Zsum_upd by lia. repeat split; lia.
Qed.

(** X12: on a fleet whose clusters have no negative free resource, the
    first-fit-decreasing split of a request with positive demands returns a
    distribution whose counts are never negative, and only clusters with
    strictly more free CPU and memory than one replica needs receive
    replicas. *)
Theorem first_fit_decreasing_places_with_room (num_replicas : Z) (cpu_req mem_req : Q)
    (num : nat) (free_cpu free_mem split0 : list Q) :
  0 < cpu_req -> 0 < mem_req -> (1 <= num_replicas)%Z ->
  num <> 0%nat -> List.length split0 = num ->
  (forall c, (c < num)%nat -> 0 <= get c free_cpu /\ 0 <= get c free_mem) ->
  exists dist factors,
    first_fit_decreasing_heuristic num_replicas cpu_req mem_req num
      free_cpu free_mem split0 = Some (dist, factors)
    /\ counts_with_room cpu_req mem_req free_cpu free_mem dist.
Proof.
  intros C M R N L F.
  assert (split0 <> []) as NE by (destruct split0; [simpl in L; lia | discriminate]).
  destruct (first_fit_decreasing_returns num_replicas cpu_req mem_req num
              free_cpu free_mem split0 NE) as [[dist factors] E].
  exists dist, factors. split; [exact E|].
  unfold first_fit_decreasing_heuristic in E. cbv zeta in E.
  destruct (ffd_min_factor _ _) as [mf|] eqn:Emf; [|discriminate].
  cbn [bind] in E. inversion E; subst dist factors.
  apply ffd_distribute_room; try assumption.
  apply (ffd_min_factor_nonneg num_replicas
           (split_factors cpu_req mem_req num free_cpu free_mem split0) mf R);
    [|exact Emf].
  intros y Hy.
  exact (split_factors_nonneg cpu_req mem_req num free_cpu free_mem split0 y C M L F Hy).
Qed.

(** X13: for a request with positive demands, the first-fit-increasing
    split raises exactly when it is asked to place on no cluster at all (the
    minimum of an empty list of split factors); with at least one cluster it
    always returns a distribution. *)
Theorem first_fit_increasing_raises_iff_no_cluster (num_replicas : Z) (cpu_req mem_req : Q)
    (num : nat) (free_cpu free_mem : list Q) :
  0 < cpu_req -> 0 < mem_req ->
  (first_fit_increasing_heuristic num_replicas cpu_req mem_req num free_cpu free_mem = None
   <-> num = 0%nat).
Proof.
  intros _ _. unfold first_fit_increasing_heuristic, ffd_min_factor. cbv zeta.
  destruct num as [|k].
  - split; reflexivity.
  - split; [|discriminate]. rewrite <- cons_seq. cbn [map min_list bind].
    destruct (fold_left _ _ _) as [d r]. destruct (0 <? r)%Z; discriminate.
Qed.

(** X14: with at least one cluster, the first-fit-increasing split of a
    non-negative number of replicas with positive demands returns one count
    per cluster and never places more replicas than it was asked to. *)
Theorem first_fit_increasing_never_overplaces (num_replicas : Z) (cpu_req mem_req : Q)
    (num : nat) (free_cpu free_mem : list Q) :
  0 < cpu_req -> 0 < mem_req -> (0 <= num_replicas)%Z -> num <> 0%nat ->
  exists dist,
    first_fit_increasing_heuristic num_replicas cpu_req mem_req num free_cpu free_mem
    = Some dist
    /\ List.length dist = num /\ (Zsum dist <= num_replicas)%Z.
Proof.
  intros _ _ R N. unfold first_fit_increasing_heuristic. cbv zeta.
  destruct (ffd_min_factor _ _) as [mf|] eqn:Emf.
  2:{ unfold ffd_min_factor in Emf. destruct num as [|k]; [congruence|].
      rewrite <- cons_seq in Emf. discriminate Emf. }
  cbn [bind].
  assert (ffd_invariant num num_replicas (repeat 0%Z num, num_replicas)) as I0.
  { unfold ffd_invariant. cbn [fst snd]. rewrite repeat_length, Zsum_repeat_zero.
    repeat split; lia. }
  assert (Forall (fun n => (n < num)%nat)
            (sorted_by (fun x => get x free_cpu) (seq 0 num))) as Fo.
  { apply Forall_forall. intros n H. apply sorted_by_In, in_seq in H. lia. }
  pose proof (fold_invariant (ffd_invariant num num_replicas)
                (ffi_ranked_step cpu_req mem_req mf free_cpu free_mem) num _ _
                (fun x n Hn => ffi_ranked_step_invariant cpu_req mem_req free_cpu free_mem
                                 num num_replicas mf x n Hn) Fo I0) as I1.
  destruct (fold_left _ (sorted_by _ _) _) as [d r].
  destruct (0 <? r)%Z.
  - pose proof (fold_invariant (ffd_invariant num num_replicas)
                  (ffd_remaining_step cpu_req mem_req free_cpu free_mem) num _ _
                  (fun x n Hn => ffd_remaining_step_invariant cpu_req mem_req free_cpu
                                   free_mem num num_replicas x n Hn)
                  (seq_below num) I1) as (L & P & S).
    eexists. split; [reflexivity|]. split; [exact L | lia].
  - destruct I1 as (L & P & S). cbn [fst snd] in *.
    eexists. split; [reflexivity|]. split; [exact L | lia].
Qed.

(** X15: on a fleet whose clusters have no negative free resource, the
    first-fit-increasing split of a request with positive demands gives
    replicas only to clusters with strictly more free CPU and memory than
    one replica needs, and no count is negative. *)
Theorem first_fit_increasing_places_with_room (num_replicas : Z) (cpu_req mem_req : Q)
    (num : nat) (free_cpu free_mem : list Q) (dist : list Z) :
  0 < cpu_req -> 0 < mem_req -> (1 <= num_replicas)%Z ->
  (forall c, (c < num)%nat -> 0 <= get c free_cpu /\ 0 <= get c free_mem) ->
  first_fit_increasing_heuristic num_replicas cpu_req mem_req num free_cpu free_mem
  = Some dist ->
  counts_with_room cpu_req mem_req free_cpu free_mem dist.
Proof.
  intros C M R F. unfold first_fit_increasing_heuristic. cbv zeta.
  destruct (ffd_min_factor _ _) as [mf|] eqn:Emf; [|discriminate]. cbn [bind].
  assert (0 <= mf)%Z as Mf.
  { refine (ffd_min_factor_nonneg num_replicas _ mf R _ Emf).
    intros y Hy. apply in_map_iff in Hy as (n & <- & Hn). apply in_seq in Hn.
    destruct (F n) as [? ?]; [lia|]. apply share_factor_nonneg; assumption. }
  pose proof (fold_room cpu_req mem_req free_cpu free_mem
                (ffi_ranked_step cpu_req mem_req mf free_cpu free_mem)
                (sorted_by (fun x => get x free_cpu) (seq 0 num))
                (repeat 0%Z num, num_replicas)
                (ffi_ranked_step_room cpu_req mem_req free_cpu free_mem mf Mf)
                (no_counts_with_room cpu_req mem_req free_cpu free_mem num)) as H1.
  destruct (fold_left _ (sorted_by _ _) _) as [d r]. cbn [fst] in H1.
  destruct (0 <? r)%Z; intro E; inversion E; subst dist; [|exact H1].
  apply (fold_room cpu_req mem_req free_cpu free_mem
           (ffd_remaining_step cpu_req mem_req free_cpu free_mem)
           (seq 0 num) (d, r)
           (ffd_remaining_step_room cpu_req mem_req free_cpu free_mem) H1).
Qed.

(** ** Actions and the ledger *)

Lemma fold_bump_length (k : nat -> Q) (l : list nat) (a : list Q) :
  List.length (fold_left (bump k) l a) = List.length a.
Proof.
  revert a; induction l as [|d t IH]; intro a; [reflexivity|].
  cbn [fold_left]. rewrite IH. apply upd_length.
Qed.

Lemma fold_bump_outside (k : nat -> Q) (l : list nat) (a : list Q) (c : nat) :
  ~ In c l -> get c (fold_left (bump k) l a) = get c a.
Proof.
  revert a; induction l as [|d t IH]; intros a H; [reflexivity|].
  cbn [fold_left]. rewrite IH by (intro X; apply H; right; exact X).
  apply get_upd_other. intro E. apply H. left. exact E.
Qed.

Lemma fold_bump_inside (k : nat -> Q) (l : list nat) (a : list Q) (c : nat) :
  NoDup l -> In c l -> (c < List.length a)%nat ->
  get c (fold_left (bump k) l a) = get c a + k c.
Proof.
  revert a; induction l as [|d t IH]; intros a N I L; [contradiction|].
  inversion N as [|? ? Nd Nt]; subst. cbn [fold_left]. destruct I as [->|I].
  - rewrite fold_bump_outside by exact Nd. apply get_upd_same. exact L.
  - rewrite IH; [|exact Nt|exact I|unfold bump; rewrite upd_length; exact L].
    unfold bump. rewrite get_upd_other; [reflexivity|]. intros ->. contradiction.
Qed.

Lemma commit_split_step_ledger (div : list Z) (st : Env * (Q * Q * Q)) (d : nat) :
  let s := fst st in
  let s' := fst (commit_split_step div st d) in
  allocated_cpu s'
  = bump (fun d => cpu_request (deployment_request s) * inject_Z (geti d div))
         (allocated_cpu s) d
  /\ allocated_memory s'
     = bump (fun d => memory_request (deployment_request s) * inject_Z (geti d div))
            (allocated_memory s) d
  /\ cpu_capacity s' = cpu_capacity s
  /\ memory_capacity s' = memory_capacity s
  /\ deployment_request s' = deployment_request s.
Proof. destruct st as [s [[a b] c]]. repeat split. Qed.

Lemma commit_split_fold_ledger (div : list Z) (l : list nat) (st : Env * (Q * Q * Q)) :
  let s := fst st in
  let s' := fst (fold_left (commit_split_step div) l st) in
  allocated_cpu s'
  = fold_left (bump (fun d => cpu_request (deployment_request s) * inject_Z (geti d div)))
              l (allocated_cpu s)
  /\ allocated_memory s'
     = fold_left (bump (fun d => memory_request (deployment_request s)
                                 * inject_Z (geti d div)))
                 l (allocated_memory s)
  /\ cpu_capacity s' = cpu_capacity s
  /\ memory_capacity s' = memory_capacity s.
Proof.
  cbv zeta. revert st; induction l as [|d t IH]; intro st; [repeat split|].
  cbn [fold_left].
  destruct (commit_split_step_ledger div st d) as (A & B & C & D & E). cbv zeta in *.
  destruct (IH (commit_split_step div st d)) as (A' & B' & C' & D').
  rewrite A', B', C', D', E, A, B, C, D. repeat split.
Qed.

Lemma place_split_ledger (count : Env -> Env) (div : list Z) (s : Env) :
  (forall e, same_ledger (count e) e) ->
  let s' := place_split count div s in
  allocated_cpu s'
  = fold_left (bump (fun d => cpu_request (deployment_request s) * inject_Z (geti d div)))
              (seq 0 (List.length div)) (allocated_cpu s)
  /\ allocated_memory s'
     = fold_left (bump (fun d => memory_request (deployment_request s)
                                 * inject_Z (geti d div)))
                 (seq 0 (List.length div)) (allocated_memory s)
  /\ cpu_capacity s' = cpu_capacity s
  /\ memory_capacity s' = memory_capacity s.
Proof.
  intro H. cbv zeta. rewrite place_split_unfold.
  pose proof (commit_split_fold_ledger div (seq 0 (List.length div))
                (split_prologue count div s, (0, 0, 0))) as F.
  cbv zeta in F. cbn [fst] in F.
  destruct (fold_left _ _ _) as [e [[a b] c]]. cbn [fst] in F.
  destruct F as (A & B & C & D).
  unfold split_prologue in A, B, C, D. cbv zeta in A, B, C, D.
  destruct (H (set_ep_accepted_requests
                 (ep_accepted_requests
                    (set_accepted_requests
                       (accepted_requests (set_penalty false s) + 1)
                       (set_penalty false s)) + 1)
                 (set_accepted_requests (accepted_requests (set_penalty false s) + 1)
                    (set_penalty false s))))
    as (_ & AC & AM & CC & MC & DR).
  simpl in A, B, C, D, AC, AM, CC, MC, DR.
  rewrite AC, DR in A. rewrite AM, DR in B. rewrite CC in C. rewrite MC in D.
  simpl. repeat split; assumption.
Qed.

Lemma fold_fst_length (f : list Z * Z -> nat -> list Z * Z) (num : nat)
    (l : list nat) (st : list Z * Z) :
  (forall st n, List.length (fst st) = num -> List.length (fst (f st n)) = num) ->
  List.length (fst st) = num -> List.length (fst (fold_left f l st)) = num.
Proof.
  intro F. revert st. induction l as [|n t IH]; intros st H; [exact H|].
  cbn [fold_left]. apply IH, F, H.
Qed.

Lemma ffd_ranked_step_length (cpu_req mem_req : Q) (min_factor : Z)
    (free_cpu free_mem : list Q) (num : nat) (st : list Z * Z) (n : nat) :
  List.length (fst st) = num ->
  List.length (fst (ffd_ranked_step cpu_req mem_req min_factor free_cpu free_mem st n))
  = num.
Proof.
  destruct st as [d r]. cbn [fst]. intro H. unfold ffd_ranked_step. cbv zeta.
  destruct (r =? 0)%Z; [exact H|].
  destruct (_ && _ && _); cbn [fst]; [rewrite upd_length; exact H|].
  destruct (_ && _); cbn [fst]; [rewrite upd_length|]; exact H.
Qed.

Lemma ffd_remaining_step_length (cpu_req mem_req : Q) (free_cpu free_mem : list Q)
    (num : nat) (st : list Z * Z) (n : nat) :
  List.length (fst st) = num ->
  List.length (fst (ffd_remaining_step cpu_req mem_req free_cpu free_mem st n)) = num.
Proof.
  destruct st as [d r]. cbn [fst]. intro H. unfold ffd_remaining_step.
  destruct (r =? 0)%Z; [exact H|].
  destruct (_ && _); cbn [fst]; [rewrite upd_length|]; exact H.
Qed.

Lemma ffd_distribute_length (order : list nat) (num_replicas : Z) (cpu_req mem_req : Q)
    (num : nat) (free_cpu free_mem : list Q) (min_factor : Z) :
  List.length (ffd_distribute order num_replicas cpu_req mem_req num
                 free_cpu free_mem min_factor) = num.
Proof.
  unfold ffd_distribute. cbv zeta.
  pose proof (fold_fst_length
                (ffd_ranked_step cpu_req mem_req min_factor free_cpu free_mem) num order
                (repeat 0%Z num, num_replicas)
                (ffd_ranked_step_length cpu_req mem_req min_factor free_cpu free_mem num)
                (repeat_length _ _)) as H1.
  destruct (fold_left _ order _) as [d r]. cbn [fst] in H1.
  destruct (r =? 0)%Z; [exact H1|].
  apply (fold_fst_length (ffd_remaining_step cpu_req mem_req free_cpu free_mem) num
           (seq 0 num) (d, r)
           (ffd_remaining_step_length cpu_req mem_req free_cpu free_mem num) H1).
Qed.

Lemma first_fit_decreasing_length (num_replicas : Z) (cpu_req mem_req : Q) (num : nat)
    (free_cpu free_mem split0 : list Q) (res : list Z * list Q) :
  first_fit_decreasing_heuristic num_replicas cpu_req mem_req num free_cpu free_mem split0
  = Some res ->
  List.length (fst res) = num.
Proof.
  unfold first_fit_decreasing_heuristic. cbv zeta.
  destruct (ffd_min_factor _ _) as [mf|]; [|discriminate]. cbn [bind].
  intro E. inversion E. apply ffd_distribute_length.
Qed.

Lemma best_fit_length (num_replicas : Z) (cpu_req mem_req : Q) (num : nat)
    (free_cpu free_mem : list Q) :
  List.length (fst (fst (best_fit_heuristic_one_by_one num_replicas cpu_req mem_req num
                           free_cpu free_mem))) = num.
Proof.
  unfold best_fit_heuristic_one_by_one.
  exact (proj1 (best_fit_sum_le cpu_req mem_req num free_cpu free_mem
                  (Z.to_nat num_replicas))).
Qed.

Lemma split_check_passed (s : Env) (div : list Z) (d : nat) :
  check_if_clusters_are_full_after_split_deployment s div = false ->
  (d < List.length div)%nat ->
  get d (allocated_cpu s) + cpu_request (deployment_request s) * inject_Z (geti d div)
    <= FULL_THRESHOLD * get d (cpu_capacity s)
  /\ get d (allocated_memory s)
     + memory_request (deployment_request s) * inject_Z (geti d div)
     <= FULL_THRESHOLD * get d (memory_capacity s).
Proof.
  unfold check_if_clusters_are_full_after_split_deployment. intros E L.
  assert (split_cluster_is_full s div d = false) as F.
  { destruct (split_cluster_is_full s div d) eqn:X; [|reflexivity].
    rewrite <- E. symmetry. apply existsb_exists. exists d. split; [|exact X].
    apply in_seq. lia. }
  unfold split_cluster_is_full in F. cbv zeta in F.
  apply orb_false_iff in F as [A B]. apply Qlt_bool_false_iff in A, B. split; assumption.
Qed.

(** What an accepted split leaves behind on cluster [c]. *)
Lemma place_split_within_threshold (count : Env -> Env) (div : list Z) (s : Env) (c : nat) :
  (forall e, same_ledger (count e) e) ->
  check_if_clusters_are_full_after_split_deployment s div = false ->
  (c < List.length div)%nat ->
  (c < List.length (allocated_cpu s))%nat ->
  (c < List.length (allocated_memory s))%nat ->
  within_threshold (place_split count div s) c.
Proof.
  intros H E Ld Lc Lm.
  destruct (place_split_ledger count div s H) as (A & B & C & D). cbv zeta in *.
  destruct (split_check_passed s div c E Ld) as [P1 P2].
  unfold within_threshold. rewrite A, B, C, D.
  rewrite !fold_bump_inside; try assumption; try apply seq_NoDup; try (apply in_seq; lia).
  split; assumption.
Qed.

Lemma place_all_ledger (k : nat) (s : Env) :
  let r := deployment_request s in
  allocated_cpu (place_all k s)
  = upd k (get k (allocated_cpu s) + cpu_request r * inject_Z (num_replicas r))
        (allocated_cpu s)
  /\ allocated_memory (place_all k s)
     = upd k (get k (allocated_memory s) + memory_request r * inject_Z (num_replicas r))
           (allocated_memory s)
  /\ cpu_capacity (place_all k s) = cpu_capacity s
  /\ memory_capacity (place_all k s) = memory_capacity s.
Proof. repeat split. Qed.

(** X16: no action drives a cluster past the fullness threshold: after
    [take_action], the capacities are what they were, and every cluster
    either has the allocation it had before or is allocated to at most 95%
    of its CPU and memory capacity. *)
Theorem take_action_never_overfills (a : nat) (s s1 : Env) (c : nat) :
  ledger_shape s -> (c < num_clusters s)%nat ->
  take_action a s = Some s1 ->
  cpu_capacity s1 = cpu_capacity s
  /\ memory_capacity s1 = memory_capacity s
  /\ (allocation_kept s s1 c \/ within_threshold s1 c).
Proof.
  intros (L1 & L2 & L3 & L4 & L5 & L6 & L7) Hc E.
  pose (Q := fun e : Env =>
               cpu_capacity e = cpu_capacity s /\ memory_capacity e = memory_capacity s
               /\ (allocation_kept s e c \/ within_threshold e c)).
  assert (G : match take_action a s with Some e => Q e | None => True end);
    [|rewrite E in G; exact G].
  clear E. enter_take_action s s0.
  assert (L0 : same_ledger s0 s) by (entry_fact s0; repeat split).
  destruct L0 as (N & AC & AM & CC & MC & D).
  clearbody s0.
  assert (KEPT : forall e, same_ledger e s0 ->
            match Some e with Some x => Q x | None => True end).
  { intros e (N' & AC' & AM' & CC' & MC' & D'). unfold Q.
    split; [congruence|]. split; [congruence|]. left. unfold allocation_kept.
    split; congruence. }
  assert (SPLIT : forall count div e,
            (forall x, same_ledger (count x) x) ->
            same_ledger e s0 -> List.length div = num_clusters s0 ->
            check_if_clusters_are_full_after_split_deployment e div = false ->
            match Some (place_split count div e) with Some x => Q x | None => True end).
  { intros count div e CL (N' & AC' & AM' & CC' & MC' & D') Ld CK. unfold Q.
    destruct (place_split_ledger count div e CL) as (_ & _ & C1 & C2). cbv zeta in C1, C2.
    split; [congruence|]. split; [congruence|]. right.
    apply place_split_within_threshold; try assumption; congruence. }
  destruct (a <? num_clusters s0)%nat eqn:Ea.
  { destruct (check_if_cluster_is_full_after_full_deployment s0 a) eqn:Ck.
    - apply KEPT. repeat split.
    - destruct (place_all_ledger a s0) as (A & B & C1 & C2). cbv zeta in A, B.
      unfold Q.
      split; [rewrite C1; exact CC|]. split; [rewrite C2; exact MC|].
      apply check_full_iff in Ck. destruct Ck as [K1 K2].
      apply Nat.ltb_lt in Ea.
      destruct (Nat.eq_dec a c) as [Eq|Ne].
      + right. subst a. unfold within_threshold. rewrite A, B, C1, C2.
        rewrite !get_upd_same by (rewrite ?AC, ?AM, ?L3, ?L4; exact Hc).
        rewrite (Qmult_comm (cpu_request _)), (Qmult_comm (memory_request _)).
        split; assumption.
      + left. unfold allocation_kept. rewrite A, B, <- AC, <- AM.
        rewrite !get_upd_other by exact Ne. split; reflexivity. }
  destruct (a =? num_clusters s0 + FFD)%nat.
  { destruct (num_replicas (deployment_request s0) =? 1)%Z.
    - apply KEPT. repeat split.
    - destruct (first_fit_decreasing_heuristic _ _ _ _ _ _ _) as [res|] eqn:Er;
        [|exact I].
      cbn [bind]. apply first_fit_decreasing_length in Er.
      destruct (check_if_clusters_are_full_after_split_deployment _ _) eqn:Ck.
      + apply KEPT. repeat split.
      + apply SPLIT; try assumption; repeat split. }
  destruct (a =? num_clusters s0 + FFI)%nat.
  { destruct (num_replicas (deployment_request s0) =? 1)%Z.
    - apply KEPT. repeat split.
    - destruct (first_fit_decreasing_heuristic _ _ _ _ _ _ _) as [res|] eqn:Er;
        [|exact I].
      cbn [bind]. apply first_fit_decreasing_length in Er.
      destruct (check_if_clusters_are_full_after_split_deployment _ _) eqn:Ck.
      + apply KEPT. repeat split.
      + apply SPLIT; try assumption; repeat split. }
  destruct (a =? num_clusters s0 + BF1B1)%nat.
  { destruct (num_replicas (deployment_request s0) =? 1)%Z.
    - apply KEPT. repeat split.
    - pose proof (best_fit_length (num_replicas (deployment_request s0))
                    (cpu_request (deployment_request s0))
                    (memory_request (deployment_request s0)) (num_clusters s0)
                    (free_cpu s0) (free_memory s0)) as Lb.
      destruct (best_fit_heuristic_one_by_one _ _ _ _ _ _) as [[div fc] fm].
      cbn [fst] in Lb.
      destruct (check_if_clusters_are_full_after_split_deployment _ _) eqn:Ck.
      + apply KEPT. repeat split.
      + apply SPLIT; try assumption; repeat split. }
  destruct (a =? num_clusters s0 + NUM_SPREADING_ACTIONS)%nat.
  { apply KEPT. repeat split. }
  apply KEPT. repeat split.
Qed.
(** ** Actions and the timeline *)

Lemma heappush_In (item y : Q * DeploymentRequest) (h : list (Q * DeploymentRequest)) :
  In y (heappush item h) <-> y = item \/ In y h.
Proof.
  induction h as [|x t IH]; simpl.
  - split; intros [H|H]; auto; contradiction.
  - destruct (Qlt_bool (fst item) (fst x)); simpl; [intuition auto|].
    rewrite IH. intuition auto.
Qed.

Lemma heappush_length (item : Q * DeploymentRequest) (h : list (Q * DeploymentRequest)) :
  List.length (heappush item h) = S (List.length h).
Proof.
  induction h as [|x t IH]; simpl; [reflexivity|].
  destruct (Qlt_bool (fst item) (fst x)); simpl; [reflexivity | rewrite IH; reflexivity].
Qed.

Lemma heappush_sorted (item : Q * DeploymentRequest) (h : list (Q * DeploymentRequest)) :
  timeline_sorted h -> timeline_sorted (heappush item h).
Proof.
  induction h as [|x t IH]; intro S.
  - simpl. split; [intros y []| exact I].
  - destruct S as [Hx St]. simpl heappush.
    destruct (Qlt_bool (fst item) (fst x)) eqn:E.
    + apply Qlt_bool_iff in E. split; [|split; assumption].
      intros y [<-|Hy]; [apply Qlt_le_weak; exact E|].
      apply Qle_trans with (fst x); [apply Qlt_le_weak; exact E | apply Hx; exact Hy].
    + apply Qlt_bool_false_iff in E. split; [|apply IH; exact St].
      intros y Hy. apply heappush_In in Hy as [->|Hy]; [exact E | apply Hx; exact Hy].
Qed.

Lemma place_all_timeline (k : nat) (s : Env) :
  running_requests (place_all k s)
  = heappush (departure_time (deployment_request s), deployment_request (place_all k s))
             (running_requests s).
Proof.
  destruct s.
  cbv -[heappush increase_latency get upd Qplus Qmult Qdiv Qminus inject_Z nth ct_cost
        cluster_type_of].
  reflexivity.
Qed.

Lemma place_split_timeline (count : Env -> Env) (div : list Z) (s : Env) :
  (forall e, running_requests (count e) = running_requests e) ->
  (forall e, deployment_request (count e) = deployment_request e) ->
  running_requests (place_split count div s)
  = heappush (departure_time (deployment_request s),
              deployment_request (place_split count div s))
             (running_requests s).
Proof.
  intros CR CD. rewrite place_split_unfold.
  pose proof (commit_split_fold_frame div (seq 0 (List.length div))
                (split_prologue count div s, (0, 0, 0))) as F.
  cbv zeta in F. cbn [fst] in F.
  destruct (fold_left _ _ _) as [e [[a b] c]]. cbn [fst] in F.
  destruct F as (_ & _ & D & R).
  unfold split_prologue in D, R. cbv zeta in D, R.
  cbn [running_requests set_deployment_request deployment_request] in D, R.
  rewrite CR in R. rewrite CD in D. simpl in D, R.
  unfold split_epilogue, enqueue_request. cbv zeta. simpl. rewrite R, D. reflexivity.
Qed.

Lemma take_action_timeline (a : nat) (s : Env) :
  match take_action a s with
  | Some s1 =>
      (penalty s1 = true /\ running_requests s1 = running_requests s)
      \/ (penalty s1 = false
          /\ running_requests s1
             = heappush (departure_time (deployment_request s), deployment_request s1)
                        (running_requests s))
      \/ ((num_clusters s + NUM_SPREADING_ACTIONS < a)%nat
          /\ running_requests s1 = running_requests s)
  | None => True
  end.
Proof.
  pose (Q := fun e : Env =>
     (penalty e = true /\ running_requests e = running_requests s)
     \/ (penalty e = false
         /\ running_requests e
            = heappush (departure_time (deployment_request s), deployment_request e)
                       (running_requests s))
     \/ ((num_clusters s + NUM_SPREADING_ACTIONS < a)%nat
         /\ running_requests e = running_requests s)).
  assert (G : match take_action a s with Some e => Q e | None => True end);
    [|exact G].
  enter_take_action s s0.
  assert (R0 : running_requests s0 = running_requests s) by (entry_fact s0; reflexivity).
  assert (D0 : deployment_request s0 = deployment_request s)
    by (entry_fact s0; reflexivity).
  assert (N0 : num_clusters s0 = num_clusters s) by (entry_fact s0; reflexivity).
  clearbody s0.
  assert (BLOCK : forall e, running_requests e = running_requests s0 ->
            match Some (set_penalty true e) with Some x => Q x | None => True end).
  { intros e R. left. split; [reflexivity | rewrite <- R0; exact R]. }
  assert (ACCEPT : forall count div e,
            (forall x, penalty (count x) = penalty x) ->
            (forall x, reward_function (count x) = reward_function x) ->
            (forall x, running_requests (count x) = running_requests x) ->
            (forall x, deployment_request (count x) = deployment_request x) ->
            running_requests e = running_requests s0 ->
            deployment_request e = deployment_request s0 ->
            match Some (place_split count div e) with Some x => Q x | None => True end).
  { intros count div e CP CF CR CD R D. right. left.
    split; [apply place_split_frame; assumption|].
    rewrite place_split_timeline by assumption. rewrite R, D, R0, D0. reflexivity. }
  destruct (a <? num_clusters s0)%nat eqn:Ea.
  { destruct (check_if_cluster_is_full_after_full_deployment s0 a).
    - apply BLOCK. reflexivity.
    - right. left. split; [apply place_all_penalty|].
      rewrite place_all_timeline, R0, D0. reflexivity. }
  destruct (a =? num_clusters s0 + FFD)%nat eqn:E1.
  { destruct (num_replicas (deployment_request s0) =? 1)%Z.
    - apply BLOCK. reflexivity.
    - destruct (first_fit_decreasing_heuristic _ _ _ _ _ _ _) as [res|]; [|exact I].
      cbn [bind].
      destruct (check_if_clusters_are_full_after_split_deployment _ _).
      + apply BLOCK. reflexivity.
      + apply ACCEPT; reflexivity. }
  destruct (a =? num_clusters s0 + FFI)%nat eqn:E2.
  { destruct (num_replicas (deployment_request s0) =? 1)%Z.
    - apply BLOCK. reflexivity.
    - destruct (first_fit_decreasing_heuristic _ _ _ _ _ _ _) as [res|]; [|exact I].
      cbn [bind].
      destruct (check_if_clusters_are_full_after_split_deployment _ _).
      + apply BLOCK. reflexivity.
      + apply ACCEPT; reflexivity. }
  destruct (a =? num_clusters s0 + BF1B1)%nat eqn:E3.
  { destruct (num_replicas (deployment_request s0) =? 1)%Z.
    - apply BLOCK. reflexivity.
    - destruct (best_fit_heuristic_one_by_one _ _ _ _ _ _) as [[div fc] fm].
      destruct (check_if_clusters_are_full_after_split_deployment _ _).
      + apply BLOCK. reflexivity.
      + apply ACCEPT; reflexivity. }
  destruct (a =? num_clusters s0 + NUM_SPREADING_ACTIONS)%nat eqn:E4.
  { apply BLOCK. reflexivity. }
  right. right. split; [|exact R0]. rewrite <- N0.
  apply Nat.ltb_ge in Ea. apply Nat.eqb_neq in E1, E2, E3, E4.
  unfold FFD, FFI, BF1B1, NUM_SPREADING_ACTIONS in *. lia.
Qed.

(** X17: an action in range that ends without the penalty flag has added
    exactly the pending request to the timeline, under the departure time
    the request carries; one that ends with the flag set has left the
    timeline as it was. *)
Theorem accepted_action_enqueues_pending_request (a : nat) (s s1 : Env) :
  (a <= num_clusters s + NUM_SPREADING_ACTIONS)%nat ->
  take_action a s = Some s1 ->
  running_requests s1
  = if penalty s1 then running_requests s
    else heappush (departure_time (deployment_request s), deployment_request s1)
                  (running_requests s).
Proof.
  intros Ha E. pose proof (take_action_timeline a s) as H. rewrite E in H.
  destruct H as [[P R]|[[P R]|[L _]]]; [rewrite P; exact R | rewrite P; exact R | lia].
Qed.

(** ** Departures *)

Lemma Some_eq {A : Type} (x y : A) : Some x = Some y -> x = y.
Proof. intro H. injection H. auto. Qed.

Lemma books_inv (a b : Env) :
  books a = books b ->
  num_clusters a = num_clusters b /\ episode_length a = episode_length b
  /\ reward_function a = reward_function b
  /\ deployment_request a = deployment_request b
  /\ cpu_capacity a = cpu_capacity b /\ memory_capacity a = memory_capacity b
  /\ current_step a = current_step b /\ current_time a = current_time b
  /\ offered_requests a = offered_requests b
  /\ accepted_requests a = accepted_requests b
  /\ ep_accepted_requests a = ep_accepted_requests b
  /\ avg_latency a = avg_latency b /\ avg_cost a = avg_cost b
  /\ avg_cpu_usage_percentage_cluster_selected a
     = avg_cpu_usage_percentage_cluster_selected b.
Proof. unfold books. intro H. inversion H. repeat split. Qed.

Lemma release_split_fold_books (l : list nat) (acc : option Env) (s' : Env) :
  fold_left release_split_step l acc = Some s' ->
  exists s, acc = Some s /\ books s' = books s.
Proof.
  revert acc. induction l as [|d t IH]; intros acc H.
  - exists s'. split; [exact H | reflexivity].
  - cbn [fold_left] in H. destruct (IH _ H) as (s1 & E1 & B1).
    destruct acc as [s|]; [|discriminate E1]. exists s. split; [reflexivity|].
    rewrite B1. unfold release_split_step in E1. cbn [bind] in E1.
    destruct (split_clusters (deployment_request s)) as [split|]; [|discriminate E1].
    cbn [bind] in E1. cbv zeta in E1. apply Some_eq in E1. subst s1.
    destruct (Qeq_bool _ 0); reflexivity.
Qed.

Lemma dequeue_request_books (s s' : Env) :
  dequeue_request s = Some s' -> books s' = books s.
Proof.
  unfold dequeue_request. destruct (running_requests s) as [|[t popped] rest]; [discriminate|].
  cbv zeta. destruct (is_deployment_split popped).
  - intro H. apply release_split_fold_books in H as (e & E & B).
    apply Some_eq in E. subst e. exact B.
  - destruct (deployed_cluster popped) as [n|]; [|discriminate]. cbn [bind].
    intro H. apply Some_eq in H. subst s'. reflexivity.
Qed.

Lemma drain_books (fuel : nat) (arrival_time : Q) (s s' : Env) :
  drain fuel arrival_time s = Some s' -> books s' = books s.
Proof.
  revert s. induction fuel as [|k IH]; intros s H; simpl in H.
  - apply Some_eq in H. subst s'. reflexivity.
  - destruct (running_requests s) as [|[t r] rest] eqn:R.
    + apply Some_eq in H. subst s'. reflexivity.
    + destruct (Qlt_bool t arrival_time).
      * destruct (dequeue_request s) as [s1|] eqn:D; [|discriminate H]. cbn [bind] in H.
        rewrite (IH _ H). apply dequeue_request_books. exact D.
      * apply Some_eq in H. subst s'. reflexivity.
Qed.

Lemma drain_sorted (fuel : nat) (arrival_time : Q) (s s' : Env) :
  timeline_sorted (running_requests s) ->
  drain fuel arrival_time s = Some s' -> timeline_sorted (running_requests s').
Proof.
  revert s. induction fuel as [|k IH]; intros s Srt H; simpl in H.
  - apply Some_eq in H. subst s'. exact Srt.
  - destruct (running_requests s) as [|[t r] rest] eqn:R.
    + apply Some_eq in H. subst s'. rewrite R. exact I.
    + destruct (Qlt_bool t arrival_time).
      * destruct (dequeue_request s) as [s1|] eqn:D; [|discriminate H]. cbn [bind] in H.
        apply (IH s1); [|exact H].
        destruct (dequeue_request_pops s s1 D) as [entry E].
        rewrite R in E. injection E as _ <-. exact (proj2 Srt).
      * apply Some_eq in H. subst s'. rewrite R. exact Srt.
Qed.

Lemma sorted_head_bounds_all (h : list (Q * DeploymentRequest)) (a : Q) :
  timeline_sorted h ->
  match h with
  | [] => True
  | (t, _) :: _ => ~ t < a
  end ->
  forall entry, In entry h -> a <= fst entry.
Proof.
  destruct h as [|[t r] rest]; intros Srt H entry I; [contradiction|].
  apply Qnot_lt_le in H. destruct I as [<-|I]; [exact H|].
  apply Qle_trans with t; [exact H|]. exact (proj1 Srt entry I).
Qed.

(** X18: [next_request] moves the clock forward by the drawn inter-arrival
    time and retires every request whose departure time lies before the new
    current time: on a timeline in departure order, every request still
    running afterwards departs at or after the current time. *)
Theorem next_request_clears_overdue (catalog : list DeploymentRequest)
    (dr : RequestDraws) (s s' : Env) :
  timeline_sorted (running_requests s) ->
  next_request catalog dr s = Some s' ->
  current_time s' = current_time s + exponential (1 / arrival_rate_r s) (e_arrival dr)
  /\ timeline_sorted (running_requests s')
  /\ forall entry, In entry (running_requests s') -> current_time s' <= fst entry.
Proof.
  intros Srt. unfold next_request. cbv zeta.
  destruct (draws_raise s); [discriminate|].
  set (arrival := current_time s + exponential (1 / arrival_rate_r s) (e_arrival dr)).
  set (s1 := set_current_time arrival _).
  assert (R1 : running_requests s1 = running_requests s) by reflexivity.
  assert (T1 : current_time s1 = arrival) by reflexivity.
  clearbody s1.
  destruct (drain _ arrival s1) as [s2|] eqn:Ed; [|discriminate]. cbn [bind].
  destruct (deployment_generator catalog dr s2) as [d|]; [|discriminate]. cbn [bind].
  intro E. apply Some_eq in E. subst s'.
  change (running_requests (set_deployment_request d s2)) with (running_requests s2).
  change (current_time (set_deployment_request d s2)) with (current_time s2).
  destruct (books_inv _ _ (drain_books _ _ _ _ Ed))
    as (_ & _ & _ & _ & _ & _ & _ & T & _).
  rewrite T, T1. split; [reflexivity|].
  rewrite <- R1 in Srt. pose proof (drain_sorted _ _ _ _ Srt Ed) as S2.
  split; [exact S2|].
  apply sorted_head_bounds_all; [exact S2|].
  apply (drain_settles (List.length (running_requests s1)) arrival s1 s2);
    [lia | exact Ed].
Qed.

Lemma place_all_request (k : nat) (s : Env) :
  let r := deployment_request s in
  let r1 := deployment_request (place_all k s) in
  num_replicas r1 = num_replicas r /\ cpu_request r1 = cpu_request r
  /\ memory_request r1 = memory_request r
  /\ is_deployment_split r1 = is_deployment_split r
  /\ deployed_cluster r1 = Some k
  /\ num_clusters (place_all k s) = num_clusters s.
Proof.
  destruct s.
  cbv -[heappush increase_latency get upd Qplus Qmult Qdiv Qminus inject_Z nth ct_cost
        cluster_type_of].
  repeat split.
Qed.

Lemma place_all_free (k : nat) (s : Env) :
  free_cpu (place_all k s)
  = upd k (get k (cpu_capacity s) - get k (allocated_cpu (place_all k s))) (free_cpu s)
  /\ free_memory (place_all k s)
     = upd k (get k (memory_capacity s) - get k (allocated_memory (place_all k s)))
           (free_memory s).
Proof.
  destruct s.
  cbv -[heappush increase_latency get upd Qplus Qmult Qdiv Qminus inject_Z nth ct_cost
        cluster_type_of].
  split; reflexivity.
Qed.

Lemma dequeue_request_whole (s : Env) (t : Q) (popped : DeploymentRequest)
    (rest : list (Q * DeploymentRequest)) (n : nat) :
  running_requests s = (t, popped) :: rest ->
  is_deployment_split popped = false -> deployed_cluster popped = Some n ->
  exists s', dequeue_request s = Some s'
    /\ running_requests s' = rest
    /\ allocated_cpu s'
       = upd n (get n (allocated_cpu s)
                - inject_Z (num_replicas (deployment_request s))
                  * cpu_request (deployment_request s)) (allocated_cpu s)
    /\ allocated_memory s'
       = upd n (get n (allocated_memory s)
                - inject_Z (num_replicas (deployment_request s))
                  * memory_request (deployment_request s)) (allocated_memory s)
    /\ free_cpu s' = upd n (get n (cpu_capacity s) - get n (allocated_cpu s')) (free_cpu s)
    /\ free_memory s'
       = upd n (get n (memory_capacity s) - get n (allocated_memory s')) (free_memory s).
Proof.
  intros R Sp Dc. unfold dequeue_request. rewrite R. cbv zeta. rewrite Sp, Dc.
  cbn [bind]. eexists. split; [reflexivity|]. repeat split.
Qed.

Lemma heappush_front (item : Q * DeploymentRequest) (h : list (Q * DeploymentRequest)) :
  match h with
  | [] => True
  | x :: _ => fst item < fst x
  end ->
  heappush item h = item :: h.
Proof.
  destruct h as [|x t]; intro H; [reflexivity|].
  apply Qlt_bool_iff in H. simpl. rewrite H. reflexivity.
Qed.

(** X19: a whole placement followed at once by the departure of the placed
    request undoes the placement.  When the pending request is not marked as
    split and departs before everything on the timeline, placing it on a
    cluster that can host it and then dequeuing gives back the timeline and
    leaves every other cluster's allocation as it was; on the chosen cluster
    the departure subtracts the amount the placement added (replicas times
    demand of the same request), and its free resources are its capacity
    minus the resulting allocation. *)
Theorem whole_placement_then_departure (k : nat) (s : Env) :
  ledger_shape s -> (k < num_clusters s)%nat -> whole_placement_fits s k ->
  is_deployment_split (deployment_request s) = false ->
  match running_requests s with
  | [] => True
  | x :: _ => departure_time (deployment_request s) < fst x
  end ->
  let r := deployment_request s in
  exists s1 s2,
    take_action k s = Some s1 /\ dequeue_request s1 = Some s2
    /\ running_requests s2 = running_requests s
    /\ (forall c, c <> k ->
          get c (allocated_cpu s2) = get c (allocated_cpu s)
          /\ get c (allocated_memory s2) = get c (allocated_memory s))
    /\ get k (allocated_cpu s2)
       = get k (allocated_cpu s) + cpu_request r * inject_Z (num_replicas r)
         - inject_Z (num_replicas r) * cpu_request r
    /\ get k (allocated_memory s2)
       = get k (allocated_memory s) + memory_request r * inject_Z (num_replicas r)
         - inject_Z (num_replicas r) * memory_request r
    /\ get k (free_cpu s2) = get k (cpu_capacity s) - get k (allocated_cpu s2)
    /\ get k (free_memory s2) = get k (memory_capacity s) - get k (allocated_memory s2).
Proof.
  intros (L1 & L2 & L3 & L4 & L5 & L6 & L7) Hk Fits Sp Hd. cbv zeta.
  enter_take_action s s0.
  assert (F0 : same_fleet s0 s) by (entry_fact s0; repeat split).
  destruct F0 as ((N & AC & AM & CC & MC & D) & FC & FM & _ & _ & RR).
  clearbody s0.
  assert (Fits0 : whole_placement_fits s0 k).
  { unfold whole_placement_fits in *. rewrite AC, AM, CC, MC, D. exact Fits. }
  apply check_full_iff in Fits0. rewrite N, Fits0.
  apply Nat.ltb_lt in Hk. rewrite Hk. apply Nat.ltb_lt in Hk.
  destruct (place_all_ledger k s0) as (A1 & B1 & C1 & D1). cbv zeta in A1, B1.
  destruct (place_all_request k s0) as (Rn & Rc & Rm & Rs & Rd & _). cbv zeta in *.
  destruct (place_all_free k s0) as (F1 & G1).
  pose proof (place_all_timeline k s0) as T1.
  rewrite heappush_front in T1 by (rewrite RR, D; exact Hd).
  set (s1 := place_all k s0) in *. clearbody s1.
  destruct (dequeue_request_whole s1 _ _ _ k T1) as (s2 & E2 & R2 & A2 & B2 & F2 & G2);
    [rewrite Rs, D; exact Sp | exact Rd |].
  exists s1, s2. split; [reflexivity|]. split; [exact E2|].
  split; [rewrite R2; exact RR|].
  assert (LA : (k < List.length (allocated_cpu s0))%nat) by (rewrite AC, L3; exact Hk).
  assert (LB : (k < List.length (allocated_memory s0))%nat) by (rewrite AM, L4; exact Hk).
  split; [|split; [|split; [|split]]].
  - intros c Ne. rewrite A2, B2, A1, B1, !get_upd_other by (intro X; apply Ne; auto).
    rewrite AC, AM. split; reflexivity.
  - rewrite A2, A1, Rn, Rc, get_upd_same by (rewrite upd_length; exact LA).
    rewrite get_upd_same by exact LA. rewrite AC, D. reflexivity.
  - rewrite B2, B1, Rn, Rm, get_upd_same by (rewrite upd_length; exact LB).
    rewrite get_upd_same by exact LB. rewrite AM, D. reflexivity.
  - rewrite F2, get_upd_same by (rewrite F1, upd_length, FC, L5; exact Hk).
    rewrite C1, CC. reflexivity.
  - rewrite G2, get_upd_same by (rewrite G1, upd_length, FM, L6; exact Hk).
    rewrite D1, MC. reflexivity.
Qed.

Lemma commit_split_fold_num_clusters (div : list Z) (l : list nat)
    (st : Env * (Q * Q * Q)) :
  num_clusters (fst (fold_left (commit_split_step div) l st)) = num_clusters (fst st).
Proof.
  revert st. induction l as [|d t IH]; intro st; [reflexivity|].
  cbn [fold_left]. rewrite IH. destruct st as [e [[a b] c]]. reflexivity.
Qed.

Lemma place_split_request (count : Env -> Env) (div : list Z) (s : Env) :
  (forall e, deployment_request (count e) = deployment_request e) ->
  (forall e, num_clusters (count e) = num_clusters e) ->
  let r := deployment_request s in
  let r1 := deployment_request (place_split count div s) in
  cpu_request r1 = cpu_request r /\ memory_request r1 = memory_request r
  /\ is_deployment_split r1 = true /\ split_clusters r1 = Some div
  /\ num_clusters (place_split count div s) = num_clusters s.
Proof.
  intros CD CN. cbv zeta. rewrite place_split_unfold.
  pose proof (commit_split_fold_frame div (seq 0 (List.length div))
                (split_prologue count div s, (0, 0, 0))) as F.
  assert (N : num_clusters (fst (fold_left (commit_split_step div)
                                   (seq 0 (List.length div))
                                   (split_prologue count div s, (0, 0, 0))))
              = num_clusters s).
  { rewrite commit_split_fold_num_clusters. cbn [fst].
    unfold split_prologue. cbv zeta.
    cbn [num_clusters set_deployment_request]. rewrite CN. reflexivity. }
  cbv zeta in F. cbn [fst] in F.
  destruct (fold_left _ _ _) as [e [[a b] c]]. cbn [fst] in F, N.
  destruct F as (_ & _ & D & _).
  unfold split_prologue in D. cbv zeta in D.
  cbn [set_deployment_request deployment_request] in D. rewrite CD in D. simpl in D.
  unfold split_epilogue, enqueue_request. cbv zeta. simpl. rewrite D, N. repeat split.
Qed.

Lemma release_split_fold_ledger (split : list Z) (l : list nat) (s : Env) :
  split_clusters (deployment_request s) = Some split ->
  exists s', fold_left release_split_step l (Some s) = Some s'
    /\ allocated_cpu s'
       = fold_left (bump (fun d => - (cpu_request (deployment_request s)
                                      * inject_Z (geti d split))))
                   l (allocated_cpu s)
    /\ allocated_memory s'
       = fold_left (bump (fun d => - (memory_request (deployment_request s)
                                      * inject_Z (geti d split))))
                   l (allocated_memory s)
    /\ running_requests s' = running_requests s.
Proof.
  revert s. induction l as [|d t IH]; intros s Sp.
  - exists s. repeat split.
  - cbn [fold_left]. unfold release_split_step at 2. cbn [bind]. rewrite Sp. cbn [bind].
    cbv zeta.
    match goal with
    | |- context [fold_left release_split_step t (Some ?x)] => set (s1 := x)
    end.
    assert (D1 : deployment_request s1 = deployment_request s)
      by (subst s1; destruct (Qeq_bool _ 0); reflexivity).
    assert (A1 : allocated_cpu s1
                 = bump (fun d => - (cpu_request (deployment_request s)
                                     * inject_Z (geti d split))) (allocated_cpu s) d)
      by (subst s1; destruct (Qeq_bool _ 0); reflexivity).
    assert (B1 : allocated_memory s1
                 = bump (fun d => - (memory_request (deployment_request s)
                                     * inject_Z (geti d split))) (allocated_memory s) d)
      by (subst s1; destruct (Qeq_bool _ 0); reflexivity).
    assert (R1 : running_requests s1 = running_requests s)
      by (subst s1; destruct (Qeq_bool _ 0); reflexivity).
    clearbody s1.
    destruct (IH s1) as (s' & E & A & B & R); [rewrite D1; exact Sp|].
    exists s'. split; [exact E|]. rewrite A, B, R, D1, A1, B1, R1. repeat split.
Qed.

Lemma take_action_split (a : nat) (s : Env) :
  (num_clusters s <= a < num_clusters s + NUM_SPREADING_ACTIONS)%nat ->
  match take_action a s with
  | Some s1 =>
      penalty s1 = false ->
      exists div,
        List.length div = num_clusters s
        /\ cpu_request (deployment_request s1) = cpu_request (deployment_request s)
        /\ memory_request (deployment_request s1) = memory_request (deployment_request s)
        /\ is_deployment_split (deployment_request s1) = true
        /\ split_clusters (deployment_request s1) = Some div
        /\ num_clusters s1 = num_clusters s
        /\ allocated_cpu s1
           = fold_left (bump (fun d => cpu_request (deployment_request s)
                                       * inject_Z (geti d div)))
                       (seq 0 (List.length div)) (allocated_cpu s)
        /\ allocated_memory s1
           = fold_left (bump (fun d => memory_request (deployment_request s)
                                       * inject_Z (geti d div)))
                       (seq 0 (List.length div)) (allocated_memory s)
        /\ running_requests s1
           = heappush (departure_time (deployment_request s), deployment_request s1)
                      (running_requests s)
  | None => True
  end.
Proof.
  intro Ha.
  pose (Q := fun s1 : Env =>
      penalty s1 = false ->
      exists div,
        List.length div = num_clusters s
        /\ cpu_request (deployment_request s1) = cpu_request (deployment_request s)
        /\ memory_request (deployment_request s1) = memory_request (deployment_request s)
        /\ is_deployment_split (deployment_request s1) = true
        /\ split_clusters (deployment_request s1) = Some div
        /\ num_clusters s1 = num_clusters s
        /\ allocated_cpu s1
           = fold_left (bump (fun d => cpu_request (deployment_request s)
                                       * inject_Z (geti d div)))
                       (seq 0 (List.length div)) (allocated_cpu s)
        /\ allocated_memory s1
           = fold_left (bump (fun d => memory_request (deployment_request s)
                                       * inject_Z (geti d div)))
                       (seq 0 (List.length div)) (allocated_memory s)
        /\ running_requests s1
           = heappush (departure_time (deployment_request s), deployment_request s1)
                      (running_requests s)).
  assert (G : match take_action a s with Some e => Q e | None => True end);
    [|exact G].
  enter_take_action s s0.
  assert (F0 : same_fleet s0 s) by (entry_fact s0; repeat split).
  destruct F0 as ((N & AC & AM & CC & MC & D) & _ & _ & _ & _ & RR).
  clearbody s0. rewrite <- N in Ha.
  assert (BLOCK : forall e,
            match Some (set_penalty true e) with Some x => Q x | None => True end).
  { intros e P. discriminate P. }
  assert (ACCEPT : forall count div e,
            (forall x, same_ledger (count x) x) ->
            (forall x, running_requests (count x) = running_requests x) ->
            same_ledger e s0 -> running_requests e = running_requests s0 ->
            List.length div = num_clusters s0 ->
            match Some (place_split count div e) with Some x => Q x | None => True end).
  { intros count div e CL CR (N' & AC' & AM' & CC' & MC' & D') R Ld _.
    exists div.
    destruct (place_split_ledger count div e CL) as (A1 & B1 & _ & _). cbv zeta in A1, B1.
    destruct (place_split_request count div e) as (Rc & Rm & Rs & Rd & Rn);
      [intro x; apply (CL x) | intro x; apply (CL x) |]. cbv zeta in *.
    rewrite (place_split_timeline count div e CR) by (intro x; apply (CL x)).
    rewrite A1, B1, Rc, Rm, Rs, Rd, Rn, D', AC', AM', R, N', D, AC, AM, RR, N.
    rewrite <- N. repeat split. exact Ld. }
  destruct (a <? num_clusters s0)%nat eqn:Ea; [apply Nat.ltb_lt in Ea; lia|].
  destruct (a =? num_clusters s0 + FFD)%nat eqn:E1.
  { destruct (num_replicas (deployment_request s0) =? 1)%Z.
    - apply BLOCK.
    - destruct (first_fit_decreasing_heuristic _ _ _ _ _ _ _) as [res|] eqn:Er;
        [|exact I].
      cbn [bind]. apply first_fit_decreasing_length in Er.
      destruct (check_if_clusters_are_full_after_split_deployment _ _).
      + apply BLOCK.
      + apply ACCEPT; try assumption; try reflexivity; try intro x; repeat split. }
  destruct (a =? num_clusters s0 + FFI)%nat eqn:E2.
  { destruct (num_replicas (deployment_request s0) =? 1)%Z.
    - apply BLOCK.
    - destruct (first_fit_decreasing_heuristic _ _ _ _ _ _ _) as [res|] eqn:Er;
        [|exact I].
      cbn [bind]. apply first_fit_decreasing_length in Er.
      destruct (check_if_clusters_are_full_after_split_deployment _ _).
      + apply BLOCK.
      + apply ACCEPT; try assumption; try reflexivity; try intro x; repeat split. }
  destruct (a =? num_clusters s0 + BF1B1)%nat eqn:E3.
  { destruct (num_replicas (deployment_request s0) =? 1)%Z.
    - apply BLOCK.
    - pose proof (best_fit_length (num_replicas (deployment_request s0))
                    (cpu_request (deployment_request s0))
                    (memory_request (deployment_request s0)) (num_clusters s0)
                    (free_cpu s0) (free_memory s0)) as Lb.
      destruct (best_fit_heuristic_one_by_one _ _ _ _ _ _) as [[div fc] fm].
      cbn [fst] in Lb.
      destruct (check_if_clusters_are_full_after_split_deployment _ _).
      + apply BLOCK.
      + apply ACCEPT; try assumption; try reflexivity; try intro x; repeat split. }
  apply Nat.ltb_ge in Ea. apply Nat.eqb_neq in E1, E2, E3.
  unfold FFD, FFI, BF1B1, NUM_SPREADING_ACTIONS in *. lia.
Qed.

(** X20: an accepted split followed at once by the departure of the placed
    request undoes the split.  When the pending request departs before
    everything on the timeline, a spreading action that ends without the
    penalty flag and the dequeue that follows give back the timeline, and
    on every cluster the departure subtracts the amount the split added
    there (the demand times the count of the distribution the action
    recorded in the request). *)
Theorem split_placement_then_departure (a : nat) (s s1 : Env) :
  ledger_shape s ->
  (num_clusters s <= a < num_clusters s + NUM_SPREADING_ACTIONS)%nat ->
  match running_requests s with
  | [] => True
  | x :: _ => departure_time (deployment_request s) < fst x
  end ->
  take_action a s = Some s1 -> penalty s1 = false ->
  let r := deployment_request s in
  exists s2 div,
    dequeue_request s1 = Some s2
    /\ split_clusters (deployment_request s1) = Some div
    /\ List.length div = num_clusters s
    /\ running_requests s2 = running_requests s
    /\ forall c, (c < num_clusters s)%nat ->
         get c (allocated_cpu s2)
         = get c (allocated_cpu s) + cpu_request r * inject_Z (geti c div)
           - cpu_request r * inject_Z (geti c div)
         /\ get c (allocated_memory s2)
            = get c (allocated_memory s) + memory_request r * inject_Z (geti c div)
              - memory_request r * inject_Z (geti c div).
Proof.
  intros (L1 & L2 & L3 & L4 & L5 & L6 & L7) Ha Hd E P. cbv zeta.
  pose proof (take_action_split a s Ha) as H. rewrite E in H.
  destruct (H P) as (div & Ld & Rc & Rm & Rs & Rd & Rn & A1 & B1 & T1). clear H.
  rewrite heappush_front in T1 by exact Hd.
  unfold dequeue_request. rewrite T1. cbv zeta. rewrite Rs.
  set (e := set_running_requests (running_requests s) s1).
  assert (De : deployment_request e = deployment_request s1) by reflexivity.
  assert (Ne : num_clusters e = num_clusters s1) by reflexivity.
  assert (Ae : allocated_cpu e = allocated_cpu s1) by reflexivity.
  assert (Be : allocated_memory e = allocated_memory s1) by reflexivity.
  assert (Re : running_requests e = running_requests s) by reflexivity.
  clearbody e.
  destruct (release_split_fold_ledger div (seq 0 (num_clusters e)) e)
    as (s2 & E2 & A2 & B2 & R2); [rewrite De; exact Rd|].
  exists s2, div. split; [exact E2|]. split; [exact Rd|]. split; [exact Ld|].
  split; [rewrite R2; exact Re|].
  intros c Hc. rewrite A2, B2, Ae, Be, A1, B1, De, Rc, Rm, Ne, Rn, Ld.
  rewrite !fold_bump_inside;
    try apply seq_NoDup; try (apply in_seq; lia);
    try (rewrite ?fold_bump_length, ?L3, ?L4; exact Hc).
  split; reflexivity.
Qed.

(** ** The counters of a step *)

Lemma commit_split_fold_books (div : list Z) (l : list nat) (st : Env * (Q * Q * Q)) :
  books (fst (fold_left (commit_split_step div) l st)) = books (fst st).
Proof.
  revert st. induction l as [|d t IH]; intro st; [reflexivity|].
  cbn [fold_left]. rewrite IH. destruct st as [e [[a b] c]]. reflexivity.
Qed.

Lemma place_split_books (count : Env -> Env) (div : list Z) (s : Env) :
  (forall x, books (count x) = books x) ->
  let s1 := place_split count div s in
  reward_function s1 = reward_function s /\ episode_length s1 = episode_length s
  /\ offered_requests s1 = offered_requests s /\ current_step s1 = current_step s
  /\ accepted_requests s1 = (accepted_requests s + 1)%Z
  /\ ep_accepted_requests s1 = (ep_accepted_requests s + 1)%Z
  /\ exists l c u,
       avg_latency s1 = avg_latency s ++ [l] /\ avg_cost s1 = avg_cost s ++ [c]
       /\ avg_cpu_usage_percentage_cluster_selected s1
          = avg_cpu_usage_percentage_cluster_selected s ++ [u].
Proof.
  intro CB. cbv zeta. rewrite place_split_unfold.
  pose proof (commit_split_fold_books div (seq 0 (List.length div))
                (split_prologue count div s, (0, 0, 0))) as F.
  cbn [fst] in F. destruct (fold_left _ _ _) as [e [[a b] c]]. cbn [fst] in F.
  apply books_inv in F.
  destruct F as (_ & EL & RF & _ & _ & _ & CS & _ & OR & AR & EA & AL & AV & AU).
  unfold split_prologue in *. cbv zeta in *.
  match type of RF with
  | _ = reward_function (set_deployment_request _ (count ?x)) =>
      destruct (books_inv _ _ (CB x))
        as (_ & EL' & RF' & _ & _ & _ & CS' & _ & OR' & AR' & EA' & AL' & AV' & AU')
  end.
  cbn [reward_function episode_length offered_requests current_step accepted_requests
       ep_accepted_requests avg_latency avg_cost avg_cpu_usage_percentage_cluster_selected
       set_deployment_request] in RF, EL, CS, OR, AR, EA, AL, AV, AU.
  rewrite RF' in RF. rewrite EL' in EL. rewrite CS' in CS. rewrite OR' in OR.
  rewrite AR' in AR. rewrite EA' in EA. rewrite AL' in AL. rewrite AV' in AV.
  rewrite AU' in AU.
  simpl in RF, EL, CS, OR, AR, EA, AL, AV, AU.
  unfold split_epilogue, enqueue_request. cbv zeta. simpl.
  rewrite RF, EL, CS, OR, AR, EA, AL, AV, AU.
  repeat split. eexists _, _, _. repeat split.
Qed.

Lemma place_all_books (k : nat) (s : Env) :
  let s1 := place_all k s in
  reward_function s1 = reward_function s /\ episode_length s1 = episode_length s
  /\ offered_requests s1 = offered_requests s /\ current_step s1 = current_step s
  /\ accepted_requests s1 = (accepted_requests s + 1)%Z
  /\ ep_accepted_requests s1 = (ep_accepted_requests s + 1)%Z
  /\ exists l c u,
       avg_latency s1 = avg_latency s ++ [l] /\ avg_cost s1 = avg_cost s ++ [c]
       /\ avg_cpu_usage_percentage_cluster_selected s1
          = avg_cpu_usage_percentage_cluster_selected s ++ [u].
Proof.
  destruct s.
  cbv -[heappush increase_latency get upd Qplus Qmult Qdiv Qminus inject_Z nth ct_cost
        cluster_type_of Z.add app].
  repeat split. eexists _, _, _. repeat split.
Qed.

Lemma take_action_tally (a : nat) (s : Env) :
  match take_action a s with
  | Some s1 =>
      current_step s1 = (current_step s + 1)%Z
      /\ exists admitted,
           tally_after admitted s s1
           /\ (admitted = true -> penalty s1 = false)
           /\ (admitted = false ->
               penalty s1 = true \/ (num_clusters s + NUM_SPREADING_ACTIONS < a)%nat)
  | None => True
  end.
Proof.
  pose (Q := fun s1 : Env =>
      current_step s1 = (current_step s + 1)%Z
      /\ exists admitted,
           tally_after admitted s s1
           /\ (admitted = true -> penalty s1 = false)
           /\ (admitted = false ->
               penalty s1 = true \/ (num_clusters s + NUM_SPREADING_ACTIONS < a)%nat)).
  assert (G : match take_action a s with Some e => Q e | None => True end);
    [|exact G].
  enter_take_action s s0.
  assert (C0 : current_step s0 = (current_step s + 1)%Z) by (entry_fact s0; reflexivity).
  assert (T0 : tally_after false s s0).
  { unfold tally_after. entry_fact s0; cbn; rewrite ?Z.add_0_r; repeat split. }
  assert (N0 : num_clusters s0 = num_clusters s) by (entry_fact s0; reflexivity).
  clearbody s0.
  destruct T0 as (RF & EL & OR & AR & EA & AL & AV & AU). rewrite Z.add_0_r in AR, EA.
  assert (BLOCK : forall e, books e = books s0 ->
            match Some (set_penalty true e) with Some x => Q x | None => True end).
  { intros e B. apply books_inv in B.
    destruct B as (_ & EL' & RF' & _ & _ & _ & CS' & _ & OR' & AR' & EA' & AL' & AV' & AU').
    split; [cbn; congruence|]. exists false.
    split; [|split; [discriminate | intros _; left; reflexivity]].
    unfold tally_after. cbn. rewrite !Z.add_0_r. repeat split; congruence. }
  assert (ACCEPT : forall count div e,
            (forall x, books (count x) = books x) ->
            (forall x, penalty (count x) = penalty x) ->
            (forall x, reward_function (count x) = reward_function x) ->
            books e = books s0 ->
            match Some (place_split count div e) with Some x => Q x | None => True end).
  { intros count div e CB CP CF B. apply books_inv in B.
    destruct B as (_ & EL' & RF' & _ & _ & _ & CS' & _ & OR' & AR' & EA' & AL' & AV' & AU').
    destruct (place_split_books count div e CB)
      as (RF1 & EL1 & OR1 & CS1 & AR1 & EA1 & l & c & u & AL1 & AV1 & AU1).
    cbv zeta in *.
    split; [congruence|]. exists true.
    split; [|split; [intros _; apply place_split_frame; assumption | discriminate]].
    unfold tally_after. repeat split; try congruence.
    exists l, c, u. repeat split; congruence. }
  destruct (a <? num_clusters s0)%nat eqn:Ea.
  { destruct (check_if_cluster_is_full_after_full_deployment s0 a).
    - apply BLOCK. reflexivity.
    - destruct (place_all_books a s0)
        as (RF1 & EL1 & OR1 & CS1 & AR1 & EA1 & l & c & u & AL1 & AV1 & AU1).
      cbv zeta in *.
      split; [congruence|]. exists true.
      split; [|split; [intros _; apply place_all_penalty | discriminate]].
      unfold tally_after. repeat split; try congruence.
      exists l, c, u. repeat split; congruence. }
  destruct (a =? num_clusters s0 + FFD)%nat eqn:E1.
  { destruct (num_replicas (deployment_request s0) =? 1)%Z.
    - apply BLOCK. reflexivity.
    - destruct (first_fit_decreasing_heuristic _ _ _ _ _ _ _) as [res|]; [|exact I].
      cbn [bind].
      destruct (check_if_clusters_are_full_after_split_deployment _ _).
      + apply BLOCK. reflexivity.
      + apply ACCEPT; reflexivity. }
  destruct (a =? num_clusters s0 + FFI)%nat eqn:E2.
  { destruct (num_replicas (deployment_request s0) =? 1)%Z.
    - apply BLOCK. reflexivity.
    - destruct (first_fit_decreasing_heuristic _ _ _ _ _ _ _) as [res|]; [|exact I].
      cbn [bind].
      destruct (check_if_clusters_are_full_after_split_deployment _ _).
      + apply BLOCK. reflexivity.
      + apply ACCEPT; reflexivity. }
  destruct (a =? num_clusters s0 + BF1B1)%nat eqn:E3.
  { destruct (num_replicas (deployment_request s0) =? 1)%Z.
    - apply BLOCK. reflexivity.
    - destruct (best_fit_heuristic_one_by_one _ _ _ _ _ _) as [[div fc] fm].
      destruct (check_if_clusters_are_full_after_split_deployment _ _).
      + apply BLOCK. reflexivity.
      + apply ACCEPT; reflexivity. }
  destruct (a =? num_clusters s0 + NUM_SPREADING_ACTIONS)%nat eqn:E4.
  { apply BLOCK. reflexivity. }
  split; [exact C0|]. exists false.
  split; [|split; [discriminate|]].
  - unfold tally_after. rewrite !Z.add_0_r. repeat split; assumption.
  - intros _. right. rewrite <- N0.
    apply Nat.ltb_ge in Ea. apply Nat.eqb_neq in E1, E2, E3, E4.
    unfold FFD, FFI, BF1B1, NUM_SPREADING_ACTIONS in *. lia.
Qed.

Lemma next_request_books (catalog : list DeploymentRequest) (dr : RequestDraws)
    (s s' : Env) :
  next_request catalog dr s = Some s' ->
  current_step s' = current_step s /\ tally_after false s s'.
Proof.
  unfold next_request. cbv zeta.
  destruct (draws_raise s); [discriminate|].
  set (arrival := current_time s + exponential (1 / arrival_rate_r s) (e_arrival dr)).
  set (s1 := set_current_time arrival _).
  assert (B1 : current_step s1 = current_step s /\ tally_after false s s1).
  { unfold tally_after. cbn. rewrite !Z.add_0_r. repeat split. }
  clearbody s1.
  destruct (drain _ arrival s1) as [s2|] eqn:Ed; [|discriminate]. cbn [bind].
  destruct (deployment_generator catalog dr s2) as [d|]; [|discriminate]. cbn [bind].
  intro E. apply Some_eq in E. subst s'.
  destruct (books_inv _ _ (drain_books _ _ _ _ Ed))
    as (_ & EL' & RF' & _ & _ & _ & CS' & _ & OR' & AR' & EA' & AL' & AV' & AU').
  destruct B1 as (CS & RF & EL & OR & AR & EA & AL & AV & AU).
  unfold tally_after. cbn. repeat split; congruence.
Qed.

Lemma step_tally (catalog : list DeploymentRequest) (gini : list Q -> Q)
    (normalize : Q -> Q -> Q -> Q) (round2 : Q -> Q)
    (a : nat) (dr : RequestDraws) (s s' : Env) (r : Q) :
  step catalog gini normalize round2 a dr s = Some (s', r) ->
  offered_requests s' = (offered_requests s + 1)%Z
  /\ current_step s' = (current_step s + 1)%Z
  /\ block_prob s'
     = 1 - inject_Z (accepted_requests s') / inject_Z (offered_requests s')
  /\ ep_block_prob s'
     = 1 - inject_Z (ep_accepted_requests s') / inject_Z (current_step s')
  /\ ((current_step s' = episode_length s')%Z -> avg_latency s' <> [])
  /\ exists admitted,
       tally_after admitted (set_offered_requests (offered_requests s + 1)%Z s) s'.
Proof.
  unfold step. cbv zeta.
  set (s0 := set_offered_requests (offered_requests s + 1)%Z s).
  assert (O0 : offered_requests s0 = (offered_requests s + 1)%Z) by reflexivity.
  assert (C0 : current_step s0 = current_step s) by reflexivity.
  clearbody s0.
  pose proof (take_action_tally a s0) as TA.
  destruct (take_action a s0) as [s1|]; [|discriminate]. cbn [bind].
  destruct TA as (C1 & admitted & T1 & _).
  destruct (get_reward gini normalize round2 s1) as [reward|]; [|discriminate].
  cbn [bind].
  set (s2 := set_total_reward (total_reward s1 + reward) s1).
  assert (C2 : current_step s2 = current_step s1) by reflexivity.
  assert (T2 : tally_after admitted s0 s2) by exact T1.
  clearbody s2.
  destruct (next_request catalog dr s2) as [s3|] eqn:NR; [|discriminate]. cbn [bind].
  destruct (next_request_books catalog dr s2 s3 NR) as (C3 & T3).
  assert (T : tally_after admitted s0 s3).
  { destruct T2 as (RF & EL & OR & AR & EA & AV).
    destruct T3 as (RF' & EL' & OR' & AR' & EA' & AL' & AC' & AU').
    rewrite Z.add_0_r in AR', EA'.
    unfold tally_after. rewrite RF', EL', OR', AR', EA', AL', AC', AU'.
    repeat split; assumption. }
  clear T1 T2 T3.
  destruct (offered_requests s3 =? 0)%Z; [discriminate|]. cbn [bind].
  set (s4 := set_block_prob _ s3).
  assert (B4 : block_prob s4
               = 1 - inject_Z (accepted_requests s4) / inject_Z (offered_requests s4))
    by reflexivity.
  assert (C4 : current_step s4 = current_step s3) by reflexivity.
  assert (T4 : tally_after admitted s0 s4) by exact T.
  clearbody s4.
  destruct (current_step s4 =? 0)%Z; [discriminate|]. cbn [bind].
  set (s5 := set_ep_block_prob _ s4).
  assert (B5 : block_prob s5
               = 1 - inject_Z (accepted_requests s5) / inject_Z (offered_requests s5))
    by exact B4.
  assert (E5 : ep_block_prob s5
               = 1 - inject_Z (ep_accepted_requests s5) / inject_Z (current_step s5))
    by reflexivity.
  assert (C5 : current_step s5 = current_step s4) by reflexivity.
  assert (T5 : tally_after admitted s0 s5) by exact T4.
  clearbody s5.
  assert (O5 : offered_requests s5 = (offered_requests s + 1)%Z).
  { destruct T5 as (_ & _ & OR & _). rewrite OR. exact O0. }
  assert (S5 : current_step s5 = (current_step s + 1)%Z) by congruence.
  destruct (current_step s5 =? episode_length s5)%Z eqn:End.
  - destruct (mean (avg_latency _)) eqn:M1; [|discriminate]. cbn [bind].
    destruct (mean (avg_cost _)); [|discriminate]. cbn [bind].
    destruct (mean (avg_cpu_usage_percentage_cluster_selected _)); [|discriminate].
    cbn [bind]. intro E. apply Some_eq in E. injection E as <- <-.
    cbn. cbn in M1.
    repeat split; try assumption.
    + intros _ X. rewrite X in M1. discriminate M1.
    + exists admitted. exact T5.
  - intro E. apply Some_eq in E. injection E as <- <-.
    repeat split; try assumption.
    + intro X. apply Z.eqb_neq in End. contradiction.
    + exists admitted. exact T5.
Qed.

Lemma blocking_probability_range (accepted offered : Z) :
  (0 <= accepted <= offered)%Z -> (0 < offered)%Z ->
  0 <= 1 - inject_Z accepted / inject_Z offered
  /\ 1 - inject_Z accepted / inject_Z offered <= 1.
Proof.
  intros [A B] P.
  assert (0 < inject_Z offered) as P' by (rewrite Zlt_Qlt in P; exact P).
  assert (0 <= inject_Z accepted) as A' by (rewrite Zle_Qle in A; exact A).
  assert (inject_Z accepted <= inject_Z offered) as B' by (rewrite Zle_Qle in B; exact B).
  assert (0 <= inject_Z accepted / inject_Z offered) as L
    by (apply Qle_shift_div_l; [exact P' | lra]).
  assert (inject_Z accepted / inject_Z offered <= 1) as U
    by (apply Qle_shift_div_r; [exact P' | lra]).
  split; lra.
Qed.

(** X21: a step that returns counts the request as offered and advances the
    step counter by one, admits at most one request, and keeps the counters
    consistent: when the accepted requests did not exceed the offered ones
    (nor, within the episode, the steps taken) before the step, they do not
    afterwards, and both blocking probabilities it records lie between 0
    and 1. *)
Theorem step_keeps_counters_consistent (catalog : list DeploymentRequest)
    (gini : list Q -> Q) (normalize : Q -> Q -> Q -> Q) (round2 : Q -> Q)
    (a : nat) (dr : RequestDraws) (s s' : Env) (r : Q) :
  (0 <= accepted_requests s <= offered_requests s)%Z ->
  (0 <= ep_accepted_requests s <= current_step s)%Z ->
  step catalog gini normalize round2 a dr s = Some (s', r) ->
  offered_requests s' = (offered_requests s + 1)%Z
  /\ current_step s' = (current_step s + 1)%Z
  /\ (accepted_requests s <= accepted_requests s' <= accepted_requests s + 1)%Z
  /\ (accepted_requests s' - accepted_requests s
      = ep_accepted_requests s' - ep_accepted_requests s)%Z
  /\ (0 <= accepted_requests s' <= offered_requests s')%Z
  /\ (0 <= ep_accepted_requests s' <= current_step s')%Z
  /\ (0 <= block_prob s' /\ block_prob s' <= 1)
  /\ (0 <= ep_block_prob s' /\ ep_block_prob s' <= 1).
Proof.
  intros A E H.
  destruct (step_tally _ _ _ _ _ _ _ _ _ H)
    as (O & C & B & EB & _ & admitted & _ & _ & _ & AR & EA & _).
  cbn in AR, EA.
  assert (0 <= (if admitted then 1 else 0) <= 1)%Z as Hb by (destruct admitted; lia).
  rewrite B, EB.
  repeat split; try lia; apply blocking_probability_range; lia.
Qed.

(** X22: an episode in which nothing has been admitted cannot end on a
    blocked request.  When no latency sample has been recorded and the step
    is the last of the episode, [step] returns only if its action admits the
    request; otherwise the summary of the episode raises on the mean of an
    empty list. *)
Theorem episode_needs_an_admission_to_end (catalog : list DeploymentRequest)
    (gini : list Q -> Q) (normalize : Q -> Q -> Q -> Q) (round2 : Q -> Q)
    (a : nat) (dr : RequestDraws) (s s' : Env) (r : Q) :
  avg_latency s = [] -> (current_step s + 1 = episode_length s)%Z ->
  step catalog gini normalize round2 a dr s = Some (s', r) ->
  accepted_requests s' = (accepted_requests s + 1)%Z /\ avg_latency s' <> [].
Proof.
  intros Empty Last H.
  destruct (step_tally _ _ _ _ _ _ _ _ _ H)
    as (_ & C & _ & _ & End & admitted & _ & EL & _ & AR & _ & AV).
  cbn in EL, AR, AV.
  assert (avg_latency s' <> []) as NE by (apply End; lia).
  split; [|exact NE].
  destruct admitted; [exact AR|].
  destruct AV as (AL & _). rewrite AL in NE. contradiction.
Qed.

(** ** Rewards *)

Lemma take_action_objective (a : nat) (s s1 : Env) :
  take_action a s = Some s1 -> reward_function s1 = reward_function s.
Proof.
  intro E. pose proof (take_action_tally a s) as H. rewrite E in H.
  destruct H as (_ & admitted & (RF & _) & _). exact RF.
Qed.

(** X23: with an objective other than the four the environment knows,
    [get_reward] hands back nothing and the step raises when it adds the
    reward to the running total, whatever the action. *)
Theorem step_raises_on_unknown_objective (catalog : list DeploymentRequest)
    (gini : list Q -> Q) (normalize : Q -> Q -> Q -> Q) (round2 : Q -> Q)
    (a : nat) (dr : RequestDraws) (s : Env) :
  ~ In (reward_function s) [NAIVE; MULTI; LATENCY; COST] ->
  step catalog gini normalize round2 a dr s = None.
Proof.
  intro U. unfold step. cbv zeta.
  set (s0 := set_offered_requests (offered_requests s + 1)%Z s).
  assert (R0 : reward_function s0 = reward_function s) by reflexivity.
  clearbody s0.
  destruct (take_action a s0) as [s1|] eqn:TA; [|reflexivity]. cbn [bind].
  apply take_action_objective in TA.
  assert (G : get_reward gini normalize round2 s1 = None).
  { unfold get_reward. cbv zeta. rewrite TA, R0.
    destruct (String.eqb_spec (reward_function s) NAIVE) as [X|_];
      [exfalso; apply U; rewrite X; simpl; auto|].
    destruct (String.eqb_spec (reward_function s) MULTI) as [X|_];
      [exfalso; apply U; rewrite X; simpl; auto|].
    destruct (String.eqb_spec (reward_function s) LATENCY) as [X|_];
      [exfalso; apply U; rewrite X; simpl; auto|].
    destruct (String.eqb_spec (reward_function s) COST) as [X|_];
      [exfalso; apply U; rewrite X; simpl; auto|].
    reflexivity. }
  rewrite G. reflexivity.
Qed.

Lemma some_cluster_fits_iff (s : Env) :
  check_if_cluster_is_really_full s = false
  <-> exists k, (k < num_clusters s)%nat /\ whole_placement_fits s k.
Proof.
  split.
  - intro H. destruct (check_if_cluster_is_really_full s) eqn:F; [discriminate|].
    unfold check_if_cluster_is_really_full in F.
    assert (X : exists k, In k (seq 0 (num_clusters s))
                          /\ check_if_cluster_is_full_after_full_deployment s k = false).
    { clear H. induction (seq 0 (num_clusters s)) as [|x t IH]; [discriminate|].
      simpl in F. destruct (check_if_cluster_is_full_after_full_deployment s x) eqn:C.
      - destruct (IH F) as (k & I & K). exists k. split; [right; exact I | exact K].
      - exists x. split; [left; reflexivity | exact C]. }
    destruct X as (k & I & K). exists k. apply in_seq in I.
    split; [lia | apply check_full_iff; exact K].
  - intros (k & Hk & Fits).
    destruct (check_if_cluster_is_really_full s) eqn:F; [|reflexivity].
    exfalso. exact (proj1 (really_full_iff s) F k Hk Fits).
Qed.

(** X24: under each of the four objectives a penalised step is rewarded
    below zero exactly when some cluster could have hosted the whole
    request: the reward is -1 then, and the positive reward of an
    unavoidable rejection otherwise. *)
Theorem penalised_reward_is_negative_iff_avoidable (gini : list Q -> Q)
    (normalize : Q -> Q -> Q -> Q) (round2 : Q -> Q) (s : Env) :
  penalty s = true ->
  In (reward_function s) [NAIVE; MULTI; LATENCY; COST] ->
  exists r,
    get_reward gini normalize round2 s = Some r
    /\ (r == -1 \/ r == 1 \/ r == MAX_COST - MIN_COST)
    /\ (r < 0 <-> exists k, (k < num_clusters s)%nat /\ whole_placement_fits s k).
Proof.
  intros P K.
  assert (V : forall u, (u == 1 \/ u == MAX_COST - MIN_COST) ->
            (penalty_reward u s == -1 \/ penalty_reward u s == 1
             \/ penalty_reward u s == MAX_COST - MIN_COST)
            /\ (penalty_reward u s < 0
                <-> exists k, (k < num_clusters s)%nat /\ whole_placement_fits s k)).
  { intros u Hu. rewrite <- some_cluster_fits_iff. unfold penalty_reward.
    destruct (check_if_cluster_is_really_full s); cbn [negb].
    - split; [right; exact Hu|]. split; [|discriminate].
      intro X. exfalso. unfold MAX_COST, MIN_COST in Hu. destruct Hu as [Hu|Hu]; lra.
    - split; [left; reflexivity|]. split; [reflexivity | intros _; reflexivity]. }
  unfold get_reward. cbv zeta. rewrite P.
  destruct (String.eqb_spec (reward_function s) NAIVE) as [_|N1].
  { eexists. split; [reflexivity|]. apply V. left. reflexivity. }
  destruct (String.eqb_spec (reward_function s) MULTI) as [_|N2].
  { eexists. split; [reflexivity|]. apply V. left. reflexivity. }
  destruct (String.eqb_spec (reward_function s) LATENCY) as [_|N3].
  { eexists. split; [reflexivity|]. apply V. left. reflexivity. }
  destruct (String.eqb_spec (reward_function s) COST) as [_|N4].
  { eexists. split; [reflexivity|]. apply V. right. reflexivity. }
  exfalso. simpl in K. intuition congruence.
Qed.

(** ** The observation *)

(** X25: when [get_state] returns, the observation has the shape the
    environment declares for its observation space: one row per cluster and
    one per spreading action and reject, each of
    [NUM_METRICS_CLUSTER + NUM_METRICS_REQUEST + 2] entries.  Every row ends
    with the five entries of the pending request, and the rows after the
    clusters hold the placeholder -1 in their five cluster columns. *)
Theorem get_state_has_declared_shape (s : Env) (obs : list (list Q)) :
  get_state s = Some obs ->
  let demands :=
    [inject_Z (num_replicas (deployment_request s)); cpu_request (deployment_request s);
     memory_request (deployment_request s); latency_threshold (deployment_request s);
     dt s] in
  List.length obs = (num_clusters s + NUM_SPREADING_ACTIONS + 1)%nat
  /\ (forall i, (i < num_clusters s + NUM_SPREADING_ACTIONS + 1)%nat ->
        List.length (nth i obs []) = (NUM_METRICS_CLUSTER + NUM_METRICS_REQUEST + 2)%nat
        /\ skipn (NUM_METRICS_CLUSTER + 1) (nth i obs []) = demands)
  /\ (forall i, (num_clusters s <= i < num_clusters s + NUM_SPREADING_ACTIONS + 1)%nat ->
        firstn (NUM_METRICS_CLUSTER + 1) (nth i obs [])
        = repeat (-1) (NUM_METRICS_CLUSTER + 1)).
Proof.
  unfold get_state. cbv zeta.
  destruct (_ && _ && _ && _ && _); [|discriminate].
  intro E. apply Some_eq in E. subst obs.
  set (demands := [inject_Z _; _; _; _; _]).
  set (f := fun c : nat => [get c (allocated_cpu s); _; _; _; _]).
  assert (Row : forall i, (i < num_clusters s + NUM_SPREADING_ACTIONS + 1)%nat ->
            exists r0, List.length r0 = 5%nat
              /\ nth i (map (fun row => row ++ demands)
                          (map f (seq 0 (num_clusters s))
                           ++ repeat (repeat (-1) (NUM_METRICS_CLUSTER + 1))
                                (NUM_SPREADING_ACTIONS + 1))) [] = r0 ++ demands
              /\ ((num_clusters s <= i)%nat -> r0 = repeat (-1) (NUM_METRICS_CLUSTER + 1))).
  { intros i Hi.
    rewrite (nth_indep _ [] ([] ++ demands))
      by (rewrite length_map, length_app, length_map, length_seq, repeat_length; lia).
    rewrite (map_nth (fun row => row ++ demands)).
    destruct (Nat.lt_ge_cases i (num_clusters s)) as [Lt|Ge].
    - rewrite app_nth1 by (rewrite length_map, length_seq; exact Lt).
      rewrite (nth_indep _ [] (f 0%nat)) by (rewrite length_map, length_seq; exact Lt).
      rewrite map_nth. eexists. split; [|split; [reflexivity|lia]]. reflexivity.
    - rewrite app_nth2 by (rewrite length_map, length_seq; exact Ge).
      rewrite length_map, length_seq.
      rewrite (nth_indep _ [] (repeat (-1) (NUM_METRICS_CLUSTER + 1)))
        by (rewrite repeat_length; lia).
      rewrite nth_repeat. eexists. split; [|split; [reflexivity|reflexivity]].
      reflexivity. }
  split; [|split].
  - rewrite length_map, length_app, length_map, length_seq, repeat_length. lia.
  - intros i Hi. destruct (Row i Hi) as (r0 & L & -> & _).
    split; [rewrite length_app, L; reflexivity|].
    change (NUM_METRICS_CLUSTER + 1)%nat with 5%nat. rewrite <- L.
    rewrite skipn_app, skipn_all, Nat.sub_diag. reflexivity.
  - intros i Hi. destruct (Row i) as (r0 & L & -> & P); [lia|].
    rewrite (P (proj1 Hi)).
    rewrite firstn_app, repeat_length, Nat.sub_diag, firstn_O, app_nil_r.
    apply firstn_all2. rewrite repeat_length. lia.
Qed.

(** ** Blocked and rejected requests *)

(** X26: a request of a single replica is never split.  Each of the three
    spreading actions ends with the penalty flag set and leaves the
    allocation, the free resources, the latencies and the timeline as they
    were, without running its heuristic. *)
Theorem single_replica_is_never_split (a : nat) (s : Env) :
  num_replicas (deployment_request s) = 1%Z ->
  (num_clusters s <= a < num_clusters s + NUM_SPREADING_ACTIONS)%nat ->
  exists s1, take_action a s = Some s1 /\ penalty s1 = true /\ same_fleet s1 s.
Proof.
  intros One Ha. enter_take_action s s0.
  assert (F0 : same_fleet s0 s) by (entry_fact s0; repeat split).
  assert (N0 : num_clusters s0 = num_clusters s) by (entry_fact s0; reflexivity).
  assert (R0 : num_replicas (deployment_request s0) = 1%Z)
    by (entry_fact s0; exact One).
  clearbody s0. rewrite <- N0 in Ha. rewrite R0. cbn [Z.eqb Pos.eqb].
  assert (BLOCK : exists s1, Some (set_penalty true s0) = Some s1
                             /\ penalty s1 = true /\ same_fleet s1 s).
  { eexists. split; [reflexivity|]. split; [reflexivity|].
    destruct F0 as ((N & AC & AM & CC & MC & D) & FC & FM & LM & L & RR).
    repeat split; assumption. }
  destruct (a <? num_clusters s0)%nat eqn:Ea; [apply Nat.ltb_lt in Ea; lia|].
  destruct (a =? num_clusters s0 + FFD)%nat eqn:E1; [exact BLOCK|].
  destruct (a =? num_clusters s0 + FFI)%nat eqn:E2; [exact BLOCK|].
  destruct (a =? num_clusters s0 + BF1B1)%nat eqn:E3; [exact BLOCK|].
  apply Nat.eqb_neq in E1, E2, E3.
  unfold FFD, FFI, BF1B1, NUM_SPREADING_ACTIONS in *. lia.
Qed.

(** X27: apart from the best-fit split, an action that ends with the
    penalty flag set has changed nothing of the fleet: the allocation, the
    capacities, the free resources, the latencies, the pending request and
    the timeline are what they were before the action. *)
Theorem penalised_action_changes_no_fleet_state (a : nat) (s s1 : Env) :
  a <> (num_clusters s + BF1B1)%nat ->
  take_action a s = Some s1 -> penalty s1 = true ->
  same_fleet s1 s.
Proof.
  intros NB E P.
  destruct (split_number_replicas s) as [|x t] eqn:NE.
  - revert E. enter_take_action s s0.
    assert (F0 : same_fleet s0 s) by (entry_fact s0; repeat split).
    assert (S0 : split_number_replicas s0 = []) by (entry_fact s0; exact NE).
    assert (N0 : num_clusters s0 = num_clusters s) by (entry_fact s0; reflexivity).
    clearbody s0. rewrite <- N0 in NB.
    destruct F0 as ((N & AC & AM & CC & MC & D) & FC & FM & LM & L & RR).
    assert (BLOCK : forall e, same_fleet e s0 ->
              Some (set_penalty true e) = Some s1 -> same_fleet s1 s).
    { intros e ((N' & AC' & AM' & CC' & MC' & D') & FC' & FM' & LM' & L' & RR') X.
      apply Some_eq in X. subst s1. repeat split; simpl; congruence. }
    assert (FFD_RAISES :
              first_fit_decreasing_heuristic (num_replicas (deployment_request s0))
                (cpu_request (deployment_request s0))
                (memory_request (deployment_request s0)) (num_clusters s0)
                (free_cpu s0) (free_memory s0) (split_number_replicas s0) = None).
    { unfold first_fit_decreasing_heuristic, ffd_min_factor. cbv zeta.
      pose proof (split_factors_length (cpu_request (deployment_request s0))
                    (memory_request (deployment_request s0)) (num_clusters s0)
                    (free_cpu s0) (free_memory s0) (split_number_replicas s0)) as Lf.
      rewrite S0 in Lf. rewrite S0.
      destruct (split_factors _ _ _ _ _ []); [reflexivity | discriminate Lf]. }
    destruct (a <? num_clusters s0)%nat.
    { destruct (check_if_cluster_is_full_after_full_deployment s0 a).
      - apply BLOCK. repeat split.
      - intro X. apply Some_eq in X. subst s1. rewrite place_all_penalty in P.
        discriminate P. }
    destruct (a =? num_clusters s0 + FFD)%nat.
    { destruct (num_replicas (deployment_request s0) =? 1)%Z.
      - apply BLOCK. repeat split.
      - rewrite FFD_RAISES. discriminate. }
    destruct (a =? num_clusters s0 + FFI)%nat.
    { destruct (num_replicas (deployment_request s0) =? 1)%Z.
      - apply BLOCK. repeat split.
      - rewrite FFD_RAISES. discriminate. }
    destruct (a =? num_clusters s0 + BF1B1)%nat eqn:E3.
    { apply Nat.eqb_eq in E3. contradiction. }
    destruct (a =? num_clusters s0 + NUM_SPREADING_ACTIONS)%nat.
    { apply BLOCK. repeat split. }
    intro X. apply Some_eq in X. subst s1. repeat split; assumption.
  - destruct (penalised_action_keeps_fleet a s NB) as (e & E' & K);
      [rewrite NE; discriminate|].
    rewrite E in E'. apply Some_eq in E'. subst e. exact (K P).
Qed.

(** ** Instances of the further properties *)

Ltac small_index H := exfalso; vm_compute in H; lia.

Lemma first_state_latency_invariant :
  latency_invariant (num_clusters Fleet.first_state) (latency_matrix Fleet.first_state).
Proof.
  split; [reflexivity|].
  split; [intros [|[|i]] H; [reflexivity | reflexivity | small_index H]|].
  split; [intros [|[|i]] H; [reflexivity | reflexivity | small_index H]|].
  intros [|[|i]] [|[|j]] Hi Hj Ne;
    try small_index Hi; try small_index Hj; try congruence;
    vm_compute; split; discriminate.
Defined.

Lemma first_state_latency_shape :
  latency_shape (num_clusters Fleet.first_state) (latency_matrix Fleet.first_state).
Proof.
  split; [reflexivity|].
  intros [|[|i]] H; [reflexivity | reflexivity | small_index H].
Defined.

Lemma first_state_ledger_shape : ledger_shape Fleet.first_state.
Proof. vm_compute. repeat split. Defined.

Lemma second_state_ledger_shape : ledger_shape Runs.second_state.
Proof. vm_compute. repeat split. Defined.

Lemma crowded_fleet_not_negative (c : nat) :
  (c < 2)%nat -> 0 <= get c Crowded.free_cpu /\ 0 <= get c Crowded.free_mem.
Proof.
  destruct c as [|[|c]]; intro H; [| |small_index H]; vm_compute; split; discriminate.
Defined.

Lemma latency_update_mirrors_row_witness :
  (0 < num_clusters Fleet.first_state)%nat
  /\ latency_shape (num_clusters Fleet.first_state) (latency_matrix Fleet.first_state)
  /\ mirrored_update (fun prev => prev * (115 # 100)) (num_clusters Fleet.first_state) 0
       (latency_matrix Fleet.first_state)
       (latency_matrix (increase_latency 0 (115 # 100) Fleet.first_state))
  /\ mirrored_update (fun prev => prev / (115 # 100)) (num_clusters Fleet.first_state) 0
       (latency_matrix Fleet.first_state)
       (latency_matrix (decrease_latency 0 (115 # 100) Fleet.first_state)).
Proof.
  assert (H0 : (0 < num_clusters Fleet.first_state)%nat) by (vm_compute; lia).
  split; [exact H0|]. split; [exact first_state_latency_shape|].
  exact (latency_update_mirrors_row 0 (115 # 100) Fleet.first_state H0
           first_state_latency_shape).
Defined.

Lemma latency_update_keeps_bounds_witness :
  (0 < num_clusters Fleet.first_state)%nat
  /\ latency_invariant (num_clusters Fleet.first_state) (latency_matrix Fleet.first_state)
  /\ latency_invariant (num_clusters Fleet.first_state)
       (latency_matrix (increase_latency 0 (115 # 100) Fleet.first_state))
  /\ latency_invariant (num_clusters Fleet.first_state)
       (latency_matrix (decrease_latency 0 (115 # 100) Fleet.first_state)).
Proof.
  assert (H0 : (0 < num_clusters Fleet.first_state)%nat) by (vm_compute; lia).
  split; [exact H0|]. split; [exact first_state_latency_invariant|].
  exact (latency_update_keeps_bounds 0 (115 # 100) Fleet.first_state H0
           first_state_latency_invariant).
Defined.

Lemma latency_update_is_monotone_witness :
  (0 < num_clusters Fleet.first_state)%nat /\ (1 < num_clusters Fleet.first_state)%nat
  /\ 1 <= 115 # 100
  /\ latency_invariant (num_clusters Fleet.first_state) (latency_matrix Fleet.first_state)
  /\ mget 0 1 (latency_matrix Fleet.first_state)
     <= mget 0 1 (latency_matrix (increase_latency 0 (115 # 100) Fleet.first_state))
  /\ mget 0 1 (latency_matrix (decrease_latency 0 (115 # 100) Fleet.first_state))
     <= mget 0 1 (latency_matrix Fleet.first_state).
Proof.
  assert (H0 : (0 < num_clusters Fleet.first_state)%nat) by (vm_compute; lia).
  assert (H1 : (1 < num_clusters Fleet.first_state)%nat) by (vm_compute; lia).
  assert (F : 1 <= 115 # 100) by (vm_compute; discriminate).
  split; [exact H0|]. split; [exact H1|]. split; [exact F|].
  split; [exact first_state_latency_invariant|].
  exact (latency_update_is_monotone 0 1 (115 # 100) Fleet.first_state H0 H1 F
           first_state_latency_invariant).
Defined.

Lemma latency_update_refreshes_means_witness :
  (1 < num_clusters Fleet.first_state)%nat
  /\ (num_clusters Fleet.first_state <= List.length (latency Fleet.first_state))%nat
  /\ get 1 (latency (increase_latency 0 (115 # 100) Fleet.first_state))
     = mean_of (row 1 (latency_matrix (increase_latency 0 (115 # 100) Fleet.first_state)))
  /\ get 1 (latency (decrease_latency 0 (115 # 100) Fleet.first_state))
     = mean_of (row 1 (latency_matrix (decrease_latency 0 (115 # 100) Fleet.first_state))).
Proof.
  assert (H1 : (1 < num_clusters Fleet.first_state)%nat) by (vm_compute; lia).
  assert (L : (num_clusters Fleet.first_state
               <= List.length (latency Fleet.first_state))%nat) by (vm_compute; lia).
  split; [exact H1|]. split; [exact L|].
  exact (latency_update_refreshes_means 0 1 (115 # 100) Fleet.first_state H1 L).
Defined.

Lemma fleet_draws_are_unit_draws : unit_draws Fleet.fleet_draws 0.
Proof. vm_compute. repeat split; discriminate. Defined.

Lemma reset_draws_fresh_ledger_witness :
  (0 < num_clusters Runs.placed_a)%nat
  /\ unit_draws Fleet.fleet_draws 0
  /\ num_clusters (reset Fleet.fleet_draws Runs.placed_a) = num_clusters Runs.placed_a
  /\ ledger_shape (reset Fleet.fleet_draws Runs.placed_a)
  /\ fresh_cluster (reset Fleet.fleet_draws Runs.placed_a) 0.
Proof.
  assert (H0 : (0 < num_clusters Runs.placed_a)%nat) by (vm_compute; lia).
  split; [exact H0|]. split; [exact fleet_draws_are_unit_draws|].
  exact (reset_draws_fresh_ledger Fleet.fleet_draws Runs.placed_a 0 H0
           fleet_draws_are_unit_draws).
Defined.

Lemma init_returns_fresh_environment_witness :
  Fleet.catalogue <> []
  /\ (cfg_min_replicas Fleet.config <= cfg_max_replicas Fleet.config)%Z
  /\ 0 < cfg_arrival_rate_r Fleet.config /\ 0 <= cfg_call_duration_r Fleet.config
  /\ exists s, init Fleet.catalogue Fleet.config Fleet.fleet_draws Fleet.first_a = Some s
       /\ num_clusters s = cfg_num_clusters Fleet.config
       /\ running_requests s = []
       /\ current_time s
          = 0 + exponential (1 / cfg_arrival_rate_r Fleet.config) (e_arrival Fleet.first_a)
       /\ dt s
          = current_time s
            + exponential (cfg_call_duration_r Fleet.config) (e_duration Fleet.first_a)
            - current_time s
       /\ penalty s = false
       /\ fresh_latency s
       /\ ledger_shape s
       /\ (forall c, (c < cfg_num_clusters Fleet.config)%nat ->
                     unit_draws Fleet.fleet_draws c -> fresh_cluster s c).
Proof.
  assert (NE : Fleet.catalogue <> []) by discriminate.
  assert (R : (cfg_min_replicas Fleet.config <= cfg_max_replicas Fleet.config)%Z)
    by (vm_compute; discriminate).
  assert (A : 0 < cfg_arrival_rate_r Fleet.config) by reflexivity.
  assert (D : 0 <= cfg_call_duration_r Fleet.config) by (vm_compute; discriminate).
  split; [exact NE|]. split; [exact R|]. split; [exact A|]. split; [exact D|].
  exact (init_returns_fresh_environment Fleet.catalogue Fleet.config Fleet.fleet_draws
           Fleet.first_a NE R A D).
Defined.

Lemma deployment_generator_reaches_blueprint_witness :
  nth_error Fleet.catalogue 2 = Some Fleet.blueprint_c
  /\ (min_replicas Fleet.first_state <= max_replicas Fleet.first_state)%Z
  /\ exists d,
       deployment_generator Fleet.catalogue (mkRequestDraws 1 1 (Z.of_nat 2 + 1) 2)
         Fleet.first_state = Some d
       /\ d = with_num_replicas (num_replicas d) Fleet.blueprint_c.
Proof.
  assert (N : nth_error Fleet.catalogue 2 = Some Fleet.blueprint_c) by reflexivity.
  assert (R : (min_replicas Fleet.first_state <= max_replicas Fleet.first_state)%Z)
    by (vm_compute; discriminate).
  split; [exact N|]. split; [exact R|].
  exact (deployment_generator_reaches_blueprint Fleet.catalogue Fleet.first_state 2
           Fleet.blueprint_c 1 1 2 N R).
Defined.

Lemma best_fit_never_overdraws_witness :
  List.length Crowded.free_cpu = 2%nat /\ List.length Crowded.free_mem = 2%nat
  /\ (1 < 2)%nat
  /\ let '(dist, free_cpu', free_mem') :=
       best_fit_heuristic_one_by_one 8 (1 # 4) (1 # 4) 2
         Crowded.free_cpu Crowded.free_mem in
     List.length dist = 2%nat
     /\ (0 <= geti 1 dist)%Z
     /\ (geti 1 dist = 0%Z ->
         get 1 free_cpu' = get 1 Crowded.free_cpu
         /\ get 1 free_mem' = get 1 Crowded.free_mem)
     /\ ((0 < geti 1 dist)%Z -> 0 <= get 1 free_cpu' /\ 0 <= get 1 free_mem').
Proof.
  assert (H : (1 < 2)%nat) by lia.
  split; [reflexivity|]. split; [reflexivity|]. split; [exact H|].
  exact (best_fit_never_overdraws 8 (1 # 4) (1 # 4) 2
           Crowded.free_cpu Crowded.free_mem 1 eq_refl eq_refl H).
Defined.

Lemma best_fit_skips_clusters_without_room_witness :
  0 <= 1 # 4
  /\ List.length Crowded.free_cpu = 2%nat /\ List.length Crowded.free_mem = 2%nat
  /\ (0 < 2)%nat
  /\ let '(dist, free_cpu', free_mem') :=
       best_fit_heuristic_one_by_one 8 (1 # 4) (1 # 4) 2
         Crowded.free_cpu Crowded.free_mem in
     get 0 free_cpu' <= get 0 Crowded.free_cpu
     /\ get 0 free_mem' <= get 0 Crowded.free_mem
     /\ (get 0 Crowded.free_cpu < 1 # 4 \/ get 0 Crowded.free_mem < 1 # 4 ->
         geti 0 dist = 0%Z).
Proof.
  assert (Q0 : 0 <= 1 # 4) by (vm_compute; discriminate).
  assert (H : (0 < 2)%nat) by lia.
  split; [exact Q0|]. split; [reflexivity|]. split; [reflexivity|]. split; [exact H|].
  exact (best_fit_skips_clusters_without_room 8 (1 # 4) (1 # 4) 2
           Crowded.free_cpu Crowded.free_mem 0 Q0 Q0 eq_refl eq_refl H).
Defined.

Lemma first_fit_decreasing_places_with_room_witness :
  0 < 1 # 4 /\ (1 <= 8)%Z /\ 2%nat <> 0%nat /\ List.length [0; 0] = 2%nat
  /\ (forall c, (c < 2)%nat -> 0 <= get c Crowded.free_cpu /\ 0 <= get c Crowded.free_mem)
  /\ exists dist factors,
       first_fit_decreasing_heuristic 8 (1 # 4) (1 # 4) 2
         Crowded.free_cpu Crowded.free_mem [0; 0] = Some (dist, factors)
       /\ counts_with_room (1 # 4) (1 # 4) Crowded.free_cpu Crowded.free_mem dist.
Proof.
  assert (Q0 : 0 < 1 # 4) by reflexivity.
  assert (R : (1 <= 8)%Z) by lia.
  assert (N : 2%nat <> 0%nat) by lia.
  split; [exact Q0|]. split; [exact R|]. split; [exact N|]. split; [reflexivity|].
  split; [exact crowded_fleet_not_negative|].
  exact (first_fit_decreasing_places_with_room 8 (1 # 4) (1 # 4) 2
           Crowded.free_cpu Crowded.free_mem [0; 0] Q0 Q0 R N eq_refl
           crowded_fleet_not_negative).
Defined.

Lemma first_fit_increasing_raises_iff_no_cluster_witness :
  0 < 1 # 4
  /\ (first_fit_increasing_heuristic 8 (1 # 4) (1 # 4) 0 [] [] = None <-> 0%nat = 0%nat).
Proof.
  assert (Q0 : 0 < 1 # 4) by reflexivity.
  split; [exact Q0|].
  exact (first_fit_increasing_raises_iff_no_cluster 8 (1 # 4) (1 # 4) 0 [] [] Q0 Q0).
Defined.

Lemma first_fit_increasing_never_overplaces_witness :
  0 < 1 # 4 /\ (0 <= 8)%Z /\ 2%nat <> 0%nat
  /\ exists dist,
       first_fit_increasing_heuristic 8 (1 # 4) (1 # 4) 2
         Crowded.free_cpu Crowded.free_mem = Some dist
       /\ List.length dist = 2%nat /\ (Zsum dist <= 8)%Z.
Proof.
  assert (Q0 : 0 < 1 # 4) by reflexivity.
  assert (R : (0 <= 8)%Z) by lia.
  assert (N : 2%nat <> 0%nat) by lia.
  split; [exact Q0|]. split; [exact R|]. split; [exact N|].
  exact (first_fit_increasing_never_overplaces 8 (1 # 4) (1 # 4) 2
           Crowded.free_cpu Crowded.free_mem Q0 Q0 R N).
Defined.

Lemma first_fit_increasing_places_with_room_witness :
  0 < 1 # 4 /\ (1 <= 8)%Z
  /\ (forall c, (c < 2)%nat -> 0 <= get c Crowded.free_cpu /\ 0 <= get c Crowded.free_mem)
  /\ first_fit_increasing_heuristic 8 (1 # 4) (1 # 4) 2
       Crowded.free_cpu Crowded.free_mem = Some [0%Z; 2%Z]
  /\ counts_with_room (1 # 4) (1 # 4) Crowded.free_cpu Crowded.free_mem [0%Z; 2%Z].
Proof.
  assert (Q0 : 0 < 1 # 4) by reflexivity.
  assert (R : (1 <= 8)%Z) by lia.
  assert (E : first_fit_increasing_heuristic 8 (1 # 4) (1 # 4) 2
                Crowded.free_cpu Crowded.free_mem = Some [0%Z; 2%Z])
    by (vm_compute; reflexivity).
  split; [exact Q0|]. split; [exact R|]. split; [exact crowded_fleet_not_negative|].
  split; [exact E|].
  exact (first_fit_increasing_places_with_room 8 (1 # 4) (1 # 4) 2
           Crowded.free_cpu Crowded.free_mem [0%Z; 2%Z] Q0 Q0 R
           crowded_fleet_not_negative E).
Defined.

Lemma first_state_places_a : take_action 0 Fleet.first_state = Some Runs.placed_a.
Proof. vm_compute. reflexivity. Defined.

Lemma take_action_never_overfills_witness :
  ledger_shape Fleet.first_state /\ (0 < num_clusters Fleet.first_state)%nat
  /\ take_action 0 Fleet.first_state = Some Runs.placed_a
  /\ cpu_capacity Runs.placed_a = cpu_capacity Fleet.first_state
  /\ memory_capacity Runs.placed_a = memory_capacity Fleet.first_state
  /\ (allocation_kept Fleet.first_state Runs.placed_a 0
      \/ within_threshold Runs.placed_a 0).
Proof.
  assert (H0 : (0 < num_clusters Fleet.first_state)%nat) by (vm_compute; lia).
  split; [exact first_state_ledger_shape|]. split; [exact H0|].
  split; [exact first_state_places_a|].
  exact (take_action_never_overfills 0 Fleet.first_state Runs.placed_a 0
           first_state_ledger_shape H0 first_state_places_a).
Defined.

Lemma accepted_action_enqueues_pending_request_witness :
  (0 <= num_clusters Fleet.first_state + NUM_SPREADING_ACTIONS)%nat
  /\ take_action 0 Fleet.first_state = Some Runs.placed_a
  /\ running_requests Runs.placed_a
     = if penalty Runs.placed_a then running_requests Fleet.first_state
       else heappush (departure_time (deployment_request Fleet.first_state),
                      deployment_request Runs.placed_a)
                     (running_requests Fleet.first_state).
Proof.
  assert (H0 : (0 <= num_clusters Fleet.first_state + NUM_SPREADING_ACTIONS)%nat)
    by (vm_compute; lia).
  split; [exact H0|]. split; [exact first_state_places_a|].
  exact (accepted_action_enqueues_pending_request 0 Fleet.first_state Runs.placed_a
           H0 first_state_places_a).
Defined.

Lemma next_request_clears_overdue_witness :
  timeline_sorted (running_requests Runs.placed_a)
  /\ next_request Fleet.catalogue Fleet.later_b Runs.placed_a = Some Runs.after_departure
  /\ current_time Runs.after_departure
     = current_time Runs.placed_a
       + exponential (1 / arrival_rate_r Runs.placed_a) (e_arrival Fleet.later_b)
  /\ timeline_sorted (running_requests Runs.after_departure)
  /\ forall entry, In entry (running_requests Runs.after_departure) ->
                   current_time Runs.after_departure <= fst entry.
Proof.
  assert (S : timeline_sorted (running_requests Runs.placed_a))
    by (simpl; split; [intros y []| exact I]).
  assert (E : next_request Fleet.catalogue Fleet.later_b Runs.placed_a
              = Some Runs.after_departure) by (vm_compute; reflexivity).
  split; [exact S|]. split; [exact E|].
  exact (next_request_clears_overdue Fleet.catalogue Fleet.later_b Runs.placed_a
           Runs.after_departure S E).
Defined.

Lemma whole_placement_then_departure_witness :
  ledger_shape Fleet.first_state /\ (0 < num_clusters Fleet.first_state)%nat
  /\ whole_placement_fits Fleet.first_state 0
  /\ is_deployment_split (deployment_request Fleet.first_state) = false
  /\ let r := deployment_request Fleet.first_state in
     exists s1 s2,
       take_action 0 Fleet.first_state = Some s1 /\ dequeue_request s1 = Some s2
       /\ running_requests s2 = running_requests Fleet.first_state
       /\ (forall c, c <> 0%nat ->
             get c (allocated_cpu s2) = get c (allocated_cpu Fleet.first_state)
             /\ get c (allocated_memory s2)
                = get c (allocated_memory Fleet.first_state))
       /\ get 0 (allocated_cpu s2)
          = get 0 (allocated_cpu Fleet.first_state)
            + cpu_request r * inject_Z (num_replicas r)
            - inject_Z (num_replicas r) * cpu_request r
       /\ get 0 (allocated_memory s2)
          = get 0 (allocated_memory Fleet.first_state)
            + memory_request r * inject_Z (num_replicas r)
            - inject_Z (num_replicas r) * memory_request r
       /\ get 0 (free_cpu s2)
          = get 0 (cpu_capacity Fleet.first_state) - get 0 (allocated_cpu s2)
       /\ get 0 (free_memory s2)
          = get 0 (memory_capacity Fleet.first_state) - get 0 (allocated_memory s2).
Proof.
  assert (H0 : (0 < num_clusters Fleet.first_state)%nat) by (vm_compute; lia).
  assert (F : whole_placement_fits Fleet.first_state 0)
    by (vm_compute; split; discriminate).
  assert (N : is_deployment_split (deployment_request Fleet.first_state) = false)
    by reflexivity.
  split; [exact first_state_ledger_shape|]. split; [exact H0|]. split; [exact F|].
  split; [exact N|].
  exact (whole_placement_then_departure 0 Fleet.first_state
           first_state_ledger_shape H0 F N I).
Defined.

Lemma second_state_splits_a : take_action (2 + FFD) Runs.second_state = Some Runs.split_a.
Proof. vm_compute. reflexivity. Defined.

Lemma split_placement_then_departure_witness :
  ledger_shape Runs.second_state
  /\ (num_clusters Runs.second_state <= 2 + FFD
      < num_clusters Runs.second_state + NUM_SPREADING_ACTIONS)%nat
  /\ take_action (2 + FFD) Runs.second_state = Some Runs.split_a
  /\ penalty Runs.split_a = false
  /\ let r := deployment_request Runs.second_state in
     exists s2 div,
       dequeue_request Runs.split_a = Some s2
       /\ split_clusters (deployment_request Runs.split_a) = Some div
       /\ List.length div = num_clusters Runs.second_state
       /\ running_requests s2 = running_requests Runs.second_state
       /\ forall c, (c < num_clusters Runs.second_state)%nat ->
            get c (allocated_cpu s2)
            = get c (allocated_cpu Runs.second_state)
              + cpu_request r * inject_Z (geti c div)
              - cpu_request r * inject_Z (geti c div)
            /\ get c (allocated_memory s2)
               = get c (allocated_memory Runs.second_state)
                 + memory_request r * inject_Z (geti c div)
                 - memory_request r * inject_Z (geti c div).
Proof.
  assert (Ha : (num_clusters Runs.second_state <= 2 + FFD
                < num_clusters Runs.second_state + NUM_SPREADING_ACTIONS)%nat)
    by (vm_compute; lia).
  assert (P : penalty Runs.split_a = false) by reflexivity.
  split; [exact second_state_ledger_shape|]. split; [exact Ha|].
  split; [exact second_state_splits_a|]. split; [exact P|].
  exact (split_placement_then_departure (2 + FFD) Runs.second_state Runs.split_a
           second_state_ledger_shape Ha I second_state_splits_a P).
Defined.

Lemma step_keeps_counters_consistent_witness :
  (0 <= accepted_requests Fleet.first_state <= offered_requests Fleet.first_state)%Z
  /\ (0 <= ep_accepted_requests Fleet.first_state <= current_step Fleet.first_state)%Z
  /\ step Fleet.catalogue Fleet.no_gini Fleet.no_normalize Fleet.no_round
          0 Fleet.then_b Fleet.first_state
     = Some (fst Runs.stepped_a, snd Runs.stepped_a)
  /\ offered_requests (fst Runs.stepped_a) = (offered_requests Fleet.first_state + 1)%Z
  /\ current_step (fst Runs.stepped_a) = (current_step Fleet.first_state + 1)%Z
  /\ (accepted_requests Fleet.first_state <= accepted_requests (fst Runs.stepped_a)
      <= accepted_requests Fleet.first_state + 1)%Z
  /\ (accepted_requests (fst Runs.stepped_a) - accepted_requests Fleet.first_state
      = ep_accepted_requests (fst Runs.stepped_a)
        - ep_accepted_requests Fleet.first_state)%Z
  /\ (0 <= accepted_requests (fst Runs.stepped_a)
      <= offered_requests (fst Runs.stepped_a))%Z
  /\ (0 <= ep_accepted_requests (fst Runs.stepped_a)
      <= current_step (fst Runs.stepped_a))%Z
  /\ (0 <= block_prob (fst Runs.stepped_a) /\ block_prob (fst Runs.stepped_a) <= 1)
  /\ (0 <= ep_block_prob (fst Runs.stepped_a) /\ ep_block_prob (fst Runs.stepped_a) <= 1).
Proof.
  assert (A : (0 <= accepted_requests Fleet.first_state
               <= offered_requests Fleet.first_state)%Z) by (vm_compute; split; discriminate).
  assert (B : (0 <= ep_accepted_requests Fleet.first_state
               <= current_step Fleet.first_state)%Z) by (vm_compute; split; discriminate).
  assert (E : step Fleet.catalogue Fleet.no_gini Fleet.no_normalize Fleet.no_round
                   0 Fleet.then_b Fleet.first_state
              = Some (fst Runs.stepped_a, snd Runs.stepped_a)) by (vm_compute; reflexivity).
  split; [exact A|]. split; [exact B|]. split; [exact E|].
  exact (step_keeps_counters_consistent Fleet.catalogue Fleet.no_gini Fleet.no_normalize
           Fleet.no_round 0 Fleet.then_b Fleet.first_state
           (fst Runs.stepped_a) (snd Runs.stepped_a) A B E).
Defined.

Lemma episode_needs_an_admission_to_end_witness :
  avg_latency Runs.last_state = []
  /\ (current_step Runs.last_state + 1 = episode_length Runs.last_state)%Z
  /\ step Fleet.catalogue Fleet.no_gini Fleet.no_normalize Fleet.no_round
          0 Fleet.then_b Runs.last_state
     = Some (fst Runs.last_stepped, snd Runs.last_stepped)
  /\ accepted_requests (fst Runs.last_stepped)
     = (accepted_requests Runs.last_state + 1)%Z
  /\ avg_latency (fst Runs.last_stepped) <> [].
Proof.
  assert (A : avg_latency Runs.last_state = []) by reflexivity.
  assert (B : (current_step Runs.last_state + 1 = episode_length Runs.last_state)%Z)
    by reflexivity.
  assert (E : step Fleet.catalogue Fleet.no_gini Fleet.no_normalize Fleet.no_round
                   0 Fleet.then_b Runs.last_state
              = Some (fst Runs.last_stepped, snd Runs.last_stepped))
    by (vm_compute; reflexivity).
  split; [exact A|]. split; [exact B|]. split; [exact E|].
  exact (episode_needs_an_admission_to_end Fleet.catalogue Fleet.no_gini
           Fleet.no_normalize Fleet.no_round 0 Fleet.then_b Runs.last_state
           (fst Runs.last_stepped) (snd Runs.last_stepped) A B E).
Defined.

Lemma step_raises_on_unknown_objective_witness :
  ~ In (reward_function Runs.risk_state) [NAIVE; MULTI; LATENCY; COST]
  /\ step Fleet.catalogue Fleet.no_gini Fleet.no_normalize Fleet.no_round
          0 Fleet.then_b Runs.risk_state = None.
Proof.
  assert (U : ~ In (reward_function Runs.risk_state) [NAIVE; MULTI; LATENCY; COST])
    by (intros [H|[H|[H|[H|[]]]]]; discriminate H).
  split; [exact U|].
  exact (step_raises_on_unknown_objective Fleet.catalogue Fleet.no_gini
           Fleet.no_normalize Fleet.no_round 0 Fleet.then_b Runs.risk_state U).
Defined.

Lemma penalised_reward_is_negative_iff_avoidable_witness :
  penalty Runs.rejected_a = true
  /\ In (reward_function Runs.rejected_a) [NAIVE; MULTI; LATENCY; COST]
  /\ exists r,
       get_reward Fleet.no_gini Fleet.no_normalize Fleet.no_round Runs.rejected_a = Some r
       /\ (r == -1 \/ r == 1 \/ r == MAX_COST - MIN_COST)
       /\ (r < 0 <-> exists k, (k < num_clusters Runs.rejected_a)%nat
                               /\ whole_placement_fits Runs.rejected_a k).
Proof.
  assert (P : penalty Runs.rejected_a = true) by reflexivity.
  assert (K : In (reward_function Runs.rejected_a) [NAIVE; MULTI; LATENCY; COST])
    by (left; reflexivity).
  split; [exact P|]. split; [exact K|].
  exact (penalised_reward_is_negative_iff_avoidable Fleet.no_gini Fleet.no_normalize
           Fleet.no_round Runs.rejected_a P K).
Defined.

Lemma get_state_has_declared_shape_witness :
  get_state Fleet.first_state = Some Runs.first_observation
  /\ List.length Runs.first_observation
     = (num_clusters Fleet.first_state + NUM_SPREADING_ACTIONS + 1)%nat
  /\ (forall i, (i < num_clusters Fleet.first_state + NUM_SPREADING_ACTIONS + 1)%nat ->
        List.length (nth i Runs.first_observation [])
        = (NUM_METRICS_CLUSTER + NUM_METRICS_REQUEST + 2)%nat
        /\ skipn (NUM_METRICS_CLUSTER + 1) (nth i Runs.first_observation [])
           = [inject_Z (num_replicas (deployment_request Fleet.first_state));
              cpu_request (deployment_request Fleet.first_state);
              memory_request (deployment_request Fleet.first_state);
              latency_threshold (deployment_request Fleet.first_state);
              dt Fleet.first_state])
  /\ (forall i, (num_clusters Fleet.first_state <= i
                 < num_clusters Fleet.first_state + NUM_SPREADING_ACTIONS + 1)%nat ->
        firstn (NUM_METRICS_CLUSTER + 1) (nth i Runs.first_observation [])
        = repeat (-1) (NUM_METRICS_CLUSTER + 1)).
Proof.
  assert (E : get_state Fleet.first_state = Some Runs.first_observation)
    by (vm_compute; reflexivity).
  split; [exact E|].
  exact (get_state_has_declared_shape Fleet.first_state Runs.first_observation E).
Defined.

Lemma single_replica_is_never_split_witness :
  num_replicas (deployment_request Fleet.first_state) = 1%Z
  /\ (num_clusters Fleet.first_state <= 2 + BF1B1
      < num_clusters Fleet.first_state + NUM_SPREADING_ACTIONS)%nat
  /\ exists s1, take_action (2 + BF1B1) Fleet.first_state = Some s1
                /\ penalty s1 = true /\ same_fleet s1 Fleet.first_state.
Proof.
  assert (O : num_replicas (deployment_request Fleet.first_state) = 1%Z) by reflexivity.
  assert (Ha : (num_clusters Fleet.first_state <= 2 + BF1B1
                < num_clusters Fleet.first_state + NUM_SPREADING_ACTIONS)%nat)
    by (vm_compute; lia).
  split; [exact O|]. split; [exact Ha|].
  exact (single_replica_is_never_split (2 + BF1B1) Fleet.first_state O Ha).
Defined.

Lemma penalised_action_changes_no_fleet_state_witness :
  Fleet.reject <> (num_clusters Fleet.first_state + BF1B1)%nat
  /\ take_action Fleet.reject Fleet.first_state = Some Runs.rejected_a
  /\ penalty Runs.rejected_a = true
  /\ same_fleet Runs.rejected_a Fleet.first_state.
Proof.
  assert (N : Fleet.reject <> (num_clusters Fleet.first_state + BF1B1)%nat)
    by (vm_compute; lia).
  assert (E : take_action Fleet.reject Fleet.first_state = Some Runs.rejected_a)
    by (vm_compute; reflexivity).
  assert (P : penalty Runs.rejected_a = true) by reflexivity.
  split; [exact N|]. split; [exact E|]. split; [exact P|].
  exact (penalised_action_changes_no_fleet_state Fleet.reject Fleet.first_state
           Runs.rejected_a N E P).
Defined.
